(** * Elastic IP service of cluster-api-provider-aws

    A shallow embedding of [pkg/cloud/services/network/eip/eips.go]:
    allocation with the bring-your-own public IPv4 pool check, reuse of
    unassociated addresses, disassociation and release behind the retrying
    waiter, and bulk release by filter.

    The EC2 client is an interface of the source ([ec2iface.EC2API]); it is
    a type class here, a deterministic state machine over a client state.
    Every call the service makes is recorded, with its answer, in a
    chronological trace, so that statements about which requests are sent,
    how many and in which order are statements about data. *)

From Stdlib Require Import String List ZArith Bool Lia PeanoNat.
Import ListNotations.

Local Open Scope string_scope.
Local Open Scope list_scope.

(** ** Go errors *)

(** An error value is an AWS error carrying a code ([awserr.Error]), an
    error built from a format ([errors.New], [errors.Errorf], [fmt.Errorf]),
    or an error wrapped with a message ([errors.Wrap], [errors.Wrapf]).
    Formats are kept uninterpreted next to their arguments. *)
Inductive error : Type :=
| AwsErr (code message : string)
| Errorf (format : string) (args : list fmtArg)
| Wrapf (cause : error) (format : string) (args : list fmtArg)
with fmtArg : Type :=
| ArgString (s : string)
| ArgStringPtr (p : option string)
| ArgInt (n : Z)
| ArgError (e : error).

Module errors.

(** [errors.Cause]: the innermost error under the wrapping layers. *)
Fixpoint Cause (e : error) : error :=
  match e with
  | Wrapf c _ _ => Cause c
  | _ => e
  end.

Definition New (msg : string) : error := Errorf msg [].

Definition Wrap (e : error) (msg : string) : error := Wrapf e msg [].

End errors.

Module awserrors.

(** Modelled from the spec: the [awserrors] package is not among the
    sources. Its three codes name the provider's "auth failure", "address
    still in use" and "association not found" results, and [Code] reads the
    code of an AWS error (and reports that there is none otherwise). *)
Definition AuthFailure : string := "AuthFailure".
Definition InUseIPAddress : string := "InvalidIPAddress.InUse".
Definition AssociationIDNotFound : string := "InvalidAssociationID.NotFound".

Definition Code (e : error) : string * bool :=
  match e with
  | AwsErr code _ => (code, true)
  | _ => ("", false)
  end.

End awserrors.

(** ** SDK helpers and request/response shapes *)

Module aws.

Definition String (s : string) : option string := Some s.

Definition StringValue (p : option string) : string :=
  match p with Some s => s | None => "" end.

Definition Int64Value (p : option Z) : Z :=
  match p with Some n => n | None => 0%Z end.

End aws.

Module filter.

(** Modelled from the spec: the [filter] package is not among the sources.
    [filter.EC2.Cluster name] is the cluster-identity filter and
    [filter.EC2.ProviderRole role] the role-tag filter. *)
Inductive Filter : Type :=
| Cluster (name : string)
| ProviderRole (role : string).

End filter.

Module infrav1.

(** The fallback order is an enumerated value: [none], or a value that
    allows the provider's default pool. *)
Inductive PublicIpv4PoolFallbackOrder : Type :=
| PublicIpv4PoolFallbackOrderAmazonPool
| PublicIpv4PoolFallbackOrderNone.

Definition Equal (r e : PublicIpv4PoolFallbackOrder) : bool :=
  match r, e with
  | PublicIpv4PoolFallbackOrderAmazonPool, PublicIpv4PoolFallbackOrderAmazonPool => true
  | PublicIpv4PoolFallbackOrderNone, PublicIpv4PoolFallbackOrderNone => true
  | _, _ => false
  end.

Definition showOrder (r : PublicIpv4PoolFallbackOrder) : string :=
  match r with
  | PublicIpv4PoolFallbackOrderAmazonPool => "amazon-pool"
  | PublicIpv4PoolFallbackOrderNone => "none"
  end.

(** The two fields of [VPCSpec] the service reads; both are pointers. *)
Record VPCSpec : Type := {
  PublicIpv4Pool : option string;
  PublicIpv4PoolFallBackOrder : option PublicIpv4PoolFallbackOrder
}.

Inductive ResourceLifecycle : Type :=
| ResourceLifecycleOwned
| ResourceLifecycleShared.

Definition Tags : Type := list (string * string).

Record BuildParams : Type := {
  ClusterName : string;
  Lifecycle : ResourceLifecycle;
  Name : option string;
  Role : option string;
  Additional : Tags
}.

End infrav1.

Module ec2.

Definition ResourceTypeElasticIp : string := "elastic-ip".

(** The fields of [ec2.Address] the service reads, all three pointers, and
    the tags the provider selects by. The slices of the answers hold
    pointers to such records; their elements are taken to be present. *)
Record Address : Type := {
  AllocationId : option string;
  AssociationId : option string;
  PublicIp : option string;
  Tags : list (string * string)
}.

Record DescribeAddressesInput : Type := {
  Filters : list filter.Filter
}.

Record DescribeAddressesOutput : Type := {
  Addresses : list Address
}.

Record AllocateAddressInput (TagSpecification : Type) : Type := {
  Domain : option string;
  TagSpecifications : list TagSpecification;
  AllocPublicIpv4Pool : option string
}.
Arguments Domain {TagSpecification} _.
Arguments TagSpecifications {TagSpecification} _.
Arguments AllocPublicIpv4Pool {TagSpecification} _.

Record AllocateAddressOutput : Type := {
  OutAllocationId : option string
}.

Record DisassociateAddressInput : Type := {
  DisAssociationId : option string
}.

Record ReleaseAddressInput : Type := {
  RelAllocationId : option string
}.

Record DescribePublicIpv4PoolsInput : Type := {
  PoolIds : list (option string)
}.

Record PublicIpv4Pool : Type := {
  PoolId : option string;
  TotalAvailableAddressCount : option Z
}.

Record DescribePublicIpv4PoolsOutput : Type := {
  PublicIpv4Pools : list PublicIpv4Pool
}.

End ec2.

(** The value of the tag [key] of an address. *)
Fixpoint tagValue (key : string) (tags : list (string * string)) : option string :=
  match tags with
  | [] => None
  | (k, v) :: rest => if String.eqb k key then Some v else tagValue key rest
  end.

Definition clusterTag (a : ec2.Address) : option string := tagValue "cluster" (ec2.Tags a).
Definition roleTag (a : ec2.Address) : option string := tagValue "role" (ec2.Tags a).

(** Modelled from the spec: how the provider reads a filter is outside the
    sources. An address carries a [cluster] tag and a [role] tag; the
    cluster-identity filter selects the addresses whose cluster tag is the
    cluster's name, the role filter those whose role tag is the role. *)
Definition selects (f : filter.Filter) (a : ec2.Address) : Prop :=
  match f with
  | filter.Cluster name => clusterTag a = Some name
  | filter.ProviderRole role => roleTag a = Some role
  end.

(** ** The EC2 client *)

Module ec2iface.

(** The five methods of [ec2iface.EC2API] the service calls. A method takes
    the request and the client's state and gives the Go result pair (output
    pointer, error) and the next state. The outputs of disassociate and
    release are discarded by every caller, so only their error is kept. *)
Class EC2API (TagSpec St : Type) : Type := {
  DescribeAddressesWithContext :
    ec2.DescribeAddressesInput -> St ->
    (option ec2.DescribeAddressesOutput * option error) * St;
  AllocateAddressWithContext :
    ec2.AllocateAddressInput TagSpec -> St ->
    (option ec2.AllocateAddressOutput * option error) * St;
  DisassociateAddressWithContext :
    ec2.DisassociateAddressInput -> St -> option error * St;
  ReleaseAddressWithContext :
    ec2.ReleaseAddressInput -> St -> option error * St;
  DescribePublicIpv4Pools :
    ec2.DescribePublicIpv4PoolsInput -> St ->
    (option ec2.DescribePublicIpv4PoolsOutput * option error) * St
}.

End ec2iface.

(** One exchange with the provider: the request and what came back. *)
Inductive Interaction (TagSpec : Type) : Type :=
| IDescribeAddresses (input : ec2.DescribeAddressesInput)
    (out : option ec2.DescribeAddressesOutput) (err : option error)
| IAllocateAddress (input : ec2.AllocateAddressInput TagSpec)
    (out : option ec2.AllocateAddressOutput) (err : option error)
| IDisassociateAddress (input : ec2.DisassociateAddressInput) (err : option error)
| IReleaseAddress (input : ec2.ReleaseAddressInput) (err : option error)
| IDescribePublicIpv4Pools (input : ec2.DescribePublicIpv4PoolsInput)
    (out : option ec2.DescribePublicIpv4PoolsOutput) (err : option error).
Arguments IDescribeAddresses {TagSpec} _ _ _.
Arguments IAllocateAddress {TagSpec} _ _ _.
Arguments IDisassociateAddress {TagSpec} _ _.
Arguments IReleaseAddress {TagSpec} _ _.
Arguments IDescribePublicIpv4Pools {TagSpec} _ _ _.

(** What the event recorder and the logger receive. *)
Inductive EventKind : Type := EvWarn | EvNormal | EvInfo | EvDebug.

Record Event : Type := {
  evKind : EventKind;
  evReason : string;
  evFormat : string;
  evArgs : list fmtArg
}.

(** ** The service's effects *)

(** The world a call runs in: the client's state, the trace of exchanges
    (oldest first) and the events emitted (oldest first). *)
Record World (TagSpec St : Type) : Type := {
  client : St;
  trace : list (Interaction TagSpec);
  events : list Event
}.
Arguments client {TagSpec St} _.
Arguments trace {TagSpec St} _.
Arguments events {TagSpec St} _.
Arguments Build_World {TagSpec St} _ _ _.

(** A run ends with a value, or panics (a nil pointer dereference). *)
Inductive outcome (A : Type) : Type :=
| Done (a : A)
| Panicked.
Arguments Done {A} _.
Arguments Panicked {A}.

Definition M (TagSpec St A : Type) : Type :=
  World TagSpec St -> outcome A * World TagSpec St.

Definition ret {T St A} (a : A) : M T St A := fun w => (Done a, w).

Definition bind {T St A B} (m : M T St A) (k : A -> M T St B) : M T St B :=
  fun w =>
    match m w with
    | (Done a, w') => k a w'
    | (Panicked, w') => (Panicked, w')
    end.

Definition panic {T St A} : M T St A := fun w => (Panicked, w).

(** [*p] for a pointer [p]. *)
Definition deref {T St A} (p : option A) : M T St A :=
  match p with
  | Some a => ret a
  | None => panic
  end.

Notation "x <- m ;; k" := (bind m (fun x => k))
  (at level 61, m at next level, right associativity).
Notation "m ;;; k" := (bind m (fun _ => k))
  (at level 61, right associativity).

Definition emit {T St} (e : Event) : M T St unit :=
  fun w => (Done tt, Build_World (client w) (trace w) (events w ++ [e])).

Definition exchange {T St} (i : Interaction T) (st : St) (w : World T St)
  : World T St :=
  Build_World st (trace w ++ [i]) (events w).

(** A computation has footprint [P] when all it does to the trace is to
    append exchanges that satisfy [P]. *)
Definition footprint {T St A} (P : Interaction T -> Prop) (m : M T St A) : Prop :=
  forall w, exists d, trace (snd (m w)) = trace w ++ d /\ Forall P d.

(** The same with a postcondition [Q] on the value of a run that ends. *)
Definition footprintWith {T St A} (P : Interaction T -> Prop) (Q : A -> Prop)
    (m : M T St A) : Prop :=
  forall w, exists d,
    trace (snd (m w)) = trace w ++ d /\ Forall P d
    /\ forall a, fst (m w) = Done a -> Q a.

Module record.

Definition Warnf {T St} (reason format : string) (args : list fmtArg) : M T St unit :=
  emit {| evKind := EvWarn; evReason := reason; evFormat := format; evArgs := args |}.

Definition Eventf {T St} (reason format : string) (args : list fmtArg) : M T St unit :=
  emit {| evKind := EvNormal; evReason := reason; evFormat := format; evArgs := args |}.

End record.

Module EC2Client.
Import ec2iface.

Section Calls.
Context {T St : Type} {api : EC2API T St}.

Definition DescribeAddressesWithContext (input : ec2.DescribeAddressesInput)
  : M T St (option ec2.DescribeAddressesOutput * option error) :=
  fun w =>
    let '(r, st) := ec2iface.DescribeAddressesWithContext input (client w) in
    (Done r, exchange (IDescribeAddresses input (fst r) (snd r)) st w).

Definition AllocateAddressWithContext (input : ec2.AllocateAddressInput T)
  : M T St (option ec2.AllocateAddressOutput * option error) :=
  fun w =>
    let '(r, st) := ec2iface.AllocateAddressWithContext input (client w) in
    (Done r, exchange (IAllocateAddress input (fst r) (snd r)) st w).

Definition DisassociateAddressWithContext (input : ec2.DisassociateAddressInput)
  : M T St (option error) :=
  fun w =>
    let '(r, st) := ec2iface.DisassociateAddressWithContext input (client w) in
    (Done r, exchange (IDisassociateAddress input r) st w).

Definition ReleaseAddressWithContext (input : ec2.ReleaseAddressInput)
  : M T St (option error) :=
  fun w =>
    let '(r, st) := ec2iface.ReleaseAddressWithContext input (client w) in
    (Done r, exchange (IReleaseAddress input r) st w).

Definition DescribePublicIpv4Pools (input : ec2.DescribePublicIpv4PoolsInput)
  : M T St (option ec2.DescribePublicIpv4PoolsOutput * option error) :=
  fun w =>
    let '(r, st) := ec2iface.DescribePublicIpv4Pools input (client w) in
    (Done r, exchange (IDescribePublicIpv4Pools input (fst r) (snd r)) st w).

End Calls.

End EC2Client.

(** ** The retrying waiter *)

Module wait.

(** The part of a backoff that decides how often the condition is tried.
    Durations, factor and jitter concern real time only. *)
Record Backoff : Type := {
  Steps : nat
}.

Definition ErrWaitTimeout : error :=
  Errorf "timed out waiting for the condition" [].

Section Waiter.
Context {T St : Type}.

(** Modelled from the spec: the [wait] package is not among the sources.
    [retry(backoffPolicy, operation, retryableErrorCodes...)] tries the
    operation a bounded number of times. A success ends it with no error.
    An error whose code is one of the retryable codes causes another
    attempt; any other error is terminal at once. When the attempts are
    exhausted the last retryable error (or, without one, a timeout error)
    is the terminal error. [errToReturn] is the retryable error of the
    previous attempt. *)
Fixpoint retryLoop (steps : nat) (condition : M T St (bool * option error))
    (retryableErrors : list string) (errToReturn : option error)
  : M T St (option error) :=
  match steps with
  | O =>
      ret (Some (match errToReturn with
                 | Some e => e
                 | None => ErrWaitTimeout
                 end))
  | S steps' =>
      r <- condition ;;
      match r with
      | (true, _) => ret None
      | (false, None) => retryLoop steps' condition retryableErrors None
      | (false, Some err) =>
          match awserrors.Code (errors.Cause err) with
          | (code, true) =>
              if existsb (String.eqb code) retryableErrors
              then retryLoop steps' condition retryableErrors (Some err)
              else ret (Some err)
          | (_, false) => ret (Some err)
          end
      end
  end.

Definition WaitForWithRetryable (backoff : Backoff)
    (condition : M T St (bool * option error)) (retryableErrors : list string)
  : M T St (option error) :=
  retryLoop (Steps backoff) condition retryableErrors None.

End Waiter.

End wait.

(** ** The logger *)

(** Modelled from the spec: the [logger] package is not among the sources.
    [logger.Wrapper] is the interface the service embeds for [Info] and
    [Debug]. A logger that is there records the message in the log and
    does nothing else ("Success is logged with the public IP and
    allocation id for operability; no other side effect"). *)
Module logger.

Inductive Wrapper : Type := Sink.

End logger.

(** ** The service *)

Module eip.

(** The service: the embedded [logger.Wrapper] (an interface value, [nil]
    unless it is set), and the configuration behind [Name()], [VPC()] (a
    pointer) and [AdditionalTags()]. The EC2 client is the client of the
    world the service runs in; the cluster object only addresses the event
    recorder. *)
Record Service : Type := {
  Wrapper : option logger.Wrapper;
  name : string;
  vpc : option infrav1.VPCSpec;
  additionalTags : infrav1.Tags
}.

(** [ServiceInput], the input options to create the service. *)
Module ServiceInput.
Record t : Type := {
  AdditionalTags : infrav1.Tags;
  VPC : option infrav1.VPCSpec;
  Name : string
}.
End ServiceInput.

(* NewService build the EIP service to be used in different controllers.
   The composite literal names no logger: the embedded interface is left
   at its zero value, nil. *)
Definition NewService (input : ServiceInput.t) : Service :=
  {| Wrapper := None;
     additionalTags := ServiceInput.AdditionalTags input;
     vpc := ServiceInput.VPC input;
     name := ServiceInput.Name input |}.

Definition Name (s : Service) : string := name s.
Definition VPC (s : Service) : option infrav1.VPCSpec := vpc s.
Definition AdditionalTags (s : Service) : infrav1.Tags := additionalTags s.

Section Eips.
Context {T St : Type} {api : ec2iface.EC2API T St}.

(** [wait.NewBackoff()] and [tags.BuildParamsToTagSpecification] are
    collaborators outside the sources; the service is read for any backoff
    and any tag builder. *)
Variable NewBackoff : wait.Backoff.
Variable BuildParamsToTagSpecification : string -> infrav1.BuildParams -> T.

(** [s.Info] and [s.Debug] are the methods of the embedded interface,
    promoted to the service: a call on a service whose [Wrapper] is nil is a
    nil dereference. *)
Definition Info (s : Service) (msg : string) (keysAndValues : list fmtArg)
  : M T St unit :=
  match Wrapper s with
  | Some _ =>
      emit {| evKind := EvInfo; evReason := msg; evFormat := "";
              evArgs := keysAndValues |}
  | None => panic
  end.

Definition Debug (s : Service) (msg : string) (keysAndValues : list fmtArg)
  : M T St unit :=
  match Wrapper s with
  | Some _ =>
      emit {| evKind := EvDebug; evReason := msg; evFormat := "";
              evArgs := keysAndValues |}
  | None => panic
  end.

(* getEIPTagParams build the tags for EIP. *)
Definition getEIPTagParams (s : Service) (role : string) : infrav1.BuildParams :=
  let name := (Name s ++ "-eip-" ++ role)%string in
  {| infrav1.ClusterName := Name s;
     infrav1.Lifecycle := infrav1.ResourceLifecycleOwned;
     infrav1.Name := aws.String name;
     infrav1.Role := aws.String role;
     infrav1.Additional := AdditionalTags s |}.

(* publicIpv4PoolHasFreeIPs check if there are N IPs address available in a
   Public IPv4 Pool. *)
Definition publicIpv4PoolHasFreeIPs (s : Service) (want : Z)
  : M T St (bool * option error) :=
  v <- deref (VPC s) ;;
  r <- EC2Client.DescribePublicIpv4Pools
         {| ec2.PoolIds := [infrav1.PublicIpv4Pool v] |} ;;
  match r with
  | (_, Some err) =>
      ret (false, Some (Wrapf err "failed to describe Public IPv4 Pool %v: %q"
                          [ArgStringPtr (infrav1.PublicIpv4Pool v); ArgError err]))
  | (pools, None) =>
      pools <- deref pools ;;
      match ec2.PublicIpv4Pools pools with
      | [pool] =>
          let freeIPs := aws.Int64Value (ec2.TotalAvailableAddressCount pool) in
          if (freeIPs <? want)%Z then
            ret (false, Some (Errorf "the pool %v does not have requested size. want %d, got %d"
                                [ArgStringPtr (infrav1.PublicIpv4Pool v); ArgInt want; ArgInt freeIPs]))
          else
            Debug s "public IPv4 pool has %d IPs available" [ArgString "eip"; ArgInt freeIPs] ;;;
            ret (true, None)
      | l =>
          ret (false, Some (Errorf "unexpected number of Public IPv4 Pools. want 1, got %d"
                              [ArgInt (Z.of_nat (length l))]))
      end
  end.

(* setByoPublicIpv4 check if the config has Public IPv4 Pool defined, then
   check if there are IPs available to consume from allocation, otherwise
   fallback to Amazon pool when explicty failure isn't defined.
   The request is updated in place in the source; here the updated request
   is returned next to the error. *)
Definition setByoPublicIpv4 (s : Service) (alloc : ec2.AllocateAddressInput T)
  : M T St (ec2.AllocateAddressInput T * option error) :=
  v <- deref (VPC s) ;;
  match infrav1.PublicIpv4Pool v with
  | None => ret (alloc, None)
  | Some _ =>
      r <- publicIpv4PoolHasFreeIPs s 1 ;;
      match r with
      | (_, Some _) =>
          record.Warnf "FailedAllocateEIP"
            "Failed to allocate Elastic IP in Public IPv4 Pool %s"
            [ArgStringPtr (infrav1.PublicIpv4Pool v)] ;;;
          ret (alloc, Some (errors.New "failed to allocate Elastic IP from PublicIpv4 Pool"))
      | (true, None) =>
          ret ({| ec2.Domain := ec2.Domain alloc;
                  ec2.TagSpecifications := ec2.TagSpecifications alloc;
                  ec2.AllocPublicIpv4Pool := infrav1.PublicIpv4Pool v |}, None)
      | (false, None) =>
          match infrav1.PublicIpv4PoolFallBackOrder v with
          | Some order =>
              if infrav1.Equal order infrav1.PublicIpv4PoolFallbackOrderNone then
                record.Warnf "FailedAllocateEIPFromBYOIP"
                  "Failed to allocate Elastic IP in Public IPv4 Pool %s and fallback isnt enabled"
                  [ArgStringPtr (infrav1.PublicIpv4Pool v)] ;;;
                ret (alloc, Some (Errorf "failed to allocate Elastic IP from PublicIpv4 Pool and use fallback with strategy %s"
                                    [ArgString (infrav1.showOrder order)]))
              else ret (alloc, None)
          | None => ret (alloc, None)
          end
      end
  end.

Definition allocateAddress (s : Service) (role : string)
  : M T St (string * option error) :=
  let tagSpecifications :=
    BuildParamsToTagSpecification ec2.ResourceTypeElasticIp (getEIPTagParams s role) in
  let allocInput :=
    {| ec2.Domain := aws.String "vpc";
       ec2.TagSpecifications := [tagSpecifications];
       ec2.AllocPublicIpv4Pool := None |} in
  r <- setByoPublicIpv4 s allocInput ;;
  match r with
  | (_, Some err) => ret ("", Some err)
  | (allocInput, None) =>
      r <- EC2Client.AllocateAddressWithContext allocInput ;;
      match r with
      | (_, Some err) =>
          record.Warnf "FailedAllocateEIP" "Failed to allocate Elastic IP for %q: %v"
            [ArgString role; ArgError err] ;;;
          ret ("", Some (errors.Wrap err "failed to allocate Elastic IP"))
      | (out, None) =>
          out <- deref out ;;
          ret (aws.StringValue (ec2.OutAllocationId out), None)
      end
  end.

Definition describeAddresses (s : Service) (role : string)
  : M T St (option ec2.DescribeAddressesOutput * option error) :=
  let x := [filter.Cluster (Name s)] in
  let x := if String.eqb role "" then x else x ++ [filter.ProviderRole role] in
  EC2Client.DescribeAddressesWithContext {| ec2.Filters := x |}.

(** The condition [disassociateAddress] hands to the waiter. *)
Definition disassociateCondition (ip : ec2.Address) : M T St (bool * option error) :=
  err <- EC2Client.DisassociateAddressWithContext
           {| ec2.DisAssociationId := ec2.AssociationId ip |} ;;
  match err with
  | Some e =>
      let '(cause, _) := awserrors.Code (errors.Cause e) in
      if negb (String.eqb cause awserrors.AssociationIDNotFound)
      then ret (false, Some e)
      else ret (true, None)
  | None => ret (true, None)
  end.

Definition disassociateAddress (s : Service) (ip : ec2.Address) : M T St (option error) :=
  err <- wait.WaitForWithRetryable NewBackoff (disassociateCondition ip)
           [awserrors.AuthFailure] ;;
  match err with
  | Some e =>
      id <- deref (ec2.AllocationId ip) ;;
      record.Warnf "FailedDisassociateEIP" "Failed to disassociate Elastic IP %q: %v"
        [ArgString id; ArgError e] ;;;
      ret (Some (Wrapf e "failed to disassociate Elastic IP %q" [ArgString id]))
  | None => ret None
  end.

(** The condition [releaseAddress] hands to the waiter. Both branches after
    the inline disassociation return the release error. *)
Definition releaseCondition (s : Service) (ip : ec2.Address) : M T St (bool * option error) :=
  err <- EC2Client.ReleaseAddressWithContext
           {| ec2.RelAllocationId := ec2.AllocationId ip |} ;;
  match err with
  | Some e =>
      match ec2.AssociationId ip with
      | Some _ =>
          derr <- disassociateAddress s ip ;;
          match derr with
          | Some _ => ret (false, Some e)
          | None => ret (false, Some e)
          end
      | None => ret (false, Some e)
      end
  | None => ret (true, None)
  end.

(* releaseAddress releases an given EIP address back to the pool. *)
Definition releaseAddress (s : Service) (ip : ec2.Address) : M T St (option error) :=
  early <-
    match ec2.AssociationId ip with
    | Some assoc =>
        err <- EC2Client.DisassociateAddressWithContext
                 {| ec2.DisAssociationId := ec2.AssociationId ip |} ;;
        match err with
        | Some e =>
            id <- deref (ec2.AllocationId ip) ;;
            record.Warnf "FailedDisassociateEIP" "Failed to disassociate Elastic IP %q: %v"
              [ArgString id; ArgError e] ;;;
            pub <- deref (ec2.PublicIp ip) ;;
            ret (Some (Errorf "failed to disassociate Elastic IP %q with allocation ID %q: Still associated with association ID %q"
                         [ArgString pub; ArgString id; ArgString assoc]))
        | None => ret None
        end
    | None => ret None
    end ;;
  match early with
  | Some e => ret (Some e)
  | None =>
      err <- wait.WaitForWithRetryable NewBackoff (releaseCondition s ip)
               [awserrors.AuthFailure; awserrors.InUseIPAddress] ;;
      match err with
      | Some e =>
          id <- deref (ec2.AllocationId ip) ;;
          record.Warnf "FailedReleaseEIP" "Failed to disassociate Elastic IP %q: %v"
            [ArgString id; ArgError e] ;;;
          ret (Some (Wrapf e "failed to release ElasticIP %q" [ArgString id]))
      | None =>
          pub <- deref (ec2.PublicIp ip) ;;
          id <- deref (ec2.AllocationId ip) ;;
          Info s "released ElasticIP"
            [ArgString "eip"; ArgString pub; ArgString "allocation-id"; ArgString id] ;;;
          ret None
      end
  end.

(** The loop of [releaseAddresses] over [out.Addresses]. *)
Fixpoint releaseEach (s : Service) (addresses : list ec2.Address) : M T St (option error) :=
  match addresses with
  | [] => ret None
  | ip :: rest =>
      err <- releaseAddress s ip ;;
      match err with
      | Some e => ret (Some e)
      | None => releaseEach s rest
      end
  end.

(* releaseAddresses releases all address based in the filter. *)
Definition releaseAddresses (s : Service) (filters : list filter.Filter)
  : M T St (option error) :=
  r <- EC2Client.DescribeAddressesWithContext {| ec2.Filters := filters |} ;;
  match r with
  | (_, Some err) =>
      ret (Some (Wrapf err "failed to describe elastic IPs %q" [ArgError err]))
  | (None, None) => ret None
  | (Some out, None) => releaseEach s (ec2.Addresses out)
  end.

(* ReleaseAddresses releases all EIPs filtering by tag CAPA cluster name. *)
Definition ReleaseAddresses (s : Service) : M T St (option error) :=
  releaseAddresses s [filter.Cluster (Name s)].

(* ReleaseAddressByRole releases EIP addresses filtering by tag CAPA provider role. *)
Definition ReleaseAddressByRole (s : Service) (role : string) : M T St (option error) :=
  let clusterFilter := [filter.Cluster (Name s)] in
  let clusterFilter := clusterFilter ++ [filter.ProviderRole role] in
  releaseAddresses s clusterFilter.

(** The first loop of [GetOrAllocateAddresses]: the allocation ids of the
    addresses without an association, in the order of the answer. *)
Fixpoint reuse (addresses : list ec2.Address) (eips : list string) : list string :=
  match addresses with
  | [] => eips
  | address :: rest =>
      match ec2.AssociationId address with
      | None => reuse rest (eips ++ [aws.StringValue (ec2.AllocationId address)])
      | Some _ => reuse rest eips
      end
  end.

(** The second loop, [for len(eips) < num]: [missing] is the number of
    rounds left, [num - len(eips)]. *)
Fixpoint allocateMissing (missing : nat) (s : Service) (role : string)
    (eips : list string) : M T St (list string * option error) :=
  match missing with
  | O => ret (eips, None)
  | S missing' =>
      r <- allocateAddress s role ;;
      match r with
      | (_, Some err) => ret ([], Some err)
      | (ip, None) => allocateMissing missing' s role (eips ++ [ip])
      end
  end.

(* GetOrAllocateAddresses is a best effort function to lookup unused EIP by
   role, or allocate it when none. *)
Definition GetOrAllocateAddresses (s : Service) (num : Z) (role : string)
  : M T St (list string * option error) :=
  r <- describeAddresses s role ;;
  match r with
  | (_, Some err) =>
      record.Eventf "FailedDescribeAddresses" "Failed to query addresses for role %q: %v"
        [ArgString role; ArgError err] ;;;
      ret ([], Some (errors.Wrap err "failed to query addresses"))
  | (out, None) =>
      out <- deref out ;;
      let eips := reuse (ec2.Addresses out) [] in
      allocateMissing (Z.to_nat (num - Z.of_nat (length eips))) s role eips
  end.

End Eips.

End eip.

(** ** Observations on traces *)

Section Observers.
Context {T : Type}.

Definition isAllocate (i : Interaction T) : bool :=
  match i with IAllocateAddress _ _ _ => true | _ => false end.

Definition isRelease (i : Interaction T) : bool :=
  match i with IReleaseAddress _ _ => true | _ => false end.

(** The allocate requests of a trace. *)
Definition allocateRequests (tr : list (Interaction T)) : list (Interaction T) :=
  filter isAllocate tr.

(** The identities the provider minted in a trace: one per allocate
    exchange that came back without an error. *)
Definition allocatedIds (tr : list (Interaction T)) : list string :=
  flat_map (fun i =>
              match i with
              | IAllocateAddress _ (Some out) None =>
                  [aws.StringValue (ec2.OutAllocationId out)]
              | _ => []
              end) tr.

(** The number of release requests of a trace. *)
Definition releaseAttempts (tr : list (Interaction T)) : nat :=
  length (filter isRelease tr).

(** Whether some release request of a trace was answered without an
    error. *)
Definition releaseSucceeded (tr : list (Interaction T)) : bool :=
  existsb (fun i => match i with IReleaseAddress _ None => true | _ => false end) tr.

(** The codes the release waiter is given as retryable. *)
Definition releaseRetryable (e : error) : bool :=
  match awserrors.Code (errors.Cause e) with
  | (code, true) =>
      existsb (String.eqb code) [awserrors.AuthFailure; awserrors.InUseIPAddress]
  | (_, false) => false
  end.

(** Every failed release exchange is directly followed by a disassociate
    exchange for the association [assoc]. *)
Fixpoint inlineDisassociation (assoc : option string) (tr : list (Interaction T)) : bool :=
  match tr with
  | [] => true
  | IReleaseAddress _ (Some _) :: rest =>
      match rest with
      | IDisassociateAddress input _ :: _ =>
          match ec2.DisAssociationId input, assoc with
          | Some a, Some b => String.eqb a b
          | _, _ => false
          end
      | _ => false
      end && inlineDisassociation assoc rest
  | _ :: rest => inlineDisassociation assoc rest
  end.

(** The retry policy of the release waiter, read off a trace with
    [budget] attempts available: a failed release exchange is followed by
    another release exchange exactly when its code is retryable and
    attempts remain, and an accepted release is the last one. *)
Fixpoint retryPolicyRespected (budget : nat) (tr : list (Interaction T)) : bool :=
  match tr with
  | [] => true
  | IReleaseAddress _ (Some e) :: rest =>
      Bool.eqb (Nat.ltb 0 (releaseAttempts rest))
               (releaseRetryable e && Nat.ltb 1 budget)
      && retryPolicyRespected (pred budget) rest
  | IReleaseAddress _ None :: rest =>
      Nat.eqb (releaseAttempts rest) 0 && retryPolicyRespected (pred budget) rest
  | _ :: rest => retryPolicyRespected budget rest
  end.

(** The exchange [i] is a disassociate request for the association of
    [ip]. *)
Definition disassociates (ip : ec2.Address) (i : Interaction T) : Prop :=
  exists err,
    i = IDisassociateAddress {| ec2.DisAssociationId := ec2.AssociationId ip |} err.

(** The filters of the address queries of a trace, oldest first. *)
Definition queriedFilters (tr : list (Interaction T)) : list (list filter.Filter) :=
  flat_map (fun i =>
              match i with
              | IDescribeAddresses input _ _ => [ec2.Filters input]
              | _ => []
              end) tr.

(** An exchange that touches an address: a disassociate or a release. *)
Definition touches (i : Interaction T) : bool :=
  match i with
  | IDisassociateAddress _ _ | IReleaseAddress _ _ => true
  | _ => false
  end.

(** The exchange [i] is a disassociate or a release request built from the
    address [ip]. *)
Definition targets (ip : ec2.Address) (i : Interaction T) : Prop :=
  match i with
  | IDisassociateAddress input _ => ec2.DisAssociationId input = ec2.AssociationId ip
  | IReleaseAddress input _ => ec2.RelAllocationId input = ec2.AllocationId ip
  | _ => False
  end.

End Observers.

(** [releasedInOrder addresses w w']: starting in [w], each address of
    the list, in the order of the list, was handed to [releaseAddress] in
    the world its predecessor left, each release returned no error, and the
    last one left [w']. *)
Inductive releasedInOrder {T St : Type} {api : ec2iface.EC2API T St}
    (NewBackoff : wait.Backoff) (s : eip.Service)
  : list ec2.Address -> World T St -> World T St -> Prop :=
| released_nil w : releasedInOrder NewBackoff s [] w w
| released_cons ip rest w w1 w2 :
    eip.releaseAddress NewBackoff s ip w = (Done None, w1) ->
    releasedInOrder NewBackoff s rest w1 w2 ->
    releasedInOrder NewBackoff s (ip :: rest) w w2.

(** What [GetOrAllocateAddresses] may send for a role: address queries
    with the filters [filters], pool queries, and allocate requests in the
    VPC domain that carry the one tag specification [spec]. *)
Definition allocatesTagged {T : Type} (filters : list filter.Filter) (spec : T)
    (i : Interaction T) : Prop :=
  match i with
  | IDescribeAddresses input _ _ => ec2.Filters input = filters
  | IDescribePublicIpv4Pools _ _ _ => True
  | IAllocateAddress input _ _ =>
      ec2.TagSpecifications input = [spec] /\ ec2.Domain input = Some "vpc"
  | _ => False
  end.

(** What a bulk release may send: address queries with the filters
    [filters], and disassociate and release requests. *)
Definition releasesListed {T : Type} (filters : list filter.Filter)
    (i : Interaction T) : Prop :=
  match i with
  | IDescribeAddresses input _ _ => ec2.Filters input = filters
  | IDisassociateAddress _ _ | IReleaseAddress _ _ => True
  | _ => False
  end.

(** Whether a disassociate error says that the association is not there;
    this is the test of [disassociateAddress]. *)
Definition associationNotFound (e : error) : bool :=
  String.eqb (fst (awserrors.Code (errors.Cause e))) awserrors.AssociationIDNotFound.

(** Whether an error carries the auth failure code, the one code the
    disassociate waiter is given as retryable. *)
Definition authFailure (e : error) : bool :=
  match awserrors.Code (errors.Cause e) with
  | (code, true) => existsb (String.eqb code) [awserrors.AuthFailure]
  | (_, false) => false
  end.

(** An address of the answer is reusable when it has no association. *)
Definition unassociated (a : ec2.Address) : bool :=
  match ec2.AssociationId a with None => true | Some _ => false end.

(** The identities of the reusable addresses of an answer, in its order. *)
Definition reusable (addresses : list ec2.Address) : list string :=
  map (fun a => aws.StringValue (ec2.AllocationId a)) (filter unassociated addresses).

(** ** A scripted client *)

Module mock.

(** The tag specification of the scripted client is the pair the tag
    builder was given. *)
Definition TagSpec : Type := (string * infrav1.BuildParams)%type.

Definition BuildParamsToTagSpecification (resourceType : string)
    (params : infrav1.BuildParams) : TagSpec :=
  (resourceType, params).

(** The answers the client will give, per method, in order. *)
Record Script : Type := {
  describeAddressesAnswers : list (option ec2.DescribeAddressesOutput * option error);
  allocateAnswers : list (option ec2.AllocateAddressOutput * option error);
  disassociateAnswers : list (option error);
  releaseAnswers : list (option error);
  poolsAnswers : list (option ec2.DescribePublicIpv4PoolsOutput * option error)
}.

Definition unexpected : error := Errorf "unexpected call" [].

Definition describeAddresses (_ : ec2.DescribeAddressesInput) (st : Script) :=
  match describeAddressesAnswers st with
  | a :: rest =>
      (a, {| describeAddressesAnswers := rest;
             allocateAnswers := allocateAnswers st;
             disassociateAnswers := disassociateAnswers st;
             releaseAnswers := releaseAnswers st;
             poolsAnswers := poolsAnswers st |})
  | [] => ((None, Some unexpected), st)
  end.

Definition allocate (_ : ec2.AllocateAddressInput TagSpec) (st : Script) :=
  match allocateAnswers st with
  | a :: rest =>
      (a, {| describeAddressesAnswers := describeAddressesAnswers st;
             allocateAnswers := rest;
             disassociateAnswers := disassociateAnswers st;
             releaseAnswers := releaseAnswers st;
             poolsAnswers := poolsAnswers st |})
  | [] => ((None, Some unexpected), st)
  end.

Definition disassociate (_ : ec2.DisassociateAddressInput) (st : Script) :=
  match disassociateAnswers st with
  | a :: rest =>
      (a, {| describeAddressesAnswers := describeAddressesAnswers st;
             allocateAnswers := allocateAnswers st;
             disassociateAnswers := rest;
             releaseAnswers := releaseAnswers st;
             poolsAnswers := poolsAnswers st |})
  | [] => (Some unexpected, st)
  end.

Definition release (_ : ec2.ReleaseAddressInput) (st : Script) :=
  match releaseAnswers st with
  | a :: rest =>
      (a, {| describeAddressesAnswers := describeAddressesAnswers st;
             allocateAnswers := allocateAnswers st;
             disassociateAnswers := disassociateAnswers st;
             releaseAnswers := rest;
             poolsAnswers := poolsAnswers st |})
  | [] => (Some unexpected, st)
  end.

Definition pools (_ : ec2.DescribePublicIpv4PoolsInput) (st : Script) :=
  match poolsAnswers st with
  | a :: rest =>
      (a, {| describeAddressesAnswers := describeAddressesAnswers st;
             allocateAnswers := allocateAnswers st;
             disassociateAnswers := disassociateAnswers st;
             releaseAnswers := releaseAnswers st;
             poolsAnswers := rest |})
  | [] => ((None, Some unexpected), st)
  end.

#[global] Instance client : ec2iface.EC2API TagSpec Script := {
  ec2iface.DescribeAddressesWithContext := describeAddresses;
  ec2iface.AllocateAddressWithContext := allocate;
  ec2iface.DisassociateAddressWithContext := disassociate;
  ec2iface.ReleaseAddressWithContext := release;
  ec2iface.DescribePublicIpv4Pools := pools
}.

Definition idle : Script :=
  {| describeAddressesAnswers := [];
     allocateAnswers := [];
     disassociateAnswers := [];
     releaseAnswers := [];
     poolsAnswers := [] |}.

(** A world with an empty trace around a script. *)
Definition start (st : Script) : World TagSpec Script :=
  Build_World st [] [].

Definition backoff : wait.Backoff := {| wait.Steps := 3 |}.

(** A cluster with a bring-your-own pool and the given fallback order, and
    with a logger set. *)
Definition byo (order : option infrav1.PublicIpv4PoolFallbackOrder) : eip.Service :=
  {| eip.Wrapper := Some logger.Sink;
     eip.name := "c1";
     eip.vpc := Some {| infrav1.PublicIpv4Pool := Some "ipv4pool-ec2-1";
                        infrav1.PublicIpv4PoolFallBackOrder := order |};
     eip.additionalTags := [] |}.

(** A cluster without a bring-your-own pool, with a logger set. *)
Definition plain : eip.Service :=
  {| eip.Wrapper := Some logger.Sink;
     eip.name := "c1";
     eip.vpc := Some {| infrav1.PublicIpv4Pool := None;
                        infrav1.PublicIpv4PoolFallBackOrder := None |};
     eip.additionalTags := [] |}.

(** The same two clusters as [eip.NewService] builds them. *)
Definition byoBuilt (order : option infrav1.PublicIpv4PoolFallbackOrder) : eip.Service :=
  eip.NewService
    {| eip.ServiceInput.AdditionalTags := [];
       eip.ServiceInput.VPC :=
         Some {| infrav1.PublicIpv4Pool := Some "ipv4pool-ec2-1";
                 infrav1.PublicIpv4PoolFallBackOrder := order |};
       eip.ServiceInput.Name := "c1" |}.

Definition plainBuilt : eip.Service :=
  eip.NewService
    {| eip.ServiceInput.AdditionalTags := [];
       eip.ServiceInput.VPC :=
         Some {| infrav1.PublicIpv4Pool := None;
                 infrav1.PublicIpv4PoolFallBackOrder := None |};
       eip.ServiceInput.Name := "c1" |}.

Definition pool (free : Z) : ec2.PublicIpv4Pool :=
  {| ec2.PoolId := Some "ipv4pool-ec2-1";
     ec2.TotalAvailableAddressCount := Some free |}.

Definition addressWithRole (role alloc : string) (assoc : option string) : ec2.Address :=
  {| ec2.AllocationId := Some alloc;
     ec2.AssociationId := assoc;
     ec2.PublicIp := Some "203.0.113.7";
     ec2.Tags := [("cluster", "c1"); ("role", role)] |}.

Definition address : string -> option string -> ec2.Address := addressWithRole "worker".

Definition minted (alloc : string) : option ec2.AllocateAddressOutput * option error :=
  (Some {| ec2.OutAllocationId := Some alloc |}, None).

Definition listed (l : list ec2.Address)
  : option ec2.DescribeAddressesOutput * option error :=
  (Some {| ec2.Addresses := l |}, None).

(** A pool query answered with one pool that has no free address. *)
Definition exhausted : mock.Script :=
  {| mock.describeAddressesAnswers := [];
     mock.allocateAnswers := [mock.minted "eipalloc-1"];
     mock.disassociateAnswers := [];
     mock.releaseAnswers := [];
     mock.poolsAnswers := [(Some {| ec2.PublicIpv4Pools := [mock.pool 0] |}, None)] |}.

(** An address query answered with an empty list. *)
Definition nothingListed : Script :=
  {| describeAddressesAnswers := [listed []];
     allocateAnswers := [];
     disassociateAnswers := [];
     releaseAnswers := [];
     poolsAnswers := [] |}.

(** An error the release waiter does not retry. *)
Definition denied : error := AwsErr "UnauthorizedOperation" "not allowed".

Definition three : list ec2.Address :=
  [address "a" None; address "b" None; address "c" None].

(** Three unassociated addresses are listed; the release of the first is
    accepted, the release of the second is refused, and an answer is ready
    for a third release. *)
Definition secondReleaseFails : Script :=
  {| describeAddressesAnswers := [listed three];
     allocateAnswers := [];
     disassociateAnswers := [];
     releaseAnswers := [None; Some denied; None];
     poolsAnswers := [] |}.

(** Two free addresses and an attached one are listed; two allocations
    are ready to be answered. *)
Definition twoFree : Script :=
  {| describeAddressesAnswers :=
       [listed [address "a" None; address "b" (Some "eipassoc-1"); address "c" None]];
     allocateAnswers := [minted "eipalloc-1"; minted "eipalloc-2"];
     disassociateAnswers := [];
     releaseAnswers := [];
     poolsAnswers := [] |}.

(** An attached address as the provider lists it. *)
Definition attached : ec2.Address := address "a" (Some "eipassoc-1").

Definition throttled : error := AwsErr awserrors.AuthFailure "not now".
Definition gone : error := AwsErr awserrors.AssociationIDNotFound "no such association".
Definition inUse : error := AwsErr awserrors.InUseIPAddress "still in use".

(** The first disassociate request is refused with an auth failure. *)
Definition disassociateRefused : Script :=
  {| describeAddressesAnswers := [];
     allocateAnswers := [];
     disassociateAnswers := [Some throttled; None];
     releaseAnswers := [None];
     poolsAnswers := [] |}.

(** The first disassociate request finds the association gone. *)
Definition associationGone : Script :=
  {| describeAddressesAnswers := [];
     allocateAnswers := [];
     disassociateAnswers := [Some gone];
     releaseAnswers := [None];
     poolsAnswers := [] |}.

(** The address is detached at once but stays in use for two release
    requests; the inline disassociation finds the association gone. *)
Definition inUseTwice : Script :=
  {| describeAddressesAnswers := [];
     allocateAnswers := [];
     disassociateAnswers := [None; Some gone; Some gone];
     releaseAnswers := [Some inUse; Some inUse; None];
     poolsAnswers := [] |}.

(** The address stays in use whatever is tried. *)
Definition inUseForever : Script :=
  {| describeAddressesAnswers := [];
     allocateAnswers := [];
     disassociateAnswers := [None; None; None; None; None; None; None];
     releaseAnswers := [Some inUse; Some inUse; Some inUse; Some inUse; Some inUse];
     poolsAnswers := [] |}.

(** One free address with an empty role tag is listed and its release is
    accepted. *)
Definition emptyRoleListed : Script :=
  {| describeAddressesAnswers := [listed [addressWithRole "" "a" None]];
     allocateAnswers := [];
     disassociateAnswers := [];
     releaseAnswers := [None];
     poolsAnswers := [] |}.

End mock.


(** ** The callers of the service and an earlier copy *)

(** [errors.Wrapf] on an error that may be nil: wrapping nil gives nil. *)
Definition wrapNilable (err : option error) (format : string) (args : list fmtArg)
  : option error :=
  match err with
  | Some e => Some (Wrapf e format args)
  | None => None
  end.

Module elbv2.

Definition LoadBalancerTypeEnumNetwork : string := "network".

Record SubnetMapping : Type := {
  SubnetId : option string;
  AllocationId : option string
}.

(** The fields of [elbv2.CreateLoadBalancerInput] the load balancer
    service reads here; [LBType] is the field [Type]. *)
Record CreateLoadBalancerInput : Type := {
  LBType : option string;
  SubnetMappings : list SubnetMapping;
  Subnets : list (option string)
}.

End elbv2.

Module elb.

(** What the load balancer service holds for this file: the VPC of its
    scope (a pointer) and the Elastic IP service [s.eip]. *)
Record Service : Type := {
  scopeVPC : option infrav1.VPCSpec;
  eipService : eip.Service
}.

Section LoadBalancer.
Context {T St : Type} {api : ec2iface.EC2API T St}.
Variable BuildParamsToTagSpecification : string -> infrav1.BuildParams -> T.

(** The loop over [input.Subnets]: one mapping per subnet, with the
    identity at the same index. Indexing past the identities panics. *)
Fixpoint mapSubnets (subnets : list (option string)) (eips : list string)
    (mappings : list elbv2.SubnetMapping) : M T St (list elbv2.SubnetMapping) :=
  match subnets with
  | [] => ret mappings
  | sb :: rest =>
      id <- deref sb ;;
      match eips with
      | ip :: eips' =>
          mapSubnets rest eips'
            (mappings ++ [{| elbv2.SubnetId := aws.String id;
                             elbv2.AllocationId := aws.String ip |}])
      | [] => panic
      end
  end.

(* createLBAddressesFromPublicIpv4Pool: the request is updated in place in
   the source; here the updated request is returned next to the error. The
   mappings printed by the second error are kept as their subnet ids. *)
Definition createLBAddressesFromPublicIpv4Pool (s : Service)
    (input : elbv2.CreateLoadBalancerInput) (role : string)
  : M T St (elbv2.CreateLoadBalancerInput * option error) :=
  v <- deref (scopeVPC s) ;;
  match infrav1.PublicIpv4Pool v with
  | None => ret (input, None)
  | Some _ =>
      type <- deref (elbv2.LBType input) ;;
      if negb (String.eqb type elbv2.LoadBalancerTypeEnumNetwork) then
        ret (input, Some (Errorf "custom PublicIpv4Pool is supported only with Network Load Balancer type: %s"
                            [ArgString type]))
      else if Nat.ltb 0 (length (elbv2.SubnetMappings input)) then
        ret (input, Some (Errorf "custom PublicIpv4Pool is mutual exclusive with SubnetMappings: %v"
                            (map (fun m => ArgStringPtr (elbv2.SubnetId m))
                                 (elbv2.SubnetMappings input))))
      else
        r <- eip.GetOrAllocateAddresses BuildParamsToTagSpecification (eipService s)
               (Z.of_nat (length (elbv2.Subnets input))) role ;;
        match r with
        | (_, Some err) =>
            ret (input, Some (Wrapf err "failed to allocate EIP from Custom Public IPv4 Pool %v to role: %s"
                                [ArgStringPtr (infrav1.PublicIpv4Pool v); ArgString role]))
        | (eips, None) =>
            if negb (Nat.eqb (length eips) (length (elbv2.Subnets input))) then
              ret (input, Some (Errorf "allocated EIPs (%d) missmatch with the subnet count (%d)"
                                  [ArgInt (Z.of_nat (length eips));
                                   ArgInt (Z.of_nat (length (elbv2.Subnets input)))]))
            else
              mappings <- mapSubnets (elbv2.Subnets input) eips (elbv2.SubnetMappings input) ;;
              ret ({| elbv2.LBType := elbv2.LBType input;
                      elbv2.SubnetMappings := mappings;
                      elbv2.Subnets := [] |}, None)
        end
  end.

End LoadBalancer.

End elb.

Module instance.

(** [ec2.AssociateAddressInput], as the instance service fills it. *)
Record AssociateAddressInput : Type := {
  InstanceId : option string;
  AllocationId : option string
}.

(** The one further method of the EC2 client the instance service calls;
    its output is discarded. *)
Class AssociateAPI (St : Type) : Type := {
  AssociateAddressWithContext : AssociateAddressInput -> St -> option error * St
}.

(** The world of the instance service: the world of the Elastic IP service
    and the associate exchanges, oldest first. *)
Record IWorld (T St : Type) : Type := {
  net : World T St;
  associations : list (AssociateAddressInput * option error)
}.
Arguments net {T St} _.
Arguments associations {T St} _.
Arguments Build_IWorld {T St} _ _.

(** The field of [infrav1.Instance] read here. *)
Record Instance : Type := {
  ID : string
}.

(** What the instance service holds for this file: [s.eip]. *)
Record Service : Type := {
  eipService : eip.Service
}.

Section InstanceService.
Context {T St : Type} {api : ec2iface.EC2API T St} {assoc : AssociateAPI St}.
Variable NewBackoff : wait.Backoff.
Variable BuildParamsToTagSpecification : string -> infrav1.BuildParams -> T.

Definition MI (A : Type) : Type := IWorld T St -> outcome A * IWorld T St.

(** A call into the Elastic IP service. *)
Definition liftNet {A} (m : M T St A) : MI A :=
  fun iw =>
    let '(r, w) := m (net iw) in
    (r, Build_IWorld w (associations iw)).

Definition associate (input : AssociateAddressInput) : MI (option error) :=
  fun iw =>
    let '(err, st) := AssociateAddressWithContext input (client (net iw)) in
    (Done err,
     Build_IWorld (Build_World st (trace (net iw)) (events (net iw)))
       (associations iw ++ [(input, err)])).

(* getAndAssociateAddressesToInstance find or create an EIP from an
   instance and role. In the branch for an unexpected number of
   identities [err] is nil: the event prints a nil error and
   [errors.Wrapf] wraps nil. *)
Definition getAndAssociateAddressesToInstance (s : Service) (role : string)
    (instance : string) : MI (option error) :=
  fun iw =>
    match liftNet (eip.GetOrAllocateAddresses BuildParamsToTagSpecification
                     (eipService s) 1 role) iw with
    | (Panicked, iw1) => (Panicked, iw1)
    | (Done (_, Some err), iw1) =>
        let '(_, iw2) :=
          liftNet (record.Warnf "FailedAllocateEIP" "Failed to get Elastic IP for %q: %v"
                     [ArgString role; ArgError err]) iw1 in
        (Done (Some err), iw2)
    | (Done (eips, None), iw1) =>
        if negb (Nat.eqb (length eips) 1) then
          let '(_, iw2) :=
            liftNet (record.Warnf "FailedAllocateEIP" "Failed to allocate Elastic IP for %q: %v"
                       [ArgString role; ArgStringPtr None]) iw1 in
          (Done (wrapNilable None "unexpected number of Elastic IP to instance %s: %d"
                   [ArgString instance; ArgInt (Z.of_nat (length eips))]), iw2)
        else
          match eips with
          | [] => (Panicked, iw1)
          | eip0 :: _ =>
              match associate {| InstanceId := aws.String instance;
                                 AllocationId := aws.String eip0 |} iw1 with
              | (Done (Some err), iw2) =>
                  let '(_, iw3) :=
                    liftNet (record.Warnf "FailedAssociateEIP"
                               "Failed to associate Elastic IP for %q: %v"
                               [ArgString role; ArgError err]) iw2 in
                  (Done (wrapNilable (Some err)
                           "failed to associate Elastic IP %s to instance %s"
                           [ArgString eip0; ArgString instance]), iw3)
              | (Done None, iw2) => (Done None, iw2)
              | (Panicked, iw2) => (Panicked, iw2)
              end
          end
    end.

(** The role an instance's address goes by: [fmt.Sprintf("ec2-%s", id)]. *)
Definition instanceRole (id : string) : string := ("ec2-" ++ id)%string.

(* ReconcileElasticIPFromPublicPool reconciles the elastic IP from a custom
   Public IPv4 Pool. *)
Definition ReconcileElasticIPFromPublicPool (s : Service) (i : Instance)
  : MI (option error) :=
  fun iw =>
    match getAndAssociateAddressesToInstance s (instanceRole (ID i)) (ID i) iw with
    | (Done (Some err), iw1) =>
        (Done (Some (Errorf "failed to reconcile EIP: %v" [ArgError err])), iw1)
    | (Done None, iw1) => (Done None, iw1)
    | (Panicked, iw1) => (Panicked, iw1)
    end.

(* ReleaseElasticIP reconciles the elastic IP from a custom Public IPv4 Pool. *)
Definition ReleaseElasticIP (s : Service) (instanceID : string) : MI (option error) :=
  liftNet (eip.ReleaseAddressByRole NewBackoff (eipService s) (instanceRole instanceID)).

End InstanceService.

End instance.

Module earlier.

Section EarlierCopy.
Context {T St : Type} {api : ec2iface.EC2API T St}.
Variable BuildParamsToTagSpecification : string -> infrav1.BuildParams -> T.

(** [allocateAddress] as an earlier copy of the file has it, with the pool
    check inline. *)
Definition allocateAddress (s : eip.Service) (role : string)
  : M T St (string * option error) :=
  let tagSpecifications :=
    BuildParamsToTagSpecification ec2.ResourceTypeElasticIp (eip.getEIPTagParams s role) in
  let allocInput :=
    {| ec2.Domain := aws.String "vpc";
       ec2.TagSpecifications := [tagSpecifications];
       ec2.AllocPublicIpv4Pool := None |} in
  v <- deref (eip.VPC s) ;;
  r <- match infrav1.PublicIpv4Pool v with
       | Some _ =>
           r <- eip.publicIpv4PoolHasFreeIPs s 1 ;;
           match r with
           | (_, Some _) =>
               record.Warnf "FailedAllocateEIP"
                 "Failed to allocate Elastic IP for %q in Public IPv4 Pool %s"
                 [ArgString role; ArgStringPtr (infrav1.PublicIpv4Pool v)] ;;;
               ret (allocInput, Some (errors.New "failed to allocate Elastic IP from PublicIpv4 Pool"))
           | (ok, None) =>
               match infrav1.PublicIpv4PoolFallBackOrder v with
               | Some order =>
                   if negb ok && infrav1.Equal order infrav1.PublicIpv4PoolFallbackOrderNone then
                     record.Warnf "FailedAllocateEIPFromBYOIP"
                       "Failed to allocate Elastic IP for %q in Public IPv4 Pool %s and fallback isnt enabled//"
                       [ArgString role; ArgStringPtr (infrav1.PublicIpv4Pool v)] ;;;
                     ret (allocInput,
                          Some (Errorf "failed to allocate Elastic IP from PublicIpv4 Pool and use fallback with strategy %s"
                                  [ArgString (infrav1.showOrder order)]))
                   else
                     ret ({| ec2.Domain := ec2.Domain allocInput;
                             ec2.TagSpecifications := ec2.TagSpecifications allocInput;
                             ec2.AllocPublicIpv4Pool := infrav1.PublicIpv4Pool v |}, None)
               | None =>
                   ret ({| ec2.Domain := ec2.Domain allocInput;
                           ec2.TagSpecifications := ec2.TagSpecifications allocInput;
                           ec2.AllocPublicIpv4Pool := infrav1.PublicIpv4Pool v |}, None)
               end
           end
       | None => ret (allocInput, None)
       end ;;
  match r with
  | (_, Some err) => ret ("", Some err)
  | (allocInput, None) =>
      r <- EC2Client.AllocateAddressWithContext allocInput ;;
      match r with
      | (_, Some err) =>
          record.Warnf "FailedAllocateEIP" "Failed to allocate Elastic IP for %q: %v"
            [ArgString role; ArgError err] ;;;
          ret ("", Some (errors.Wrap err "failed to allocate Elastic IP"))
      | (out, None) =>
          out <- deref out ;;
          ret (aws.StringValue (ec2.OutAllocationId out), None)
      end
  end.

End EarlierCopy.

End earlier.

(** Whether some disassociate request of a trace was answered without an
    error or with "association not found". *)
Definition detached {T : Type} (tr : list (Interaction T)) : bool :=
  existsb (fun i =>
             match i with
             | IDisassociateAddress _ None => true
             | IDisassociateAddress _ (Some e) => associationNotFound e
             | _ => false
             end) tr.

(** An exchange that is a release request for the allocation of [ip]. *)
Definition releases {T : Type} (ip : ec2.Address) (i : Interaction T) : Prop :=
  exists err, i = IReleaseAddress {| ec2.RelAllocationId := ec2.AllocationId ip |} err.

(** An allocate request, if the exchange is one, names the pool the
    service is configured with: none without a configured pool. *)
Definition allocatesFromConfigured {T : Type} (s : eip.Service) (i : Interaction T) : Prop :=
  match i with
  | IAllocateAddress input _ _ =>
      exists v, eip.VPC s = Some v
                /\ ec2.AllocPublicIpv4Pool input = infrav1.PublicIpv4Pool v
  | _ => True
  end.

(** Whether an answer to the pool query shows room for [want] addresses:
    no error, exactly one pool, and at least [want] available. *)
Definition showsRoom (want : Z) (out : option ec2.DescribePublicIpv4PoolsOutput)
    (err : option error) : bool :=
  match err, out with
  | None, Some o =>
      match ec2.PublicIpv4Pools o with
      | [p] => (want <=? aws.Int64Value (ec2.TotalAvailableAddressCount p))%Z
      | _ => false
      end
  | _, _ => false
  end.

(** ** A provider that answers the allocations *)

Section Answers.
Context {T St : Type} {api : ec2iface.EC2API T St}.
Variable BuildParamsToTagSpecification : string -> infrav1.BuildParams -> T.




End Answers.


Module scene.

(** The pool has five free addresses and one allocation is answered. *)
Definition poolHasRoom : mock.Script :=
  {| mock.describeAddressesAnswers := [];
     mock.allocateAnswers := [mock.minted "eipalloc-1"];
     mock.disassociateAnswers := [];
     mock.releaseAnswers := [];
     mock.poolsAnswers := [(Some {| ec2.PublicIpv4Pools := [mock.pool 5] |}, None)] |}.

(** The pool query answers with no pool at all. *)
Definition poolUnknown : mock.Script :=
  {| mock.describeAddressesAnswers := [];
     mock.allocateAnswers := [mock.minted "eipalloc-1"];
     mock.disassociateAnswers := [];
     mock.releaseAnswers := [];
     mock.poolsAnswers := [(Some {| ec2.PublicIpv4Pools := [] |}, None)] |}.

(** One allocation is answered, the next is refused. *)
Definition oneMinted : mock.Script :=
  {| mock.describeAddressesAnswers := [mock.listed []];
     mock.allocateAnswers := [mock.minted "eipalloc-1"; (None, Some mock.denied)];
     mock.disassociateAnswers := [];
     mock.releaseAnswers := [];
     mock.poolsAnswers := [] |}.

(** The address query is refused. *)
Definition queryRefused : mock.Script :=
  {| mock.describeAddressesAnswers := [(None, Some mock.denied)];
     mock.allocateAnswers := [];
     mock.disassociateAnswers := [];
     mock.releaseAnswers := [];
     mock.poolsAnswers := [] |}.

(** Every disassociate and every release request is accepted. *)
Definition allAccepted : mock.Script :=
  {| mock.describeAddressesAnswers := [mock.listed [mock.address "a" None; mock.attached]];
     mock.allocateAnswers := [];
     mock.disassociateAnswers := [None];
     mock.releaseAnswers := [None; None];
     mock.poolsAnswers := [] |}.

(** A load balancer service on the cluster with a bring-your-own pool. *)
Definition lb : elb.Service :=
  {| elb.scopeVPC := eip.vpc (mock.byo None);
     elb.eipService := mock.byo None |}.

(** A request for a network load balancer on two subnets. *)
Definition twoSubnets : elbv2.CreateLoadBalancerInput :=
  {| elbv2.LBType := Some "network";
     elbv2.SubnetMappings := [];
     elbv2.Subnets := [Some "subnet-1"; Some "subnet-2"] |}.

(** One free address is listed, the pool has room and one allocation is
    answered. *)
Definition oneFreeOneMinted : mock.Script :=
  {| mock.describeAddressesAnswers := [mock.listed [mock.address "a" None]];
     mock.allocateAnswers := [mock.minted "eipalloc-1"];
     mock.disassociateAnswers := [];
     mock.releaseAnswers := [];
     mock.poolsAnswers := [(Some {| ec2.PublicIpv4Pools := [mock.pool 5] |}, None)] |}.

(** Three free addresses are listed. *)
Definition threeFree : mock.Script :=
  {| mock.describeAddressesAnswers := [mock.listed mock.three];
     mock.allocateAnswers := [];
     mock.disassociateAnswers := [];
     mock.releaseAnswers := [];
     mock.poolsAnswers := [] |}.

(** One free address is listed. *)
Definition oneFree : mock.Script :=
  {| mock.describeAddressesAnswers := [mock.listed [mock.address "a" None]];
     mock.allocateAnswers := [];
     mock.disassociateAnswers := [];
     mock.releaseAnswers := [];
     mock.poolsAnswers := [] |}.

(** The scripted client accepts every association, except to the
    instance "i-stopped". *)
#[global] Instance associateClient : instance.AssociateAPI mock.Script := {
  instance.AssociateAddressWithContext := fun input st =>
    (match instance.InstanceId input with
     | Some id => if String.eqb id "i-stopped" then Some mock.denied else None
     | None => Some mock.denied
     end, st)
}.

Definition instances : instance.Service :=
  {| instance.eipService := mock.plain |}.

Definition startInstance (st : mock.Script) : instance.IWorld mock.TagSpec mock.Script :=
  instance.Build_IWorld (mock.start st) [].

End scene.
(** * Properties *)

(** ** Running the effects *)

Section Running.
Context {T St : Type}.

Lemma bind_Done {A B} (m : M T St A) (k : A -> M T St B) w a w' :
  m w = (Done a, w') -> bind m k w = k a w'.
Proof. intros E. unfold bind. now rewrite E. Qed.

Lemma bind_Panicked {A B} (m : M T St A) (k : A -> M T St B) w w' :
  m w = (Panicked, w') -> bind m k w = (Panicked, w').
Proof. intros E. unfold bind. now rewrite E. Qed.

Lemma footprint_ret {A} (P : Interaction T -> Prop) (a : A) :
  footprint (St:=St) P (ret a).
Proof. intros w. exists []. simpl. now rewrite app_nil_r. Qed.

Lemma footprint_panic {A} (P : Interaction T -> Prop) : footprint P (@panic T St A).
Proof. intros w. exists []. simpl. now rewrite app_nil_r. Qed.

Lemma footprint_deref {A} (P : Interaction T -> Prop) (p : option A) : footprint P (@deref T St A p).
Proof. destruct p; [apply footprint_ret | apply footprint_panic]. Qed.

Lemma footprint_emit (P : Interaction T -> Prop) e : footprint P (@emit T St e).
Proof. intros w. exists []. simpl. now rewrite app_nil_r. Qed.

Lemma footprint_bind {A B} (P : Interaction T -> Prop) (m : M T St A) (k : A -> M T St B) :
  footprint P m -> (forall a, footprint P (k a)) -> footprint P (bind m k).
Proof.
  intros Hm Hk w. unfold bind.
  destruct (Hm w) as [d1 [E1 F1]].
  destruct (m w) as [[a|] w1]; simpl in E1.
  - destruct (Hk a w1) as [d2 [E2 F2]].
    exists (d1 ++ d2). rewrite E2, E1, app_assoc. split; [reflexivity|].
    apply Forall_app; auto.
  - exists d1. simpl. auto.
Qed.

Lemma footprint_weaken {A} (P Q : Interaction T -> Prop) (m : M T St A) :
  (forall i, P i -> Q i) -> footprint P m -> footprint Q m.
Proof.
  intros PQ Hm w. destruct (Hm w) as [d [E F]]. exists d. split; [exact E|].
  eapply Forall_impl; eauto.
Qed.

Lemma footprint_retryLoop (P : Interaction T -> Prop) (condition : M T St (bool * option error)) codes :
  footprint P condition ->
  forall steps errToReturn, footprint P (wait.retryLoop steps condition codes errToReturn).
Proof.
  intros Hc. induction steps as [|n IH]; intros last; simpl.
  - apply footprint_ret.
  - apply footprint_bind; [exact Hc|].
    intros [[|] [e|]]; try apply footprint_ret; try apply IH.
    destruct (awserrors.Code (errors.Cause e)) as [code [|]]; [|apply footprint_ret].
    destruct (existsb (String.eqb code) codes); [apply IH | apply footprint_ret].
Qed.

Lemma footprintWith_ret {A} (P : Interaction T -> Prop) (Q : A -> Prop) (a : A) :
  Q a -> footprintWith (St:=St) P Q (ret a).
Proof.
  intros HQ w. exists []. simpl. rewrite app_nil_r. repeat split; auto.
  intros b H. inversion H. now subst.
Qed.

Lemma footprintWith_any {A} (P : Interaction T -> Prop) (m : M T St A) :
  footprint P m -> footprintWith P (fun _ => True) m.
Proof. intros Hm w. destruct (Hm w) as [d [E F]]. exists d. auto. Qed.

Lemma footprintWith_footprint {A} (P : Interaction T -> Prop) (Q : A -> Prop)
    (m : M T St A) :
  footprintWith P Q m -> footprint P m.
Proof. intros Hm w. destruct (Hm w) as [d [E [F _]]]. exists d. auto. Qed.

Lemma footprintWith_bind {A B} (P : Interaction T -> Prop) (Q' : A -> Prop)
    (Q : B -> Prop) (m : M T St A) (k : A -> M T St B) :
  footprintWith P Q' m -> (forall a, Q' a -> footprintWith P Q (k a)) ->
  footprintWith P Q (bind m k).
Proof.
  intros Hm Hk w. unfold bind.
  destruct (Hm w) as [d1 [E1 [F1 Q1]]].
  destruct (m w) as [[a|] w1]; simpl in E1, Q1.
  - destruct (Hk a (Q1 a eq_refl) w1) as [d2 [E2 [F2 Q2]]].
    exists (d1 ++ d2). rewrite E2, E1, app_assoc. split; [reflexivity|].
    split; [apply Forall_app; auto | exact Q2].
  - exists d1. simpl. repeat split; auto. intros b H. discriminate H.
Qed.

End Running.


Section Calls.
Context {T St : Type} {api : ec2iface.EC2API T St}.

Lemma footprint_DescribeAddresses (P : Interaction T -> Prop) input :
  (forall out err, P (IDescribeAddresses input out err)) ->
  footprint P (EC2Client.DescribeAddressesWithContext (St:=St) input).
Proof.
  intros H w. unfold EC2Client.DescribeAddressesWithContext.
  destruct (ec2iface.DescribeAddressesWithContext input (client w)) as [r st].
  eexists. split; [reflexivity|]. auto.
Qed.

Lemma footprint_Allocate (P : Interaction T -> Prop) input :
  (forall out err, P (IAllocateAddress input out err)) ->
  footprint P (EC2Client.AllocateAddressWithContext (St:=St) input).
Proof.
  intros H w. unfold EC2Client.AllocateAddressWithContext.
  destruct (ec2iface.AllocateAddressWithContext input (client w)) as [r st].
  eexists. split; [reflexivity|]. auto.
Qed.

Lemma footprint_Disassociate (P : Interaction T -> Prop) input :
  (forall err, P (IDisassociateAddress input err)) ->
  footprint P (EC2Client.DisassociateAddressWithContext (St:=St) input).
Proof.
  intros H w. unfold EC2Client.DisassociateAddressWithContext.
  destruct (ec2iface.DisassociateAddressWithContext input (client w)) as [r st].
  eexists. split; [reflexivity|]. auto.
Qed.

Lemma footprint_Release (P : Interaction T -> Prop) input :
  (forall err, P (IReleaseAddress input err)) ->
  footprint P (EC2Client.ReleaseAddressWithContext (St:=St) input).
Proof.
  intros H w. unfold EC2Client.ReleaseAddressWithContext.
  destruct (ec2iface.ReleaseAddressWithContext input (client w)) as [r st].
  eexists. split; [reflexivity|]. auto.
Qed.

Lemma footprint_Pools (P : Interaction T -> Prop) input :
  (forall out err, P (IDescribePublicIpv4Pools input out err)) ->
  footprint P (EC2Client.DescribePublicIpv4Pools (St:=St) input).
Proof.
  intros H w. unfold EC2Client.DescribePublicIpv4Pools.
  destruct (ec2iface.DescribePublicIpv4Pools input (client w)) as [r st].
  eexists. split; [reflexivity|]. auto.
Qed.

(** A log line is no exchange, with a logger or without. *)
Lemma footprint_Info (P : Interaction T -> Prop) s msg keysAndValues :
  footprint P (eip.Info (St:=St) s msg keysAndValues).
Proof.
  unfold eip.Info. destruct (eip.Wrapper s);
    [apply footprint_emit | apply footprint_panic].
Qed.

Lemma footprint_Debug (P : Interaction T -> Prop) s msg keysAndValues :
  footprint P (eip.Debug (St:=St) s msg keysAndValues).
Proof.
  unfold eip.Debug. destruct (eip.Wrapper s);
    [apply footprint_emit | apply footprint_panic].
Qed.

End Calls.

(** One step of a footprint proof: follow the shape of the computation. *)
Ltac footprint_step :=
  match goal with
  | |- footprint _ (bind _ _) => apply footprint_bind; [|intros ?]
  | |- footprint _ (ret _) => apply footprint_ret
  | |- footprint _ panic => apply footprint_panic
  | |- footprint _ (deref _) => apply footprint_deref
  | |- footprint _ (emit _) => apply footprint_emit
  | |- footprint _ (record.Warnf _ _ _) => apply footprint_emit
  | |- footprint _ (record.Eventf _ _ _) => apply footprint_emit
  | |- footprint _ (eip.Info _ _ _) => apply footprint_Info
  | |- footprint _ (eip.Debug _ _ _) => apply footprint_Debug
  | |- footprint _ (match ?x with _ => _ end) => destruct x
  end.

(** ** Allocation and the bring-your-own pool *)

Section Allocation.
Context {T St : Type} {api : ec2iface.EC2API T St}.
Variable BuildParamsToTagSpecification : string -> infrav1.BuildParams -> T.
Variable s : eip.Service.

Local Abbreviation allocateAddress := (eip.allocateAddress BuildParamsToTagSpecification).

(** The pool check never answers "no" without an error: the fallback
    branches of [setByoPublicIpv4] cannot be reached. *)
Lemma publicIpv4PoolHasFreeIPs_false_is_error (want : Z) (w : World T St) ok err w' :
  eip.publicIpv4PoolHasFreeIPs s want w = (Done (ok, err), w') ->
  ok = false -> err <> None.
Proof.
  unfold eip.publicIpv4PoolHasFreeIPs, bind, deref, EC2Client.DescribePublicIpv4Pools.
  destruct (eip.VPC s) as [v|]; simpl; [|discriminate].
  destruct (ec2iface.DescribePublicIpv4Pools _ (client w)) as [[pools [e|]] st]; simpl.
  - intros H _. inversion H. discriminate.
  - destruct pools as [pools|]; simpl; [|discriminate].
    destruct (ec2.PublicIpv4Pools pools) as [|p [|q l]].
    + intros H _. inversion H. discriminate.
    + destruct (aws.Int64Value (ec2.TotalAvailableAddressCount p) <? want)%Z.
      * intros H _. inversion H. discriminate.
      * unfold eip.Debug. destruct (eip.Wrapper s); simpl;
          intros H E; inversion H. congruence.
    + intros H _. inversion H. discriminate.
Qed.

(** With a pool configured and exhausted, the allocation fails after the
    pool query, whatever the fallback order is. *)
Lemma allocateAddress_pool_exhausted (role : string) (w : World T St)
    v poolId p st' :
  eip.VPC s = Some v ->
  infrav1.PublicIpv4Pool v = Some poolId ->
  ec2iface.DescribePublicIpv4Pools {| ec2.PoolIds := [Some poolId] |} (client w)
    = ((Some {| ec2.PublicIpv4Pools := [p] |}, None), st') ->
  (aws.Int64Value (ec2.TotalAvailableAddressCount p) < 1)%Z ->
  exists w',
    allocateAddress s role w
      = (Done ("", Some (errors.New "failed to allocate Elastic IP from PublicIpv4 Pool")), w')
    /\ trace w' = trace w ++
         [IDescribePublicIpv4Pools {| ec2.PoolIds := [Some poolId] |}
            (Some {| ec2.PublicIpv4Pools := [p] |}) None]
    /\ client w' = st'.
Proof.
  intros Hv Hp Hq Hlt.
  unfold eip.allocateAddress, eip.setByoPublicIpv4, eip.publicIpv4PoolHasFreeIPs,
    bind, deref, EC2Client.DescribePublicIpv4Pools.
  rewrite Hv. simpl. rewrite Hp. simpl. rewrite Hq. simpl.
  apply Z.ltb_lt in Hlt. rewrite Hlt. simpl.
  eexists. split; [reflexivity|]. simpl. auto.
Qed.

Lemma allocateRequests_app (a b : list (Interaction T)) :
  allocateRequests (a ++ b) = allocateRequests a ++ allocateRequests b.
Proof. apply filter_app. Qed.

(** C5. When a bring-your-own pool is configured, the provider reports
    fewer than one available address for it and the fallback order is
    [none], the allocation returns an error, and the only request sent is
    the pool query: no allocate request is issued, so the default pool is
    not used. *)
Theorem allocateAddress_exhausted_none_fails (role : string) (w : World T St)
    v poolId p st' :
  eip.VPC s = Some v ->
  infrav1.PublicIpv4Pool v = Some poolId ->
  infrav1.PublicIpv4PoolFallBackOrder v = Some infrav1.PublicIpv4PoolFallbackOrderNone ->
  ec2iface.DescribePublicIpv4Pools {| ec2.PoolIds := [Some poolId] |} (client w)
    = ((Some {| ec2.PublicIpv4Pools := [p] |}, None), st') ->
  (aws.Int64Value (ec2.TotalAvailableAddressCount p) < 1)%Z ->
  exists err w',
    allocateAddress s role w = (Done ("", Some err), w')
    /\ trace w' = trace w ++
         [IDescribePublicIpv4Pools {| ec2.PoolIds := [Some poolId] |}
            (Some {| ec2.PublicIpv4Pools := [p] |}) None]
    /\ allocateRequests (trace w') = allocateRequests (trace w).
Proof.
  intros Hv Hp _ Hq Hlt.
  destruct (allocateAddress_pool_exhausted role w v poolId p st' Hv Hp Hq Hlt)
    as [w' [E [Etr _]]].
  exists (errors.New "failed to allocate Elastic IP from PublicIpv4 Pool"), w'.
  repeat split; auto.
  rewrite Etr, allocateRequests_app. simpl. now rewrite app_nil_r.
Qed.

(** C1. When a bring-your-own pool is configured, the provider reports
    fewer than one available address for it and the fallback order is not
    [none] (it is absent, or allows the default pool), the allocation still
    returns an error and sends no allocate request: the default pool is not
    selected. *)
Theorem allocateAddress_exhausted_fallback_fails (role : string) (w : World T St)
    v poolId p st' :
  eip.VPC s = Some v ->
  infrav1.PublicIpv4Pool v = Some poolId ->
  infrav1.PublicIpv4PoolFallBackOrder v <> Some infrav1.PublicIpv4PoolFallbackOrderNone ->
  ec2iface.DescribePublicIpv4Pools {| ec2.PoolIds := [Some poolId] |} (client w)
    = ((Some {| ec2.PublicIpv4Pools := [p] |}, None), st') ->
  (aws.Int64Value (ec2.TotalAvailableAddressCount p) < 1)%Z ->
  exists w',
    allocateAddress s role w
      = (Done ("", Some (errors.New "failed to allocate Elastic IP from PublicIpv4 Pool")), w')
    /\ allocateRequests (trace w') = allocateRequests (trace w).
Proof.
  intros Hv Hp _ Hq Hlt.
  destruct (allocateAddress_pool_exhausted role w v poolId p st' Hv Hp Hq Hlt)
    as [w' [E [Etr _]]].
  exists w'. split; [exact E|].
  rewrite Etr, allocateRequests_app. simpl. now rewrite app_nil_r.
Qed.

End Allocation.

Lemma allocateAddress_exhausted_none_fails_witness :
  exists err w',
    eip.allocateAddress mock.BuildParamsToTagSpecification
      (mock.byo (Some infrav1.PublicIpv4PoolFallbackOrderNone)) "worker"
      (mock.start mock.exhausted) = (Done ("", Some err), w')
    /\ trace w' = [IDescribePublicIpv4Pools {| ec2.PoolIds := [Some "ipv4pool-ec2-1"] |}
                     (Some {| ec2.PublicIpv4Pools := [mock.pool 0] |}) None]
    /\ allocateRequests (trace w') = [].
Proof.
  eapply (allocateAddress_exhausted_none_fails mock.BuildParamsToTagSpecification
            (mock.byo (Some infrav1.PublicIpv4PoolFallbackOrderNone)) "worker"
            (mock.start mock.exhausted)).
  - reflexivity.
  - reflexivity.
  - reflexivity.
  - reflexivity.
  - simpl. lia.
Defined.

Lemma allocateAddress_exhausted_fallback_fails_witness :
  exists w',
    eip.allocateAddress mock.BuildParamsToTagSpecification
      (mock.byo (Some infrav1.PublicIpv4PoolFallbackOrderAmazonPool)) "worker"
      (mock.start mock.exhausted)
      = (Done ("", Some (errors.New "failed to allocate Elastic IP from PublicIpv4 Pool")), w')
    /\ allocateRequests (trace w') = [].
Proof.
  eapply (allocateAddress_exhausted_fallback_fails mock.BuildParamsToTagSpecification
            (mock.byo (Some infrav1.PublicIpv4PoolFallbackOrderAmazonPool)) "worker"
            (mock.start mock.exhausted)).
  - reflexivity.
  - reflexivity.
  - simpl. discriminate.
  - reflexivity.
  - simpl. lia.
Defined.

(** ** Reuse before allocation *)

Section GetOrAllocate.
Context {T St : Type} {api : ec2iface.EC2API T St}.
Variable BuildParamsToTagSpecification : string -> infrav1.BuildParams -> T.
Variable s : eip.Service.

Local Abbreviation allocateAddress := (eip.allocateAddress BuildParamsToTagSpecification).
Local Abbreviation allocateMissing :=
  (fun missing => eip.allocateMissing BuildParamsToTagSpecification missing s).
Local Abbreviation GetOrAllocateAddresses :=
  (eip.GetOrAllocateAddresses BuildParamsToTagSpecification).

Lemma reuse_reusable addresses eips :
  eip.reuse addresses eips = eips ++ reusable addresses.
Proof.
  revert eips. induction addresses as [|a l IH]; intros eips; simpl.
  - now rewrite app_nil_r.
  - unfold reusable. simpl. unfold unassociated at 1.
    destruct (ec2.AssociationId a); simpl.
    + apply IH.
    + rewrite IH. unfold reusable. now rewrite <- app_assoc.
Qed.

Lemma reusable_unassociated addresses id :
  In id (reusable addresses) ->
  exists a, In a addresses /\ ec2.AssociationId a = None
            /\ id = aws.StringValue (ec2.AllocationId a).
Proof.
  unfold reusable. rewrite in_map_iff. intros [a [E Ha]].
  apply filter_In in Ha. destruct Ha as [Ha Hu].
  exists a. repeat split; auto.
  unfold unassociated in Hu. destruct (ec2.AssociationId a); [discriminate|reflexivity].
Qed.

Lemma allocatedIds_app (a b : list (Interaction T)) :
  allocatedIds (a ++ b) = allocatedIds a ++ allocatedIds b.
Proof. apply flat_map_app. Qed.

Lemma no_allocate_nothing (d : list (Interaction T)) :
  Forall (fun i => isAllocate i = false) d ->
  allocateRequests d = [] /\ allocatedIds d = [].
Proof.
  induction 1 as [|i l Hi _ [IH1 IH2]]; [split; reflexivity|].
  unfold allocateRequests in *. simpl. rewrite Hi, IH1, IH2.
  destruct i; try discriminate; split; reflexivity.
Qed.

Lemma footprint_publicIpv4PoolHasFreeIPs want :
  footprint (fun i : Interaction T => isAllocate i = false)
    (eip.publicIpv4PoolHasFreeIPs (St:=St) s want).
Proof.
  unfold eip.publicIpv4PoolHasFreeIPs.
  apply footprint_bind; [apply footprint_deref|]. intros v.
  apply footprint_bind; [apply footprint_Pools; reflexivity|].
  intros [pools [e|]]; [apply footprint_ret|].
  apply footprint_bind; [apply footprint_deref|]. intros out.
  destruct (ec2.PublicIpv4Pools out) as [|p [|q l]]; try apply footprint_ret.
  repeat footprint_step.
Qed.

Lemma footprint_setByoPublicIpv4 alloc :
  footprint (fun i : Interaction T => isAllocate i = false)
    (eip.setByoPublicIpv4 (St:=St) s alloc).
Proof.
  unfold eip.setByoPublicIpv4.
  apply footprint_bind; [apply footprint_deref|]. intros v.
  destruct (infrav1.PublicIpv4Pool v); [|apply footprint_ret].
  apply footprint_bind; [apply footprint_publicIpv4PoolHasFreeIPs|].
  intros [ok [e|]]; repeat footprint_step.
Qed.

(** One allocation sends at most one allocate request; when it returns an
    identity, it sent exactly one and the identity is the provider's. *)
Lemma allocateAddress_exchange role (w : World T St) r w' :
  allocateAddress s role w = (r, w') ->
  exists d,
    trace w' = trace w ++ d
    /\ length (allocateRequests d) <= 1
    /\ forall ip, r = Done (ip, None) ->
                  allocatedIds d = [ip] /\ length (allocateRequests d) = 1.
Proof.
  unfold eip.allocateAddress.
  set (alloc := {| ec2.Domain := _ |}).
  destruct (footprint_setByoPublicIpv4 alloc w) as [d1 [E1 F1]].
  apply no_allocate_nothing in F1. destruct F1 as [R1 I1].
  unfold bind at 1.
  destruct (eip.setByoPublicIpv4 s alloc w) as [[[alloc' [e|]]|] w1]; simpl in E1.
  - intros H. inversion H; subst. exists d1. rewrite R1.
    split; [exact E1|]. split; [simpl; lia|]. intros ip H1. discriminate H1.
  - unfold bind, EC2Client.AllocateAddressWithContext.
    destruct (ec2iface.AllocateAddressWithContext alloc' (client w1)) as [[out err] st].
    intros H.
    exists (d1 ++ [IAllocateAddress alloc' out err]).
    rewrite allocateRequests_app, allocatedIds_app, R1, I1.
    destruct err as [e|]; [|destruct out as [out|]]; simpl in H;
      inversion H; subst; simpl;
      rewrite E1, <- app_assoc; (split; [reflexivity|]); (split; [lia|]);
      intros ip H1; inversion H1; auto.
  - intros H. inversion H; subst. exists d1. rewrite R1.
    split; [exact E1|]. split; [simpl; lia|]. intros ip H1. discriminate H1.
Qed.

(** The top-up loop sends at most [missing] allocate requests; when it
    returns a list, it sent exactly [missing], all answered with an
    identity, and the list is the given one followed by these. *)
Lemma allocateMissing_exchange role missing :
  forall eips (w : World T St) r w',
  allocateMissing missing role eips w = (r, w') ->
  exists d,
    trace w' = trace w ++ d
    /\ length (allocateRequests d) <= missing
    /\ forall l, r = Done (l, None) ->
                 l = eips ++ allocatedIds d
                 /\ length (allocateRequests d) = missing
                 /\ length (allocatedIds d) = missing.
Proof.
  induction missing as [|n IH]; intros eips w r w'; simpl.
  - intros H. inversion H; subst. exists []. rewrite !app_nil_r.
    split; [reflexivity|]. split; [simpl; lia|].
    intros l H1. inversion H1. auto.
  - unfold bind.
    destruct (eip.allocateAddress BuildParamsToTagSpecification s role w)
      as [[[ip [e|]]|] w1] eqn:Ea;
      destruct (allocateAddress_exchange role w _ _ Ea) as [d1 [E1 [L1 S1]]].
    + intros H. inversion H; subst. exists d1.
      split; [exact E1|]. split; [lia|]. intros l H1. discriminate H1.
    + destruct (S1 ip eq_refl) as [I1 R1].
      intros H. destruct (IH (eips ++ [ip]) w1 r w' H) as [d2 [E2 [L2 S2]]].
      exists (d1 ++ d2). rewrite E2, E1, app_assoc.
      rewrite allocateRequests_app, allocatedIds_app, !length_app, R1, I1.
      split; [reflexivity|]. split; [lia|].
      intros l H1. destruct (S2 l H1) as [-> [R2 I2]].
      rewrite <- app_assoc. simpl. repeat split; auto; lia.
    + intros H. inversion H; subst. exists d1.
      split; [exact E1|]. split; [lia|]. intros l H1. discriminate H1.
Qed.

(** The top-up is the loop [for len(eips) < num]: it stops when the list
    has [num] entries, and otherwise allocates once, appends and goes on. *)
Lemma allocateMissing_loop role (num : Z) eips (w : World T St) :
  allocateMissing (Z.to_nat (num - Z.of_nat (length eips))) role eips w
  = if (Z.of_nat (length eips) <? num)%Z
    then (r <- allocateAddress s role ;;
          match r with
          | (_, Some err) => ret ([], Some err)
          | (ip, None) =>
              allocateMissing (Z.to_nat (num - Z.of_nat (length (eips ++ [ip]))))
                role (eips ++ [ip])
          end) w
    else ret (eips, None) w.
Proof.
  destruct (Z.ltb_spec (Z.of_nat (length eips)) num) as [Hlt|Hge].
  - replace (Z.to_nat (num - Z.of_nat (length eips)))
      with (S (Z.to_nat (num - Z.of_nat (length eips) - 1))) by lia.
    simpl. unfold bind.
    destruct (eip.allocateAddress BuildParamsToTagSpecification s role w)
      as [[[ip [e|]]|] w1]; try reflexivity.
    rewrite length_app. simpl.
    replace (Z.to_nat (num - Z.of_nat (length eips + 1)))
      with (Z.to_nat (num - Z.of_nat (length eips) - 1)) by lia.
    reflexivity.
  - replace (Z.to_nat (num - Z.of_nat (length eips))) with O by lia.
    reflexivity.
Qed.

Lemma GetOrAllocateAddresses_listed num role (w : World T St) out w1 :
  eip.describeAddresses s role w = (Done (Some out, None), w1) ->
  GetOrAllocateAddresses s num role w
  = allocateMissing
      (Z.to_nat (num - Z.of_nat (length (reusable (ec2.Addresses out)))))
      role (reusable (ec2.Addresses out)) w1.
Proof.
  intros E. unfold eip.GetOrAllocateAddresses.
  rewrite (bind_Done _ _ _ _ _ E). simpl. unfold bind, deref, ret.
  now rewrite reuse_reusable.
Qed.

Lemma GetOrAllocateAddresses_success_listed num role (w : World T St) eips w' :
  GetOrAllocateAddresses s num role w = (Done (eips, None), w') ->
  exists out w1, eip.describeAddresses s role w = (Done (Some out, None), w1).
Proof.
  unfold eip.GetOrAllocateAddresses, bind.
  destruct (eip.describeAddresses s role w) as [[[out [e|]]|] w1].
  - simpl. discriminate.
  - destruct out as [out|]; simpl; [eauto | discriminate].
  - discriminate.
Qed.





(** C2, as the code has it. When the call returns a list, the directory
    read answered with some addresses; the list is the identities of all
    its unassociated addresses, in its order, followed by the identities
    minted afterwards. With [k] unassociated addresses in the read the list
    has [max num k] entries: exactly [num] when [k <= num], and all [k]
    when there are more. *)
Theorem GetOrAllocateAddresses_returns num role (w : World T St) eips w' :
  GetOrAllocateAddresses s num role w = (Done (eips, None), w') ->
  exists out w1 d,
    eip.describeAddresses s role w = (Done (Some out, None), w1)
    /\ trace w' = trace w1 ++ d
    /\ eips = reusable (ec2.Addresses out) ++ allocatedIds d
    /\ (forall id, In id (reusable (ec2.Addresses out)) ->
          exists a, In a (ec2.Addresses out) /\ ec2.AssociationId a = None
                    /\ id = aws.StringValue (ec2.AllocationId a))
    /\ Z.of_nat (length eips)
       = Z.max num (Z.of_nat (length (filter unassociated (ec2.Addresses out)))).
Proof.
  intros Hr.
  destruct (GetOrAllocateAddresses_success_listed _ _ _ _ _ Hr) as [out [w1 Hd]].
  exists out, w1.
  rewrite (GetOrAllocateAddresses_listed _ _ _ _ _ Hd) in Hr.
  assert (Hlen : length (reusable (ec2.Addresses out))
                 = length (filter unassociated (ec2.Addresses out)))
    by (unfold reusable; apply length_map).
  destruct (allocateMissing_exchange _ _ _ _ _ _ Hr) as [d [E [_ S]]].
  destruct (S eips eq_refl) as [El [R I]].
  exists d. split; [exact Hd|]. split; [exact E|]. split; [exact El|].
  split; [apply reusable_unassociated|].
  rewrite El, length_app, I, Hlen. lia.
Qed.

End GetOrAllocate.


Lemma GetOrAllocateAddresses_returns_witness :
  exists out w1 (d : list (Interaction mock.TagSpec)),
    eip.describeAddresses mock.plain "worker" (mock.start mock.twoFree)
    = (Done (Some out, None), w1)
    /\ ["a"; "c"] = reusable (ec2.Addresses out) ++ allocatedIds d.
Proof.
  destruct (GetOrAllocateAddresses_returns mock.BuildParamsToTagSpecification
              mock.plain 1 "worker" (mock.start mock.twoFree) ["a"; "c"]
              (snd (eip.GetOrAllocateAddresses mock.BuildParamsToTagSpecification
                      mock.plain 1 "worker" (mock.start mock.twoFree))))
    as [out [w1 [d [Hd [_ [El _]]]]]].
  - reflexivity.
  - exists out, w1, d. split; assumption.
Defined.

(** C2 as stated fails: asked for one address of a role with two free
    ones, the call succeeds and returns both. *)
Lemma GetOrAllocateAddresses_count_counterexample :
  ~ (forall num role (w : World mock.TagSpec mock.Script) eips w',
       eip.GetOrAllocateAddresses mock.BuildParamsToTagSpecification
         mock.plain num role w = (Done (eips, None), w') ->
       Z.of_nat (length eips) = num).
Proof.
  intros H.
  specialize (H 1%Z "worker" (mock.start mock.twoFree) ["a"; "c"] _ eq_refl).
  discriminate H.
Qed.

(** ** Release *)

Section Release.
Context {T St : Type} {api : ec2iface.EC2API T St}.
Variable NewBackoff : wait.Backoff.
Variable s : eip.Service.

Local Abbreviation releaseAddress := (eip.releaseAddress NewBackoff s).
Local Abbreviation releaseEach := (eip.releaseEach NewBackoff s).
Local Abbreviation releaseAddresses := (eip.releaseAddresses NewBackoff s).

(** Everything the release of one address sends is a disassociate or a
    release request built from that address. *)
Lemma footprint_disassociateCondition ip :
  footprint (targets ip) (eip.disassociateCondition (St:=St) ip).
Proof.
  unfold eip.disassociateCondition.
  apply footprint_bind; [apply footprint_Disassociate; intros; reflexivity|].
  intros err. repeat footprint_step.
Qed.

Lemma footprint_disassociateAddress ip :
  footprint (targets ip) (eip.disassociateAddress NewBackoff s ip).
Proof.
  unfold eip.disassociateAddress, wait.WaitForWithRetryable.
  apply footprint_bind.
  - apply footprint_retryLoop, footprint_disassociateCondition.
  - intros err. repeat footprint_step.
Qed.

Lemma footprint_releaseCondition ip :
  footprint (targets ip) (eip.releaseCondition NewBackoff s ip).
Proof.
  unfold eip.releaseCondition.
  apply footprint_bind; [apply footprint_Release; intros; reflexivity|].
  intros [e|]; [|apply footprint_ret].
  destruct (ec2.AssociationId ip); [|apply footprint_ret].
  apply footprint_bind; [apply footprint_disassociateAddress|].
  intros derr. repeat footprint_step.
Qed.

Lemma footprint_releaseAddress ip :
  footprint (targets ip) (releaseAddress ip).
Proof.
  unfold eip.releaseAddress.
  apply footprint_bind.
  - destruct (ec2.AssociationId ip) eqn:Ea; [|apply footprint_ret].
    apply footprint_bind;
      [apply footprint_Disassociate; intros; simpl; now rewrite Ea|].
    intros err. repeat footprint_step.
  - intros [e|]; [apply footprint_ret|].
    apply footprint_bind.
    + apply footprint_retryLoop, footprint_releaseCondition.
    + intros err. repeat footprint_step.
Qed.

Lemma footprint_releaseEach addresses :
  footprint (fun i => exists ip, In ip addresses /\ targets ip i)
    (releaseEach addresses).
Proof.
  induction addresses as [|ip rest IH]; simpl.
  - apply footprint_ret.
  - apply footprint_bind.
    + eapply footprint_weaken; [|apply footprint_releaseAddress].
      intros i Hi. exists ip. simpl. auto.
    + intros [e|]; [apply footprint_ret|].
      eapply footprint_weaken; [|apply IH].
      intros i [a [Ha Hi]]. exists a. simpl. auto.
Qed.

(** The loop hands the addresses to [releaseAddress] one after the other. *)
Lemma releaseEach_in_order addresses w w' :
  releasedInOrder NewBackoff s addresses w w' ->
  forall rest, releaseEach (addresses ++ rest) w = releaseEach rest w'.
Proof.
  induction 1 as [w|ip l w w1 w2 E _ IH]; intros rest; simpl.
  - reflexivity.
  - rewrite (bind_Done _ _ _ _ _ E). apply IH.
Qed.

Lemma releaseAddresses_listed filters w out st' :
  ec2iface.DescribeAddressesWithContext {| ec2.Filters := filters |} (client w)
    = ((Some out, None), st') ->
  releaseAddresses filters w
  = releaseEach (ec2.Addresses out)
      (exchange (IDescribeAddresses {| ec2.Filters := filters |} (Some out) None) st' w).
Proof.
  intros E. unfold eip.releaseAddresses, bind, EC2Client.DescribeAddressesWithContext.
  rewrite E. reflexivity.
Qed.

Lemma releasedInOrder_footprint addresses w w' :
  releasedInOrder NewBackoff s addresses w w' ->
  exists d, trace w' = trace w ++ d
            /\ Forall (fun i => exists a, In a addresses /\ targets a i) d.
Proof.
  induction 1 as [w|ip l w w1 w2 E _ [d2 [E2 F2]]].
  - exists []. now rewrite app_nil_r.
  - destruct (footprint_releaseAddress ip w) as [d1 [E1 F1]].
    rewrite E in E1. simpl in E1.
    exists (d1 ++ d2). rewrite E2, E1, app_assoc. split; [reflexivity|].
    apply Forall_app. split.
    + eapply Forall_impl; [|exact F1]. intros i Hi. exists ip. simpl. auto.
    + eapply Forall_impl; [|exact F2]. intros i [a [Ha Hi]]. exists a. simpl. auto.
Qed.

(** C6. Bulk release hands the listed addresses to the single-address
    releaser one at a time, in the order of the list, each in the world the
    previous one left. When the addresses before [ip] were released without
    error and the release of [ip] returns an error, bulk release returns
    that very error and ends in the world the failed release left: after
    the query, every request sent was built from an address before [ip] or,
    after those, from [ip]; nothing is attempted after the failure. *)
Theorem releaseAddresses_fail_fast filters (w : World T St) pre ip post st1 w2 w3 e :
  ec2iface.DescribeAddressesWithContext {| ec2.Filters := filters |} (client w)
    = ((Some {| ec2.Addresses := pre ++ ip :: post |}, None), st1) ->
  releasedInOrder NewBackoff s pre
    (exchange (IDescribeAddresses {| ec2.Filters := filters |}
                 (Some {| ec2.Addresses := pre ++ ip :: post |}) None) st1 w) w2 ->
  releaseAddress ip w2 = (Done (Some e), w3) ->
  releaseAddresses filters w = (Done (Some e), w3)
  /\ exists dpre dip,
       trace w3 = trace w
                  ++ [IDescribeAddresses {| ec2.Filters := filters |}
                        (Some {| ec2.Addresses := pre ++ ip :: post |}) None]
                  ++ dpre ++ dip
       /\ Forall (fun i => exists a, In a pre /\ targets a i) dpre
       /\ Forall (targets ip) dip.
Proof.
  intros Hd Hpre Hip. split.
  - rewrite (releaseAddresses_listed _ _ _ _ Hd). simpl.
    rewrite (releaseEach_in_order _ _ _ Hpre). simpl.
    now rewrite (bind_Done _ _ _ _ _ Hip).
  - destruct (releasedInOrder_footprint _ _ _ Hpre) as [dpre [Epre Fpre]].
    destruct (footprint_releaseAddress ip w2) as [dip [Eip Fip]].
    rewrite Hip in Eip. simpl in Eip.
    exists dpre, dip. split; [|split; assumption].
    rewrite Eip, Epre. simpl. now rewrite <- !app_assoc.
Qed.

(** C10. When the address query succeeds and answers with a nil output or
    with an empty list, bulk release returns no error and the query is the
    only request it sends; this holds for the cluster-wide release and for
    the release by role. *)
Theorem releaseAddresses_nothing_listed filters (w : World T St) out st' :
  ec2iface.DescribeAddressesWithContext {| ec2.Filters := filters |} (client w)
    = ((out, None), st') ->
  out = None \/ out = Some {| ec2.Addresses := [] |} ->
  let w' := exchange (IDescribeAddresses {| ec2.Filters := filters |} out None) st' w in
  releaseAddresses filters w = (Done None, w')
  /\ trace w' = trace w ++ [IDescribeAddresses {| ec2.Filters := filters |} out None]
  /\ filter touches (trace w') = filter touches (trace w)
  /\ (filters = [filter.Cluster (eip.Name s)] ->
      eip.ReleaseAddresses NewBackoff s w = (Done None, w'))
  /\ (forall role,
      filters = [filter.Cluster (eip.Name s); filter.ProviderRole role] ->
      eip.ReleaseAddressByRole NewBackoff s role w = (Done None, w')).
Proof.
  intros E Hout w'.
  assert (R : releaseAddresses filters w = (Done None, w')).
  { unfold eip.releaseAddresses, bind, EC2Client.DescribeAddressesWithContext.
    rewrite E. destruct Hout as [-> | ->]; reflexivity. }
  split; [exact R|]. split; [reflexivity|]. split.
  - subst w'. simpl. rewrite filter_app. simpl. now rewrite app_nil_r.
  - split.
    + intros ->. exact R.
    + intros role ->. exact R.
Qed.

End Release.

Lemma releaseAddresses_nothing_listed_witness :
  eip.ReleaseAddresses mock.backoff mock.plain (mock.start mock.nothingListed)
  = (Done None,
     exchange (IDescribeAddresses {| ec2.Filters := [filter.Cluster "c1"] |}
                 (Some {| ec2.Addresses := [] |}) None)
       mock.idle (mock.start mock.nothingListed)).
Proof.
  apply (releaseAddresses_nothing_listed mock.backoff mock.plain
           [filter.Cluster "c1"] (mock.start mock.nothingListed)
           (Some {| ec2.Addresses := [] |}) mock.idle).
  - reflexivity.
  - right. reflexivity.
  - reflexivity.
Defined.

Lemma releaseAddresses_fail_fast_witness :
  exists w3,
    eip.releaseAddresses mock.backoff mock.plain [filter.Cluster "c1"]
      (mock.start mock.secondReleaseFails)
    = (Done (Some (Wrapf mock.denied "failed to release ElasticIP %q" [ArgString "b"])), w3)
    /\ releaseAttempts (trace w3) = 2
    /\ mock.releaseAnswers (client w3) = [None].
Proof.
  edestruct (releaseAddresses_fail_fast mock.backoff mock.plain
               [filter.Cluster "c1"] (mock.start mock.secondReleaseFails)
               [mock.address "a" None] (mock.address "b" None) [mock.address "c" None])
    as [H _].
  - reflexivity.
  - eapply released_cons; [reflexivity|]. apply released_nil.
  - reflexivity.
  - eexists. split; [exact H|]. split; reflexivity.
Defined.

(** ** Disassociation and release behind the waiter *)

Section TraceShapes.
Context {T : Type}.
Variable ip : ec2.Address.

Lemma releaseAttempts_disassociates (dd rest : list (Interaction T)) :
  Forall (disassociates ip) dd ->
  releaseAttempts (dd ++ rest) = releaseAttempts rest.
Proof.
  induction 1 as [|i l [err ->] _ IH]; [reflexivity|].
  unfold releaseAttempts in *. simpl. exact IH.
Qed.

Lemma releaseSucceeded_disassociates (dd rest : list (Interaction T)) :
  Forall (disassociates ip) dd ->
  releaseSucceeded (dd ++ rest) = releaseSucceeded rest.
Proof.
  induction 1 as [|i l [err ->] _ IH]; [reflexivity|].
  unfold releaseSucceeded in *. simpl. exact IH.
Qed.

Lemma retryPolicyRespected_disassociates budget (dd rest : list (Interaction T)) :
  Forall (disassociates ip) dd ->
  retryPolicyRespected budget (dd ++ rest) = retryPolicyRespected budget rest.
Proof.
  induction 1 as [|i l [err ->] _ IH]; [reflexivity|]. simpl. exact IH.
Qed.

Lemma inlineDisassociation_disassociates assoc (dd rest : list (Interaction T)) :
  Forall (disassociates ip) dd ->
  inlineDisassociation assoc (dd ++ rest) = inlineDisassociation assoc rest.
Proof.
  induction 1 as [|i l [err ->] _ IH]; [reflexivity|]. simpl. exact IH.
Qed.

Lemma inlineDisassociation_failed_release a input e (dd rest : list (Interaction T)) :
  ec2.AssociationId ip = Some a ->
  Forall (disassociates ip) dd ->
  1 <= length dd ->
  inlineDisassociation (Some a) (IReleaseAddress input (Some e) :: dd ++ rest)
  = inlineDisassociation (Some a) rest.
Proof.
  intros Ea F L.
  destruct dd as [|i l]; [simpl in L; lia|].
  assert (F' := F). inversion F as [|? ? [err ->] Fl]; subst.
  change (inlineDisassociation (Some a)
            (IReleaseAddress input (Some e)
               :: (IDisassociateAddress
                     {| ec2.DisAssociationId := ec2.AssociationId ip |} err :: l) ++ rest))
    with ((match ec2.AssociationId ip with
           | Some a' => String.eqb a' a
           | None => false
           end)
          && inlineDisassociation (Some a)
               ((IDisassociateAddress
                   {| ec2.DisAssociationId := ec2.AssociationId ip |} err :: l) ++ rest)).
  rewrite Ea, String.eqb_refl. simpl.
  apply inlineDisassociation_disassociates with (dd := l). exact Fl.
Qed.

End TraceShapes.

Section Retry.
Context {T St : Type} {api : ec2iface.EC2API T St}.
Variable NewBackoff : wait.Backoff.
Variable s : eip.Service.
Variable ip : ec2.Address.

Local Abbreviation disassociateAddress := (eip.disassociateAddress NewBackoff s).
Local Abbreviation releaseCondition := (eip.releaseCondition NewBackoff s).
Local Abbreviation releaseAddress := (eip.releaseAddress NewBackoff s).

Local Abbreviation disassociateInput :=
  {| ec2.DisAssociationId := ec2.AssociationId ip |}.
Local Abbreviation releaseInput :=
  {| ec2.RelAllocationId := ec2.AllocationId ip |}.

(** One attempt of the disassociate waiter's condition. *)
Lemma disassociateCondition_run (w : World T St) err st :
  ec2iface.DisassociateAddressWithContext disassociateInput (client w) = (err, st) ->
  eip.disassociateCondition ip w
  = (Done (match err with
           | Some e => if associationNotFound e then (true, None) else (false, Some e)
           | None => (true, None)
           end),
     exchange (IDisassociateAddress disassociateInput err) st w).
Proof.
  intros E.
  unfold eip.disassociateCondition, bind, EC2Client.DisassociateAddressWithContext.
  rewrite E.
  destruct err as [e|]; [|reflexivity].
  unfold associationNotFound.
  destruct (awserrors.Code (errors.Cause e)) as [code ok]. simpl.
  destruct (String.eqb code awserrors.AssociationIDNotFound); reflexivity.
Qed.

Lemma disassociate_retryLoop steps :
  forall errToReturn (w : World T St) r w',
  wait.retryLoop steps (eip.disassociateCondition ip) [awserrors.AuthFailure]
    errToReturn w = (r, w') ->
  exists dd,
    trace w' = trace w ++ dd
    /\ Forall (disassociates ip) dd
    /\ length dd <= steps
    /\ (1 <= steps -> 1 <= length dd)
    /\ exists derr, r = Done derr.
Proof.
  induction steps as [|n IH]; intros last w r w'; cbn [wait.retryLoop].
  - intros H. inversion H; subst. exists []. rewrite app_nil_r.
    repeat split; auto; try lia. eauto.
  - unfold bind.
    destruct (ec2iface.DisassociateAddressWithContext disassociateInput (client w))
      as [err st] eqn:Ec.
    rewrite (disassociateCondition_run w err st Ec).
    assert (One : forall r0 w0,
               (r0, w0) = (r, w') ->
               w0 = exchange (IDisassociateAddress disassociateInput err) st w ->
               (exists derr, r0 = Done derr) ->
               exists dd, trace w' = trace w ++ dd /\ Forall (disassociates ip) dd
                          /\ length dd <= S n /\ (1 <= S n -> 1 <= length dd)
                          /\ exists derr, r = Done derr).
    { intros r0 w0 H -> D. inversion H; subst.
      exists [IDisassociateAddress disassociateInput err]. simpl.
      repeat split; auto; try lia.
      constructor; [|constructor]. exists err. reflexivity. }
    destruct err as [e|]; [destruct (associationNotFound e)|].
    + intros H. eapply One; eauto.
    + destruct (awserrors.Code (errors.Cause e)) as [code [|]].
      * destruct (existsb (String.eqb code) [awserrors.AuthFailure]).
        -- intros H. apply IH in H. destruct H as [dd [E [F [L [_ D]]]]].
           exists (IDisassociateAddress disassociateInput (Some e) :: dd).
           simpl in E. rewrite E, <- app_assoc. simpl.
           repeat split; auto; try lia.
           constructor; [|exact F]. exists (Some e). reflexivity.
        -- intros H. eapply One; eauto.
      * intros H. eapply One; eauto.
    + intros H. eapply One; eauto.
Qed.

(** The waiter-wrapped disassociation sends disassociate requests for the
    association of the address only, at least one when the backoff allows
    an attempt and at most as many as it allows. *)
Lemma disassociateAddress_exchange (w : World T St) r w' :
  disassociateAddress ip w = (r, w') ->
  exists dd,
    trace w' = trace w ++ dd
    /\ Forall (disassociates ip) dd
    /\ length dd <= wait.Steps NewBackoff
    /\ (1 <= wait.Steps NewBackoff -> 1 <= length dd)
    /\ (ec2.AllocationId ip <> None -> exists derr, r = Done derr).
Proof.
  unfold eip.disassociateAddress, wait.WaitForWithRetryable, bind.
  destruct (wait.retryLoop (wait.Steps NewBackoff) (eip.disassociateCondition ip)
              [awserrors.AuthFailure] None w) as [r0 w0] eqn:El.
  apply disassociate_retryLoop in El. destruct El as [dd [E [F [L [L1 [derr ->]]]]]].
  destruct derr as [e|].
  - destruct (ec2.AllocationId ip) as [id|]; simpl.
    + intros H. inversion H; subst. exists dd. simpl.
      repeat split; auto. eauto.
    + intros H. inversion H; subst. exists dd.
      repeat split; auto. intros C. congruence.
  - intros H. inversion H; subst. exists dd. repeat split; auto. eauto.
Qed.

(** One attempt of the release waiter's condition: a release request and,
    when it failed and the address has an association, the inline
    disassociation. *)
Lemma releaseCondition_exchange (w : World T St) r w' :
  releaseCondition ip w = (r, w') ->
  exists err dd,
    trace w' = trace w ++ IReleaseAddress releaseInput err :: dd
    /\ Forall (disassociates ip) dd
    /\ length dd <= wait.Steps NewBackoff
    /\ match err with
       | None => dd = [] /\ r = Done (true, None)
       | Some e =>
           (ec2.AssociationId ip <> None -> 1 <= wait.Steps NewBackoff -> 1 <= length dd)
           /\ (ec2.AllocationId ip <> None -> r = Done (false, Some e))
       end.
Proof.
  unfold eip.releaseCondition, bind at 1, EC2Client.ReleaseAddressWithContext.
  destruct (ec2iface.ReleaseAddressWithContext releaseInput (client w)) as [err st].
  destruct err as [e|].
  - destruct (ec2.AssociationId ip) as [a|] eqn:Ea.
    + unfold bind.
      destruct (eip.disassociateAddress NewBackoff s ip
                  (exchange (IReleaseAddress releaseInput (Some e)) st w))
        as [r0 w0] eqn:Ed.
      apply disassociateAddress_exchange in Ed.
      destruct Ed as [dd [E [F [L [L1 D]]]]].
      intros H. exists (Some e), dd. simpl in E.
      assert (Ew : w0 = w') by (destruct r0 as [[?|]|]; inversion H; reflexivity).
      subst w0. rewrite E, <- app_assoc. simpl.
      repeat split; auto.
      intros Hid. destruct (D Hid) as [derr ->].
      destruct derr; inversion H; reflexivity.
    + intros H. inversion H; subst. exists (Some e), []. simpl.
      repeat split; auto; try lia. intros C. congruence.
  - intros H. inversion H; subst. exists None, []. simpl.
    repeat split; auto. lia.
Qed.

Lemma releaseRetryable_code e code :
  awserrors.Code (errors.Cause e) = (code, true) ->
  releaseRetryable e
  = existsb (String.eqb code) [awserrors.AuthFailure; awserrors.InUseIPAddress].
Proof. intros E. unfold releaseRetryable. now rewrite E. Qed.

Lemma releaseRetryable_no_code e code :
  awserrors.Code (errors.Cause e) = (code, false) -> releaseRetryable e = false.
Proof. intros E. unfold releaseRetryable. now rewrite E. Qed.

(** The release phase, for any number of attempts the backoff still
    allows. *)
Lemma release_retryLoop :
  ec2.AllocationId ip <> None ->
  forall steps, steps <= wait.Steps NewBackoff ->
  forall errToReturn (w : World T St) r w',
  wait.retryLoop steps (releaseCondition ip)
    [awserrors.AuthFailure; awserrors.InUseIPAddress] errToReturn w = (r, w') ->
  exists d,
    trace w' = trace w ++ d
    /\ releaseAttempts d <= steps
    /\ (1 <= steps -> 1 <= releaseAttempts d)
    /\ (1 <= steps -> exists err rest, d = IReleaseAddress releaseInput err :: rest)
    /\ length d <= steps * (1 + wait.Steps NewBackoff)
    /\ retryPolicyRespected steps d = true
    /\ (forall a, ec2.AssociationId ip = Some a ->
                  inlineDisassociation (Some a) d = true)
    /\ ((releaseSucceeded d = true /\ r = Done None)
        \/ (releaseSucceeded d = false /\ exists e, r = Done (Some e))).
Proof.
  intros Hid. induction steps as [|n IH]; intros Hn last w r w'.
  - cbn [wait.retryLoop]. intros H. inversion H; subst. exists []. rewrite app_nil_r.
    split; [reflexivity|]. split; [unfold releaseAttempts; simpl; lia|].
    split; [intros C; inversion C|]. split; [intros C; inversion C|].
    repeat split; auto; try lia. right. split; [reflexivity|]. eauto.
  - cbn [wait.retryLoop]. unfold bind.
    destruct (eip.releaseCondition NewBackoff s ip w) as [rc wc] eqn:Ec.
    apply releaseCondition_exchange in Ec.
    destruct Ec as [err [dd [Et [Fdd [Ldd Hm]]]]].
    assert (Terminal : forall e,
               err = Some e -> releaseRetryable e = false ->
               (Done (Some e), wc) = (r, w') ->
               exists d,
                 trace w' = trace w ++ d
                 /\ releaseAttempts d <= S n
                 /\ (1 <= S n -> 1 <= releaseAttempts d)
                 /\ (1 <= S n ->
                     exists err rest, d = IReleaseAddress releaseInput err :: rest)
                 /\ length d <= S n * (1 + wait.Steps NewBackoff)
                 /\ retryPolicyRespected (S n) d = true
                 /\ (forall a, ec2.AssociationId ip = Some a ->
                               inlineDisassociation (Some a) d = true)
                 /\ ((releaseSucceeded d = true /\ r = Done None)
                     \/ (releaseSucceeded d = false /\ exists e, r = Done (Some e)))).
    { intros e -> Hre H. inversion H; subst.
      destruct Hm as [Hlen _].
      exists (IReleaseAddress releaseInput (Some e) :: dd ++ []).
      rewrite app_nil_r at 1. split; [exact Et|].
      assert (Ra : releaseAttempts (dd ++ []) = 0)
        by (rewrite (releaseAttempts_disassociates ip); auto).
      split; [unfold releaseAttempts in *; simpl; lia|].
      split; [unfold releaseAttempts in *; simpl; lia|].
      split; [intros _; eauto|].
      split; [simpl; rewrite length_app; simpl; lia|].
      split.
      { simpl. rewrite Ra, Hre. simpl.
        rewrite (retryPolicyRespected_disassociates ip); auto. }
      split.
      { intros a Ea.
        rewrite (inlineDisassociation_failed_release ip a); auto.
        apply Hlen; [congruence | lia]. }
      right. split; [|eauto].
      unfold releaseSucceeded. simpl. fold (releaseSucceeded (dd ++ [])).
      rewrite (releaseSucceeded_disassociates ip); auto. }
    destruct err as [e|].
    + destruct Hm as [Hlen Hr]. rewrite (Hr Hid).
      destruct (awserrors.Code (errors.Cause e)) as [code [|]] eqn:Ecode.
      * destruct (existsb (String.eqb code)
                    [awserrors.AuthFailure; awserrors.InUseIPAddress]) eqn:Ex.
        -- intros H. apply IH in H; [|lia].
           destruct H as [d [E [Ra [Ra1 [_ [Ld [Pol [Inl Res]]]]]]]].
           exists (IReleaseAddress releaseInput (Some e) :: dd ++ d).
           split; [rewrite E, Et, <- app_assoc; reflexivity|].
           assert (Rd : releaseAttempts (dd ++ d) = releaseAttempts d)
             by (apply (releaseAttempts_disassociates ip); auto).
           split; [unfold releaseAttempts in *; simpl; lia|].
           split; [unfold releaseAttempts in *; simpl; lia|].
           split; [intros _; eauto|].
           split; [simpl; rewrite length_app; lia|].
           split.
           { simpl. rewrite Rd, (releaseRetryable_code e code Ecode), Ex.
             rewrite (retryPolicyRespected_disassociates ip), Pol; auto.
             destruct n as [|m].
             - assert (releaseAttempts d = 0) by lia.
               replace (releaseAttempts d) with 0 by lia. reflexivity.
             - assert (1 <= releaseAttempts d) by (apply Ra1; lia).
               destruct (releaseAttempts d); [lia|reflexivity]. }
           split.
           { intros a Ea.
             rewrite (inlineDisassociation_failed_release ip a); auto.
             apply Hlen; [congruence | lia]. }
           unfold releaseSucceeded. simpl. fold (releaseSucceeded (dd ++ d)).
           rewrite (releaseSucceeded_disassociates ip); auto.
        -- apply Terminal; [reflexivity|].
           rewrite (releaseRetryable_code e code Ecode). exact Ex.
      * apply Terminal; [reflexivity|].
        apply (releaseRetryable_no_code e code Ecode).
    + destruct Hm as [-> ->]. simpl. intros H. inversion H; subst.
      exists [IReleaseAddress releaseInput None].
      split; [exact Et|].
      split; [unfold releaseAttempts; simpl; lia|].
      split; [unfold releaseAttempts; simpl; lia|].
      split; [intros _; eauto|].
      repeat split; auto; simpl; lia.
Qed.

End Retry.

Section ReleaseOfOneAddress.
Context {T St : Type} {api : ec2iface.EC2API T St}.
Variable NewBackoff : wait.Backoff.
Variable s : eip.Service.
Variable ip : ec2.Address.

Local Abbreviation disassociateAddress := (eip.disassociateAddress NewBackoff s).
Local Abbreviation releaseAddress := (eip.releaseAddress NewBackoff s).
Local Abbreviation disassociateInput :=
  {| ec2.DisAssociationId := ec2.AssociationId ip |}.
Local Abbreviation releaseInput :=
  {| ec2.RelAllocationId := ec2.AllocationId ip |}.

Lemma authFailure_found e : authFailure e = true -> associationNotFound e = false.
Proof.
  unfold authFailure, associationNotFound.
  destruct (awserrors.Code (errors.Cause e)) as [code [|]]; [|discriminate].
  simpl. rewrite orb_false_r. intros H. apply String.eqb_eq in H. now subst.
Qed.

Lemma disassociateAddress_trace (w : World T St) :
  trace (snd (disassociateAddress ip w))
  = trace (snd (wait.retryLoop (wait.Steps NewBackoff) (eip.disassociateCondition ip)
                  [awserrors.AuthFailure] None w)).
Proof.
  unfold eip.disassociateAddress, wait.WaitForWithRetryable, bind.
  destruct (wait.retryLoop (wait.Steps NewBackoff) (eip.disassociateCondition ip)
              [awserrors.AuthFailure] None w) as [[[e|]|] w0]; try reflexivity.
  destruct (ec2.AllocationId ip); reflexivity.
Qed.

(** C7. For an address as the provider lists it (allocation id and public
    IP present), whatever the provider answers. Every request of the call
    is a disassociate or a release request for this address. The call
    starts with the direct disassociate request when the address has an
    association, and ends there when that request fails; otherwise, when
    the backoff allows an attempt, the release request follows (it comes
    first for an address without association). Every failed release
    request of the call is directly followed by a disassociate request for
    the address's association when it has one; a failed release request is
    followed by another release request exactly when its code is auth
    failure or in use and the backoff has attempts left, and an accepted
    one is the last; the call sends at most as many release requests as the
    backoff has steps and a bounded number of requests in all; and when no
    release request was accepted it returns an error. After an accepted
    release request the call returns no error when the service has a
    logger, and panics at the log line when it has none. *)
Theorem releaseAddress_retries_in_use (w : World T St) r w' :
  ec2.AllocationId ip <> None ->
  ec2.PublicIp ip <> None ->
  releaseAddress ip w = (r, w') ->
  exists d,
    trace w' = trace w ++ d
    /\ Forall (targets ip) d
    /\ match ec2.AssociationId ip with
       | None =>
           1 <= wait.Steps NewBackoff ->
           exists err rest, d = IReleaseAddress releaseInput err :: rest
       | Some _ =>
           exists derr rest,
             d = IDisassociateAddress disassociateInput derr :: rest
             /\ match derr with
                | Some _ => rest = []
                | None =>
                    1 <= wait.Steps NewBackoff ->
                    exists err rest', rest = IReleaseAddress releaseInput err :: rest'
                end
       end
    /\ (forall a, ec2.AssociationId ip = Some a ->
                  inlineDisassociation (Some a) d = true)
    /\ retryPolicyRespected (wait.Steps NewBackoff) d = true
    /\ releaseAttempts d <= wait.Steps NewBackoff
    /\ length d <= 1 + wait.Steps NewBackoff * (1 + wait.Steps NewBackoff)
    /\ ((releaseSucceeded d = true
         /\ r = match eip.Wrapper s with
                | Some _ => Done None
                | None => Panicked
                end)
        \/ (releaseSucceeded d = false /\ exists e, r = Done (Some e))).
Proof.
  intros Hid Hpub Hr.
  destruct (footprint_releaseAddress NewBackoff s ip w) as [d0 [E0 F0]].
  rewrite Hr in E0. simpl in E0.
  revert Hr.
  destruct (ec2.AllocationId ip) as [id|] eqn:Eid; [|congruence].
  destruct (ec2.PublicIp ip) as [pub|] eqn:Epub; [|congruence].
  assert (Hid' : ec2.AllocationId ip <> None) by (rewrite Eid; discriminate).
  assert (Phase : forall w1 r w',
             (err <- wait.WaitForWithRetryable NewBackoff
                       (eip.releaseCondition NewBackoff s ip)
                       [awserrors.AuthFailure; awserrors.InUseIPAddress] ;;
              match err with
              | Some e =>
                  id <- deref (ec2.AllocationId ip) ;;
                  record.Warnf "FailedReleaseEIP" "Failed to disassociate Elastic IP %q: %v"
                    [ArgString id; ArgError e] ;;;
                  ret (Some (Wrapf e "failed to release ElasticIP %q" [ArgString id]))
              | None =>
                  pub <- deref (ec2.PublicIp ip) ;;
                  id <- deref (ec2.AllocationId ip) ;;
                  eip.Info s "released ElasticIP"
                    [ArgString "eip"; ArgString pub; ArgString "allocation-id"; ArgString id] ;;;
                  ret None
              end) w1 = (r, w') ->
             exists d,
               trace w' = trace w1 ++ d
               /\ (1 <= wait.Steps NewBackoff ->
                   exists err rest,
                     d = IReleaseAddress {| ec2.RelAllocationId := Some id |} err :: rest)
               /\ (forall a, ec2.AssociationId ip = Some a ->
                             inlineDisassociation (Some a) d = true)
               /\ retryPolicyRespected (wait.Steps NewBackoff) d = true
               /\ releaseAttempts d <= wait.Steps NewBackoff
               /\ length d <= wait.Steps NewBackoff * (1 + wait.Steps NewBackoff)
               /\ ((releaseSucceeded d = true
                    /\ r = match eip.Wrapper s with
                           | Some _ => Done None
                           | None => Panicked
                           end)
                   \/ (releaseSucceeded d = false /\ exists e, r = Done (Some e)))).
  { intros w1 r1 w1'. unfold wait.WaitForWithRetryable, bind at 1.
    destruct (wait.retryLoop (wait.Steps NewBackoff) (eip.releaseCondition NewBackoff s ip)
                [awserrors.AuthFailure; awserrors.InUseIPAddress] None w1)
      as [r0 w0] eqn:El.
    apply (release_retryLoop NewBackoff s ip Hid') in El; [|lia].
    destruct El as [d [E [Ra [_ [First [Ld [Pol [Inl Res]]]]]]]].
    rewrite Eid in First. rewrite Eid, Epub.
    destruct Res as [[Su ->] | [Su [e ->]]]; unfold bind, ret, eip.Info;
      [destruct (eip.Wrapper s)|]; simpl;
      intros H; inversion H; subst;
      exists d; simpl; repeat split; auto.
    right. split; [exact Su|]. eauto. }
  assert (Main : releaseAddress ip w = (r, w') ->
            exists d,
              trace w' = trace w ++ d
              /\ match ec2.AssociationId ip with
                 | None =>
                     1 <= wait.Steps NewBackoff ->
                     exists err rest,
                       d = IReleaseAddress {| ec2.RelAllocationId := Some id |} err :: rest
                 | Some _ =>
                     exists derr rest,
                       d = IDisassociateAddress disassociateInput derr :: rest
                       /\ match derr with
                          | Some _ => rest = []
                          | None =>
                              1 <= wait.Steps NewBackoff ->
                              exists err rest',
                                rest = IReleaseAddress
                                         {| ec2.RelAllocationId := Some id |} err :: rest'
                          end
                 end
              /\ (forall a, ec2.AssociationId ip = Some a ->
                            inlineDisassociation (Some a) d = true)
              /\ retryPolicyRespected (wait.Steps NewBackoff) d = true
              /\ releaseAttempts d <= wait.Steps NewBackoff
              /\ length d <= 1 + wait.Steps NewBackoff * (1 + wait.Steps NewBackoff)
              /\ ((releaseSucceeded d = true
                   /\ r = match eip.Wrapper s with
                          | Some _ => Done None
                          | None => Panicked
                          end)
                  \/ (releaseSucceeded d = false /\ exists e, r = Done (Some e)))).
  { unfold eip.releaseAddress, bind at 1.
    destruct (ec2.AssociationId ip) as [a|] eqn:Ea.
    - unfold bind at 1, EC2Client.DisassociateAddressWithContext.
      destruct (ec2iface.DisassociateAddressWithContext
                  {| ec2.DisAssociationId := Some a |} (client w)) as [derr st].
      destruct derr as [e|].
      + rewrite Eid, Epub. unfold bind, ret. simpl.
        intros H. inversion H; subst.
        exists [IDisassociateAddress {| ec2.DisAssociationId := Some a |} (Some e)].
        simpl. split; [reflexivity|].
        split; [exists (Some e), []; split; reflexivity|].
        split; [auto|]. split; [reflexivity|].
        split; [unfold releaseAttempts; simpl; lia|]. split; [lia|].
        right. split; [reflexivity|]. eauto.
      + intros H. apply Phase in H.
        destruct H as [d [E [First [Inl [Pol [Ra [Ld Res]]]]]]].
        exists (IDisassociateAddress {| ec2.DisAssociationId := Some a |} None :: d).
        simpl in E. rewrite E, <- app_assoc.
        split; [reflexivity|].
        split; [exists None, d; split; [reflexivity | exact First]|].
        split; [intros a' Ha'; simpl; auto|].
        split; [exact Pol|]. split; [exact Ra|]. split; [simpl; lia|]. exact Res.
    - intros H. apply Phase in H.
      destruct H as [d [E [First [Inl [Pol [Ra [Ld Res]]]]]]].
      exists d. repeat split; auto; lia. }
  intros Hr. destruct (Main Hr) as [d [E Rest]].
  assert (Ed : d0 = d) by (apply (app_inv_head (trace w)); congruence).
  subst d0. exists d. split; [exact E|]. split; [exact F0|]. exact Rest.
Qed.

(** C3, as the code has it. For an attached address as the provider lists
    it: (1) release first sends one disassociate request outside any
    waiter, and when that request fails with an error other than
    "association not found" the call returns an error at once, with no
    retry and no release request. The waiter-wrapped disassociation that
    release runs after a failed release request (2) treats "association
    not found" as success, (3) ends at once with the error on any other
    error that is not an auth failure, (4) sends the request again after an
    auth failure while attempts remain, and (5) never sends more requests
    than the backoff has steps. *)
Theorem release_disassociate_phase a id pub :
  ec2.AssociationId ip = Some a ->
  ec2.AllocationId ip = Some id ->
  ec2.PublicIp ip = Some pub ->
  (forall (w : World T St) e st',
      ec2iface.DisassociateAddressWithContext disassociateInput (client w)
        = (Some e, st') ->
      associationNotFound e = false ->
      exists err w',
        releaseAddress ip w = (Done (Some err), w')
        /\ trace w' = trace w ++ [IDisassociateAddress disassociateInput (Some e)])
  /\ (forall (w : World T St) e st',
      ec2iface.DisassociateAddressWithContext disassociateInput (client w)
        = (Some e, st') ->
      associationNotFound e = true ->
      1 <= wait.Steps NewBackoff ->
      disassociateAddress ip w
      = (Done None, exchange (IDisassociateAddress disassociateInput (Some e)) st' w))
  /\ (forall (w : World T St) e st',
      ec2iface.DisassociateAddressWithContext disassociateInput (client w)
        = (Some e, st') ->
      associationNotFound e = false ->
      authFailure e = false ->
      1 <= wait.Steps NewBackoff ->
      exists w',
        disassociateAddress ip w
        = (Done (Some (Wrapf e "failed to disassociate Elastic IP %q" [ArgString id])), w')
        /\ trace w' = trace w ++ [IDisassociateAddress disassociateInput (Some e)])
  /\ (forall (w : World T St) e st',
      ec2iface.DisassociateAddressWithContext disassociateInput (client w)
        = (Some e, st') ->
      authFailure e = true ->
      2 <= wait.Steps NewBackoff ->
      exists err2 dd,
        trace (snd (disassociateAddress ip w))
        = trace w ++ IDisassociateAddress disassociateInput (Some e)
                  :: IDisassociateAddress disassociateInput err2 :: dd)
  /\ (forall (w : World T St),
      exists dd,
        trace (snd (disassociateAddress ip w)) = trace w ++ dd
        /\ length dd <= wait.Steps NewBackoff).
Proof.
  intros Ea Hid Hpub. split; [|split; [|split; [|split]]].
  - intros w e st' Ec _.
    unfold eip.releaseAddress, bind, EC2Client.DisassociateAddressWithContext.
    rewrite Ea in *. rewrite Ec, Hid, Hpub. simpl.
    eexists. eexists. split; reflexivity.
  - intros w e st' Ec Hnf Hs.
    unfold eip.disassociateAddress, wait.WaitForWithRetryable.
    destruct (wait.Steps NewBackoff) as [|n]; [lia|].
    cbn [wait.retryLoop]. unfold bind.
    rewrite (disassociateCondition_run ip w (Some e) st' Ec), Hnf. reflexivity.
  - intros w e st' Ec Hnf Hauth Hs.
    unfold eip.disassociateAddress, wait.WaitForWithRetryable.
    destruct (wait.Steps NewBackoff) as [|n]; [lia|].
    cbn [wait.retryLoop]. unfold bind.
    rewrite (disassociateCondition_run ip w (Some e) st' Ec), Hnf.
    unfold authFailure in Hauth.
    destruct (awserrors.Code (errors.Cause e)) as [code [|]];
      [rewrite Hauth|]; rewrite Hid; simpl; eexists; split; reflexivity.
  - intros w e st' Ec Hauth Hs.
    rewrite disassociateAddress_trace.
    destruct (wait.Steps NewBackoff) as [|n]; [lia|].
    cbn [wait.retryLoop]. unfold bind at 1.
    rewrite (disassociateCondition_run ip w (Some e) st' Ec),
      (authFailure_found e Hauth).
    unfold authFailure in Hauth.
    destruct (awserrors.Code (errors.Cause e)) as [code [|]]; [|discriminate].
    rewrite Hauth.
    destruct (wait.retryLoop n (eip.disassociateCondition ip)
                [awserrors.AuthFailure] (Some e)
                (exchange (IDisassociateAddress disassociateInput (Some e)) st' w))
      as [r1 w2] eqn:E2.
    apply disassociate_retryLoop in E2.
    destruct E2 as [dd [Etr [F [_ [L1 _]]]]].
    destruct dd as [|i dd']; [simpl in L1; lia|].
    inversion F as [|? ? [err2 ->] _]; subst.
    exists err2, dd'. simpl. rewrite Etr. simpl. now rewrite <- app_assoc.
  - intros w.
    destruct (eip.disassociateAddress NewBackoff s ip w) as [r w'] eqn:Ed.
    apply disassociateAddress_exchange in Ed.
    destruct Ed as [dd [E [_ [L _]]]]. exists dd. simpl. auto.
Qed.

End ReleaseOfOneAddress.

Lemma releaseAddress_retries_in_use_witness :
  exists d,
    trace (snd (eip.releaseAddress mock.backoff mock.plain mock.attached
                  (mock.start mock.inUseTwice))) = [] ++ d
    /\ Forall (targets mock.attached) d
    /\ (exists derr rest,
          d = IDisassociateAddress {| ec2.DisAssociationId := Some "eipassoc-1" |} derr
              :: rest
          /\ match derr with
             | Some _ => rest = []
             | None =>
                 1 <= 3 ->
                 exists err rest',
                   rest = IReleaseAddress {| ec2.RelAllocationId := Some "a" |} err
                          :: rest'
             end)
    /\ (forall a, Some "eipassoc-1" = Some a -> inlineDisassociation (Some a) d = true)
    /\ retryPolicyRespected 3 d = true
    /\ releaseAttempts d <= 3
    /\ length d <= 1 + 3 * (1 + 3)
    /\ ((releaseSucceeded d = true
         /\ fst (eip.releaseAddress mock.backoff mock.plain mock.attached
                   (mock.start mock.inUseTwice)) = Done None)
        \/ (releaseSucceeded d = false
            /\ exists e, fst (eip.releaseAddress mock.backoff mock.plain mock.attached
                                (mock.start mock.inUseTwice)) = Done (Some e))).
Proof.
  apply (releaseAddress_retries_in_use mock.backoff mock.plain mock.attached
           (mock.start mock.inUseTwice)).
  - simpl. discriminate.
  - simpl. discriminate.
  - reflexivity.
Defined.

Lemma release_disassociate_phase_witness :
  (exists err w',
      eip.releaseAddress mock.backoff mock.plain mock.attached
        (mock.start mock.disassociateRefused) = (Done (Some err), w')
      /\ trace w' = [IDisassociateAddress {| ec2.DisAssociationId := Some "eipassoc-1" |}
                       (Some mock.throttled)])
  /\ eip.disassociateAddress mock.backoff mock.plain mock.attached
       (mock.start mock.associationGone)
     = (Done None,
        exchange (IDisassociateAddress {| ec2.DisAssociationId := Some "eipassoc-1" |}
                    (Some mock.gone))
          {| mock.describeAddressesAnswers := [];
             mock.allocateAnswers := [];
             mock.disassociateAnswers := [];
             mock.releaseAnswers := [None];
             mock.poolsAnswers := [] |}
          (mock.start mock.associationGone)).
Proof.
  destruct (release_disassociate_phase mock.backoff mock.plain mock.attached
              "eipassoc-1" "a" "203.0.113.7")
    as [Direct [Gone _]].
  - reflexivity.
  - reflexivity.
  - reflexivity.
  - split.
    + apply (Direct (mock.start mock.disassociateRefused) mock.throttled
               {| mock.describeAddressesAnswers := [];
                  mock.allocateAnswers := [];
                  mock.disassociateAnswers := [None];
                  mock.releaseAnswers := [None];
                  mock.poolsAnswers := [] |}).
      * reflexivity.
      * reflexivity.
    + apply (Gone (mock.start mock.associationGone) mock.gone).
      * reflexivity.
      * reflexivity.
      * simpl. lia.
Defined.

(** C3 as stated fails: a disassociate error that the waiter's policy
    retries (an auth failure) is not retried by release. The provider would
    have accepted a second disassociate request, but release gives up after
    the first and returns an error without a release request. *)
Lemma release_disassociate_not_retried_counterexample :
  ~ (forall (w : World mock.TagSpec mock.Script) e st',
       ec2iface.DisassociateAddressWithContext
         {| ec2.DisAssociationId := ec2.AssociationId mock.attached |} (client w)
         = (Some e, st') ->
       authFailure e = true ->
       exists err2 d,
         trace (snd (eip.releaseAddress mock.backoff mock.plain mock.attached w))
         = trace w
           ++ IDisassociateAddress
                {| ec2.DisAssociationId := ec2.AssociationId mock.attached |} (Some e)
           :: IDisassociateAddress
                {| ec2.DisAssociationId := ec2.AssociationId mock.attached |} err2
           :: d).
Proof.
  intros H.
  destruct (H (mock.start mock.disassociateRefused) mock.throttled _ eq_refl eq_refl)
    as [err2 [d E]].
  discriminate E.
Qed.

(** The first, direct disassociate call of release does not have the
    tolerance of [disassociateAddress]: when the provider answers it with
    "association not found", release returns an error and sends no release
    request, although a release would have been accepted. *)
Example releaseAddress_association_gone :
  exists err w',
    eip.releaseAddress mock.backoff mock.plain mock.attached
      (mock.start mock.associationGone) = (Done (Some err), w')
    /\ trace w' = [IDisassociateAddress {| ec2.DisAssociationId := Some "eipassoc-1" |}
                     (Some mock.gone)]
    /\ mock.releaseAnswers (client w') = [None].
Proof. eexists. eexists. split; [reflexivity|]. split; reflexivity. Qed.

(** ** Tags at creation and filters of the queries *)

Section TagsAndFilters.
Context {T St : Type} {api : ec2iface.EC2API T St}.
Variable NewBackoff : wait.Backoff.
Variable BuildParamsToTagSpecification : string -> infrav1.BuildParams -> T.
Variable s : eip.Service.

Local Abbreviation tagSpecification role :=
  (BuildParamsToTagSpecification ec2.ResourceTypeElasticIp (eip.getEIPTagParams s role)).

(** The filters of the listing used by [GetOrAllocateAddresses]. *)
Local Abbreviation listingFilters role :=
  (filter.Cluster (eip.Name s)
     :: (if String.eqb role "" then [] else [filter.ProviderRole role])).

(** The pool check leaves the tags and the domain of the request alone. *)
Lemma setByoPublicIpv4_keeps_tags filters (spec : T) alloc :
  footprintWith (allocatesTagged filters spec)
    (fun r => ec2.TagSpecifications (fst r) = ec2.TagSpecifications alloc
              /\ ec2.Domain (fst r) = ec2.Domain alloc)
    (eip.setByoPublicIpv4 (St:=St) s alloc).
Proof.
  unfold eip.setByoPublicIpv4.
  eapply footprintWith_bind; [apply footprintWith_any, footprint_deref|].
  intros v _.
  destruct (infrav1.PublicIpv4Pool v); [|apply footprintWith_ret; auto].
  eapply footprintWith_bind.
  - apply footprintWith_any.
    unfold eip.publicIpv4PoolHasFreeIPs.
    apply footprint_bind; [apply footprint_deref|]. intros v'.
    apply footprint_bind; [apply footprint_Pools; intros; exact I|].
    intros [pools [e|]]; [apply footprint_ret|].
    apply footprint_bind; [apply footprint_deref|]. intros out.
    destruct (ec2.PublicIpv4Pools out) as [|p [|q l]]; try apply footprint_ret.
    repeat footprint_step.
  - intros [ok [e|]] _.
    + destruct ok;
        (eapply footprintWith_bind; [apply footprintWith_any, footprint_emit|]);
        intros _ _; apply footprintWith_ret; auto.
    + destruct ok; [apply footprintWith_ret; auto|].
      destruct (infrav1.PublicIpv4PoolFallBackOrder v) as [order|];
        [|apply footprintWith_ret; auto].
      destruct (infrav1.Equal order infrav1.PublicIpv4PoolFallbackOrderNone);
        [|apply footprintWith_ret; auto].
      eapply footprintWith_bind; [apply footprintWith_any, footprint_emit|].
      intros _ _. apply footprintWith_ret; auto.
Qed.

Lemma footprint_allocateAddress filters role :
  footprint (allocatesTagged filters (tagSpecification role))
    (eip.allocateAddress (St:=St) BuildParamsToTagSpecification s role).
Proof.
  unfold eip.allocateAddress.
  eapply footprintWith_footprint with (Q := fun _ => True).
  eapply footprintWith_bind; [apply setByoPublicIpv4_keeps_tags|].
  intros [alloc [e|]] [Ht Hd]; apply footprintWith_any; [apply footprint_ret|].
  simpl in Ht, Hd.
  apply footprint_bind; [apply footprint_Allocate; intros; split; assumption|].
  intros [out [e|]]; repeat footprint_step.
Qed.

Lemma footprint_allocateMissing filters role missing :
  forall eips,
  footprint (allocatesTagged filters (tagSpecification role))
    (eip.allocateMissing (St:=St) BuildParamsToTagSpecification missing s role eips).
Proof.
  induction missing as [|n IH]; intros eips; simpl.
  - apply footprint_ret.
  - apply footprint_bind; [apply footprint_allocateAddress|].
    intros [ip [e|]]; [apply footprint_ret | apply IH].
Qed.

Lemma footprint_GetOrAllocateAddresses num role :
  footprint (allocatesTagged (listingFilters role) (tagSpecification role))
    (eip.GetOrAllocateAddresses (St:=St) BuildParamsToTagSpecification s num role).
Proof.
  unfold eip.GetOrAllocateAddresses.
  apply footprint_bind.
  - unfold eip.describeAddresses.
    apply footprint_DescribeAddresses. intros out err. simpl.
    destruct (String.eqb role ""); reflexivity.
  - intros [out [e|]]; [repeat footprint_step|].
    apply footprint_bind; [apply footprint_deref|]. intros o.
    apply footprint_allocateMissing.
Qed.

Lemma footprint_releaseAddresses filters :
  footprint (releasesListed filters) (eip.releaseAddresses (St:=St) NewBackoff s filters).
Proof.
  unfold eip.releaseAddresses.
  apply footprint_bind; [apply footprint_DescribeAddresses; reflexivity|].
  intros [out [e|]]; [destruct out; apply footprint_ret|].
  destruct out as [out|]; [|apply footprint_ret].
  eapply footprint_weaken; [|apply footprint_releaseEach].
  intros i [ip [_ Hi]]. destruct i; simpl in *; try contradiction; exact I.
Qed.

(** C8, as the code has it. Whatever the provider answers: all that
    [GetOrAllocateAddresses] sends is address queries whose filters are the
    cluster-identity filter followed by the role filter exactly when the
    role is not empty, pool queries, and allocate requests that carry, in
    the request itself, the tag specification built from the cluster name,
    the role, the lifecycle [owned] and the name "<cluster>-eip-<role>";
    nothing else is sent, so no tag is attached after creation. All that
    the cluster-wide release queries is the cluster-identity filter alone,
    and the release by role queries the cluster-identity filter followed by
    the role filter for every role, the empty one included. *)
Theorem tags_at_creation_and_query_filters :
  (forall role,
      eip.getEIPTagParams s role
      = {| infrav1.ClusterName := eip.Name s;
           infrav1.Lifecycle := infrav1.ResourceLifecycleOwned;
           infrav1.Name := Some (eip.Name s ++ "-eip-" ++ role)%string;
           infrav1.Role := Some role;
           infrav1.Additional := eip.AdditionalTags s |})
  /\ (forall num role,
      footprint (allocatesTagged (listingFilters role) (tagSpecification role))
        (eip.GetOrAllocateAddresses (St:=St) BuildParamsToTagSpecification s num role))
  /\ footprint (releasesListed [filter.Cluster (eip.Name s)])
       (eip.ReleaseAddresses (St:=St) NewBackoff s)
  /\ (forall role,
      footprint (releasesListed [filter.Cluster (eip.Name s); filter.ProviderRole role])
        (eip.ReleaseAddressByRole (St:=St) NewBackoff s role)).
Proof.
  split; [reflexivity|]. split; [apply footprint_GetOrAllocateAddresses|].
  split; [apply footprint_releaseAddresses|].
  intros role. apply footprint_releaseAddresses.
Qed.

Lemma queriedFilters_app (a b : list (Interaction T)) :
  queriedFilters (a ++ b) = queriedFilters a ++ queriedFilters b.
Proof. apply flat_map_app. Qed.

Lemma queriedFilters_targets (P : Interaction T -> Prop) (d : list (Interaction T)) :
  (forall i, P i -> exists ip, targets ip i) ->
  Forall P d -> queriedFilters d = [].
Proof.
  intros HP. induction 1 as [|i l Hi _ IH]; [reflexivity|].
  unfold queriedFilters in *. simpl. rewrite IH.
  destruct (HP i Hi) as [ip Ht]. destruct i; simpl in Ht; try contradiction; reflexivity.
Qed.

(** C9. The release by role queries with the cluster-identity filter
    followed by the role filter for every role, also for the empty role,
    whereas the listing used by [GetOrAllocateAddresses] queries the empty
    role with the cluster-identity filter alone. For the empty role, when
    the provider answers the query with addresses that its filters select,
    every request sent after the query is a disassociate or a release
    request built from a listed address whose role tag is the empty string
    and whose cluster tag is the cluster's name. *)
Theorem ReleaseAddressByRole_always_filters_role :
  (forall role (w : World T St),
      exists d,
        trace (snd (eip.ReleaseAddressByRole NewBackoff s role w)) = trace w ++ d
        /\ queriedFilters d = [[filter.Cluster (eip.Name s); filter.ProviderRole role]])
  /\ (forall (w : World T St),
      exists d,
        trace (snd (eip.describeAddresses s "" w)) = trace w ++ d
        /\ queriedFilters d = [[filter.Cluster (eip.Name s)]])
  /\ (forall (w : World T St) out st',
      ec2iface.DescribeAddressesWithContext
        {| ec2.Filters := [filter.Cluster (eip.Name s); filter.ProviderRole ""] |}
        (client w) = ((Some out, None), st') ->
      (forall a f, In a (ec2.Addresses out) ->
                   In f [filter.Cluster (eip.Name s); filter.ProviderRole ""] ->
                   selects f a) ->
      exists d,
        trace (snd (eip.ReleaseAddressByRole NewBackoff s "" w))
        = trace w
          ++ IDescribeAddresses
               {| ec2.Filters := [filter.Cluster (eip.Name s); filter.ProviderRole ""] |}
               (Some out) None
          :: d
        /\ Forall (fun i => exists a,
                       In a (ec2.Addresses out)
                       /\ roleTag a = Some ""
                       /\ clusterTag a = Some (eip.Name s)
                       /\ targets a i) d).
Proof.
  split; [|split].
  - intros role w.
    unfold eip.ReleaseAddressByRole, eip.releaseAddresses,
      bind, EC2Client.DescribeAddressesWithContext. simpl.
    destruct (ec2iface.DescribeAddressesWithContext _ (client w)) as [[out err] st].
    destruct err as [e|]; destruct out as [out|].
    1, 2, 4: (eexists; split; reflexivity).
    match goal with
    | |- context [eip.releaseEach _ _ _ ?w1] =>
        destruct (footprint_releaseEach NewBackoff s (ec2.Addresses out) w1)
          as [d [E F]]
    end.
    exists (IDescribeAddresses
              {| ec2.Filters := [filter.Cluster (eip.Name s); filter.ProviderRole role] |}
              (Some out) None :: d).
    split.
    + rewrite E. simpl. now rewrite <- app_assoc.
    + assert (Q : queriedFilters d = []).
      { eapply queriedFilters_targets; [|exact F]. intros i [ip [_ Hi]]. eauto. }
      unfold queriedFilters in *. simpl. now rewrite Q.
  - intros w. unfold eip.describeAddresses, EC2Client.DescribeAddressesWithContext. simpl.
    destruct (ec2iface.DescribeAddressesWithContext _ (client w)) as [[out err] st].
    eexists. split; [reflexivity|]. reflexivity.
  - intros w out st' Ed Hsel.
    unfold eip.ReleaseAddressByRole. simpl.
    rewrite (releaseAddresses_listed NewBackoff s _ w out st' Ed).
    destruct (footprint_releaseEach NewBackoff s (ec2.Addresses out)
                (exchange (IDescribeAddresses
                             {| ec2.Filters := [filter.Cluster (eip.Name s);
                                                filter.ProviderRole ""] |}
                             (Some out) None) st' w)) as [d [E F]].
    exists d. rewrite E. simpl. rewrite <- app_assoc. split; [reflexivity|].
    eapply Forall_impl; [|exact F].
    intros i [a [Ha Hi]]. exists a. split; [exact Ha|].
    split; [apply (Hsel a (filter.ProviderRole "") Ha); simpl; auto|].
    split; [apply (Hsel a (filter.Cluster (eip.Name s)) Ha); simpl; auto|exact Hi].
Qed.

End TagsAndFilters.

Lemma ReleaseAddressByRole_always_filters_role_witness :
  exists d,
    trace (snd (eip.ReleaseAddressByRole mock.backoff mock.plain ""
                  (mock.start mock.emptyRoleListed)))
    = [] ++ IDescribeAddresses
              {| ec2.Filters := [filter.Cluster "c1"; filter.ProviderRole ""] |}
              (Some {| ec2.Addresses := [mock.addressWithRole "" "a" None] |}) None
         :: d
    /\ Forall (fun i : Interaction mock.TagSpec =>
                 exists a,
                   In a [mock.addressWithRole "" "a" None]
                   /\ roleTag a = Some ""
                   /\ clusterTag a = Some "c1"
                   /\ targets a i) d.
Proof.
  destruct (ReleaseAddressByRole_always_filters_role (St:=mock.Script)
              mock.backoff mock.plain) as [_ [_ H]].
  apply (H (mock.start mock.emptyRoleListed)
           {| ec2.Addresses := [mock.addressWithRole "" "a" None] |}
           {| mock.describeAddressesAnswers := [];
              mock.allocateAnswers := [];
              mock.disassociateAnswers := [];
              mock.releaseAnswers := [None];
              mock.poolsAnswers := [] |}).
  - reflexivity.
  - intros a f [<- | []] [<- | [<- | []]]; reflexivity.
Defined.

(** C8 as stated fails: the release by role appends the role filter also
    when the role is empty. *)
Lemma query_role_filter_counterexample :
  ~ (forall role,
       queriedFilters
         (trace (snd (eip.ReleaseAddressByRole mock.backoff mock.plain role
                        (mock.start mock.idle))))
       = [filter.Cluster "c1"
            :: (if String.eqb role "" then [] else [filter.ProviderRole role])]).
Proof.
  intros H. specialize (H ""). discriminate H.
Qed.

(** * Further properties *)

(** ** More on running the effects *)

Section RunningMore.
Context {T St : Type}.

Lemma footprintWith_intro {A} (P : Interaction T -> Prop) (Q : A -> Prop)
    (m : M T St A) :
  footprint P m -> (forall w a, fst (m w) = Done a -> Q a) -> footprintWith P Q m.
Proof.
  intros Hm HQ w. destruct (Hm w) as [d [E F]]. exists d.
  repeat split; auto. apply HQ.
Qed.

Lemma footprintWith_deref {A} (P : Interaction T -> Prop) (p : option A) :
  footprintWith (St:=St) P (fun a => p = Some a) (deref p).
Proof.
  destruct p as [a|]; simpl.
  - apply footprintWith_ret. reflexivity.
  - intros w. exists []. simpl. rewrite app_nil_r. repeat split; auto.
    intros a H. discriminate H.
Qed.

End RunningMore.

(** ** Which pool an allocation draws from *)

Section Pools.
Context {T St : Type} {api : ec2iface.EC2API T St}.
Variable BuildParamsToTagSpecification : string -> infrav1.BuildParams -> T.
Variable s : eip.Service.

Local Abbreviation allocateAddress := (eip.allocateAddress BuildParamsToTagSpecification).
Local Abbreviation GetOrAllocateAddresses :=
  (eip.GetOrAllocateAddresses BuildParamsToTagSpecification).
Local Abbreviation firstRequest role :=
  {| ec2.Domain := aws.String "vpc";
     ec2.TagSpecifications :=
       [BuildParamsToTagSpecification ec2.ResourceTypeElasticIp
          (eip.getEIPTagParams s role)];
     ec2.AllocPublicIpv4Pool := None |}.
Local Abbreviation poolRequest role poolId :=
  {| ec2.Domain := aws.String "vpc";
     ec2.TagSpecifications :=
       [BuildParamsToTagSpecification ec2.ResourceTypeElasticIp
          (eip.getEIPTagParams s role)];
     ec2.AllocPublicIpv4Pool := Some poolId |}.

Lemma footprint_poolCheck_any (P : Interaction T -> Prop) want :
  (forall input out err, P (IDescribePublicIpv4Pools input out err)) ->
  footprint P (eip.publicIpv4PoolHasFreeIPs (St:=St) s want).
Proof.
  intros HP. unfold eip.publicIpv4PoolHasFreeIPs.
  apply footprint_bind; [apply footprint_deref|]. intros v.
  apply footprint_bind; [apply footprint_Pools; intros; apply HP|].
  intros [pools [e|]]; [apply footprint_ret|].
  apply footprint_bind; [apply footprint_deref|]. intros out.
  destruct (ec2.PublicIpv4Pools out) as [|p [|q l]]; try apply footprint_ret.
  repeat footprint_step.
Qed.

(** When the pool check lets a request through, the request names the
    configured pool. *)
Lemma setByoPublicIpv4_names_pool (alloc : ec2.AllocateAddressInput T) :
  ec2.AllocPublicIpv4Pool alloc = None ->
  footprintWith (allocatesFromConfigured s)
    (fun r => snd r = None ->
              exists v, eip.VPC s = Some v
                        /\ ec2.AllocPublicIpv4Pool (fst r) = infrav1.PublicIpv4Pool v)
    (eip.setByoPublicIpv4 (St:=St) s alloc).
Proof.
  intros Hnone. unfold eip.setByoPublicIpv4.
  eapply footprintWith_bind; [apply footprintWith_deref|].
  intros v Hv. simpl in Hv.
  destruct (infrav1.PublicIpv4Pool v) as [p|] eqn:Hp.
  - eapply footprintWith_bind
      with (Q' := fun r : bool * option error => fst r = false -> snd r <> None).
    + apply footprintWith_intro.
      * apply footprint_poolCheck_any. intros; exact I.
      * intros w [ok err] H Hok. simpl in *.
        destruct (eip.publicIpv4PoolHasFreeIPs s 1 w) as [r w'] eqn:E.
        simpl in H. subst r.
        eapply publicIpv4PoolHasFreeIPs_false_is_error; eauto.
    + intros [ok [e|]] Hq.
      * destruct ok;
          (eapply footprintWith_bind; [apply footprintWith_any, footprint_emit|]);
          intros _ _; apply footprintWith_ret; simpl; discriminate.
      * destruct ok.
        -- apply footprintWith_ret. simpl. intros _. exists v. rewrite Hp. auto.
        -- simpl in Hq. exfalso. apply Hq; reflexivity.
  - apply footprintWith_ret. simpl. intros _. exists v. rewrite Hp. auto.
Qed.

Lemma footprint_allocateAddress_pool role :
  footprint (allocatesFromConfigured s)
    (eip.allocateAddress (St:=St) BuildParamsToTagSpecification s role).
Proof.
  unfold eip.allocateAddress.
  eapply footprintWith_footprint with (Q := fun _ => True).
  eapply footprintWith_bind; [apply setByoPublicIpv4_names_pool; reflexivity|].
  intros [alloc [e|]] Hq; apply footprintWith_any; [apply footprint_ret|].
  simpl in Hq.
  apply footprint_bind; [apply footprint_Allocate; intros; simpl; auto|].
  intros [out [e|]]; repeat footprint_step.
Qed.

Lemma footprint_allocateMissing_pool role missing :
  forall eips,
  footprint (allocatesFromConfigured s)
    (eip.allocateMissing (St:=St) BuildParamsToTagSpecification missing s role eips).
Proof.
  induction missing as [|n IH]; intros eips; simpl.
  - apply footprint_ret.
  - apply footprint_bind; [apply footprint_allocateAddress_pool|].
    intros [ip [e|]]; [apply footprint_ret | apply IH].
Qed.

(** X6. Whatever the provider answers, every allocate request that
    [GetOrAllocateAddresses] sends names the pool the service is configured
    with: the bring-your-own pool when one is configured, none otherwise.
    With a pool configured, no address is ever requested from the provider's
    default pool. *)
Theorem allocate_requests_name_configured_pool num role :
  footprint (allocatesFromConfigured s)
    (eip.GetOrAllocateAddresses (St:=St) BuildParamsToTagSpecification s num role).
Proof.
  unfold eip.GetOrAllocateAddresses.
  apply footprint_bind.
  - unfold eip.describeAddresses. apply footprint_DescribeAddresses. intros; exact I.
  - intros [out [e|]]; [repeat footprint_step|].
    apply footprint_bind; [apply footprint_deref|]. intros o.
    apply footprint_allocateMissing_pool.
Qed.

(** X4. Without a configured pool, an allocation sends exactly one request,
    the allocate request for the VPC domain with the tags and without a
    pool, and no pool query. It returns the identity of the answer, or the
    provider's error wrapped with its cause kept. *)
Theorem allocateAddress_without_pool role (w : World T St) v out err st :
  eip.VPC s = Some v ->
  infrav1.PublicIpv4Pool v = None ->
  ec2iface.AllocateAddressWithContext (firstRequest role) (client w) = ((out, err), st) ->
  exists w',
    allocateAddress s role w
    = (match err, out with
       | Some e, _ => Done ("", Some (errors.Wrap e "failed to allocate Elastic IP"))
       | None, Some o => Done (aws.StringValue (ec2.OutAllocationId o), None)
       | None, None => Panicked
       end, w')
    /\ trace w' = trace w ++ [IAllocateAddress (firstRequest role) out err]
    /\ client w' = st
    /\ forall e, err = Some e ->
                 errors.Cause (errors.Wrap e "failed to allocate Elastic IP")
                 = errors.Cause e.
Proof.
  intros Hv Hp Ea.
  unfold eip.allocateAddress, eip.setByoPublicIpv4, bind, deref,
    EC2Client.AllocateAddressWithContext.
  rewrite Hv. simpl. rewrite Hp. simpl. rewrite Ea.
  destruct err as [e|]; [|destruct out as [o|]]; simpl;
    eexists; (split; [reflexivity|]); simpl; auto.
Qed.

(** X5. With a configured pool for which the provider reports exactly one
    pool with at least one available address, an allocation sends the pool
    query first. A service with a logger then sends one allocate request
    that names the pool, and returns the identity of the answer. A service
    without a logger, which is what [NewService] builds, panics at the
    debug line that follows the pool query: no allocate request is sent. *)
Theorem allocateAddress_from_pool role (w : World T St) v poolId p st1 o st2 :
  eip.VPC s = Some v ->
  infrav1.PublicIpv4Pool v = Some poolId ->
  ec2iface.DescribePublicIpv4Pools {| ec2.PoolIds := [Some poolId] |} (client w)
    = ((Some {| ec2.PublicIpv4Pools := [p] |}, None), st1) ->
  (1 <= aws.Int64Value (ec2.TotalAvailableAddressCount p))%Z ->
  ec2iface.AllocateAddressWithContext (poolRequest role poolId) st1
    = ((Some o, None), st2) ->
  exists w',
    allocateAddress s role w
    = (match eip.Wrapper s with
       | Some _ => Done (aws.StringValue (ec2.OutAllocationId o), None)
       | None => Panicked
       end, w')
    /\ trace w' = trace w ++
         IDescribePublicIpv4Pools {| ec2.PoolIds := [Some poolId] |}
           (Some {| ec2.PublicIpv4Pools := [p] |}) None
         :: match eip.Wrapper s with
            | Some _ => [IAllocateAddress (poolRequest role poolId) (Some o) None]
            | None => []
            end
    /\ client w' = match eip.Wrapper s with
                   | Some _ => st2
                   | None => st1
                   end.
Proof.
  intros Hv Hp Hq Hfree Ea.
  unfold eip.allocateAddress, eip.setByoPublicIpv4, eip.publicIpv4PoolHasFreeIPs,
    eip.Debug, bind, deref, EC2Client.DescribePublicIpv4Pools,
    EC2Client.AllocateAddressWithContext.
  rewrite Hv. simpl. rewrite Hp. simpl. rewrite Hq. simpl.
  assert (Hge : (aws.Int64Value (ec2.TotalAvailableAddressCount p) <? 1)%Z = false)
    by (apply Z.ltb_ge; lia).
  rewrite Hge. destruct (eip.Wrapper s); simpl.
  - rewrite Ea. simpl.
    eexists. split; [reflexivity|]. simpl. rewrite <- app_assoc. auto.
  - eexists. split; [reflexivity|]. simpl. auto.
Qed.

(** X7. With a configured pool, when the pool query fails, or answers with
    no pool or with several, the allocation returns an error and sends no
    allocate request. *)
Theorem allocateAddress_pool_not_found role (w : World T St) v poolId out err st :
  eip.VPC s = Some v ->
  infrav1.PublicIpv4Pool v = Some poolId ->
  ec2iface.DescribePublicIpv4Pools {| ec2.PoolIds := [Some poolId] |} (client w)
    = ((out, err), st) ->
  err <> None \/ (exists o, out = Some o /\ length (ec2.PublicIpv4Pools o) <> 1) ->
  exists w',
    allocateAddress s role w
    = (Done ("", Some (errors.New "failed to allocate Elastic IP from PublicIpv4 Pool")), w')
    /\ trace w' = trace w ++ [IDescribePublicIpv4Pools {| ec2.PoolIds := [Some poolId] |} out err]
    /\ client w' = st.
Proof.
  intros Hv Hp Hq Hbad.
  unfold eip.allocateAddress, eip.setByoPublicIpv4, eip.publicIpv4PoolHasFreeIPs,
    bind, deref, EC2Client.DescribePublicIpv4Pools.
  rewrite Hv. simpl. rewrite Hp. simpl. rewrite Hq.
  destruct err as [e|].
  - simpl. eexists. split; [reflexivity|]. simpl. auto.
  - destruct Hbad as [C | [o [-> Hlen]]]; [congruence|]. simpl.
    destruct (ec2.PublicIpv4Pools o) as [|p [|q l]]; simpl in Hlen; try lia;
      simpl; eexists; (split; [reflexivity|]); simpl; auto.
Qed.

End Pools.

Lemma allocateAddress_without_pool_witness :
  exists w',
    eip.allocateAddress mock.BuildParamsToTagSpecification mock.plain "worker"
      (mock.start mock.exhausted) = (Done ("eipalloc-1", None), w')
    /\ trace w' = [IAllocateAddress
                     {| ec2.Domain := Some "vpc";
                        ec2.TagSpecifications :=
                          [mock.BuildParamsToTagSpecification ec2.ResourceTypeElasticIp
                             (eip.getEIPTagParams mock.plain "worker")];
                        ec2.AllocPublicIpv4Pool := None |}
                     (Some {| ec2.OutAllocationId := Some "eipalloc-1" |}) None].
Proof.
  destruct (allocateAddress_without_pool mock.BuildParamsToTagSpecification mock.plain
              "worker" (mock.start mock.exhausted)
              {| infrav1.PublicIpv4Pool := None;
                 infrav1.PublicIpv4PoolFallBackOrder := None |}
              (Some {| ec2.OutAllocationId := Some "eipalloc-1" |}) None
              {| mock.describeAddressesAnswers := [];
                 mock.allocateAnswers := [];
                 mock.disassociateAnswers := [];
                 mock.releaseAnswers := [];
                 mock.poolsAnswers := [(Some {| ec2.PublicIpv4Pools := [mock.pool 0] |}, None)] |})
    as [w' [E [Etr _]]].
  - reflexivity.
  - reflexivity.
  - reflexivity.
  - exists w'. split; [exact E | exact Etr].
Defined.

Lemma allocateAddress_from_pool_witness :
  (exists w',
      eip.allocateAddress mock.BuildParamsToTagSpecification (mock.byo None) "worker"
        (mock.start scene.poolHasRoom) = (Done ("eipalloc-1", None), w')
      /\ client w' = mock.idle)
  /\ (exists w',
        eip.allocateAddress mock.BuildParamsToTagSpecification (mock.byoBuilt None)
          "worker" (mock.start scene.poolHasRoom) = (Panicked, w')
        /\ trace w' = [IDescribePublicIpv4Pools
                         {| ec2.PoolIds := [Some "ipv4pool-ec2-1"] |}
                         (Some {| ec2.PublicIpv4Pools := [mock.pool 5] |}) None]
        /\ mock.allocateAnswers (client w') = [mock.minted "eipalloc-1"]).
Proof.
  split.
  - destruct (allocateAddress_from_pool mock.BuildParamsToTagSpecification (mock.byo None)
                "worker" (mock.start scene.poolHasRoom)
                {| infrav1.PublicIpv4Pool := Some "ipv4pool-ec2-1";
                   infrav1.PublicIpv4PoolFallBackOrder := None |}
                "ipv4pool-ec2-1" (mock.pool 5)
                {| mock.describeAddressesAnswers := [];
                   mock.allocateAnswers := [mock.minted "eipalloc-1"];
                   mock.disassociateAnswers := [];
                   mock.releaseAnswers := [];
                   mock.poolsAnswers := [] |}
                {| ec2.OutAllocationId := Some "eipalloc-1" |} mock.idle)
      as [w' [E [_ Ec]]].
    + reflexivity.
    + reflexivity.
    + reflexivity.
    + simpl. lia.
    + reflexivity.
    + exists w'. split; [exact E | exact Ec].
  - destruct (allocateAddress_from_pool mock.BuildParamsToTagSpecification
                (mock.byoBuilt None)
                "worker" (mock.start scene.poolHasRoom)
                {| infrav1.PublicIpv4Pool := Some "ipv4pool-ec2-1";
                   infrav1.PublicIpv4PoolFallBackOrder := None |}
                "ipv4pool-ec2-1" (mock.pool 5)
                {| mock.describeAddressesAnswers := [];
                   mock.allocateAnswers := [mock.minted "eipalloc-1"];
                   mock.disassociateAnswers := [];
                   mock.releaseAnswers := [];
                   mock.poolsAnswers := [] |}
                {| ec2.OutAllocationId := Some "eipalloc-1" |} mock.idle)
      as [w' [E [Etr Ec]]].
    + reflexivity.
    + reflexivity.
    + reflexivity.
    + simpl. lia.
    + reflexivity.
    + exists w'. split; [exact E|]. split; [exact Etr|].
      simpl in Ec. rewrite Ec. reflexivity.
Defined.

Lemma allocateAddress_pool_not_found_witness :
  exists w',
    eip.allocateAddress mock.BuildParamsToTagSpecification (mock.byo None) "worker"
      (mock.start scene.poolUnknown)
    = (Done ("", Some (errors.New "failed to allocate Elastic IP from PublicIpv4 Pool")), w')
    /\ mock.allocateAnswers (client w') = [mock.minted "eipalloc-1"].
Proof.
  destruct (allocateAddress_pool_not_found mock.BuildParamsToTagSpecification (mock.byo None)
              "worker" (mock.start scene.poolUnknown)
              {| infrav1.PublicIpv4Pool := Some "ipv4pool-ec2-1";
                 infrav1.PublicIpv4PoolFallBackOrder := None |}
              "ipv4pool-ec2-1" (Some {| ec2.PublicIpv4Pools := [] |}) None
              {| mock.describeAddressesAnswers := [];
                 mock.allocateAnswers := [mock.minted "eipalloc-1"];
                 mock.disassociateAnswers := [];
                 mock.releaseAnswers := [];
                 mock.poolsAnswers := [] |})
    as [w' [E [_ Ec]]].
  - reflexivity.
  - reflexivity.
  - reflexivity.
  - right. eexists. split; [reflexivity|]. simpl. lia.
  - exists w'. split; [exact E|]. rewrite Ec. reflexivity.
Defined.

(** ** More on reuse before allocation *)

Section GetOrAllocateMore.
Context {T St : Type} {api : ec2iface.EC2API T St}.
Variable BuildParamsToTagSpecification : string -> infrav1.BuildParams -> T.
Variable s : eip.Service.

Local Abbreviation GetOrAllocateAddresses :=
  (eip.GetOrAllocateAddresses BuildParamsToTagSpecification).

Lemma GetOrAllocateAddresses_stops_at_read num role (w : World T St) out w1 :
  eip.describeAddresses s role w = (Done (Some out, None), w1) ->
  (num <= Z.of_nat (length (filter unassociated (ec2.Addresses out))))%Z ->
  GetOrAllocateAddresses s num role w = (Done (reusable (ec2.Addresses out), None), w1).
Proof.
  intros Hd Hk.
  rewrite (GetOrAllocateAddresses_listed _ _ _ _ _ _ _ Hd).
  assert (Hlen : length (reusable (ec2.Addresses out))
                 = length (filter unassociated (ec2.Addresses out)))
    by (unfold reusable; apply length_map).
  rewrite Hlen.
  replace (Z.to_nat (num - Z.of_nat (length (filter unassociated (ec2.Addresses out)))))
    with O by lia.
  reflexivity.
Qed.

(** X1. When the directory read lists at least [num] unassociated
    addresses, the call returns the identities of all of them, in the order
    of the read, and does nothing after the read: no pool query and no
    allocate request. *)
Theorem GetOrAllocateAddresses_enough_free num role (w : World T St) out w1 :
  eip.describeAddresses s role w = (Done (Some out, None), w1) ->
  (num <= Z.of_nat (length (filter unassociated (ec2.Addresses out))))%Z ->
  GetOrAllocateAddresses s num role w = (Done (reusable (ec2.Addresses out), None), w1)
  /\ trace w1 = trace (snd (eip.describeAddresses s role w))
  /\ allocateRequests (trace w1) = allocateRequests (trace w).
Proof.
  intros Hd Hk. split; [apply GetOrAllocateAddresses_stops_at_read; assumption|].
  rewrite Hd. split; [reflexivity|].
  revert Hd. unfold eip.describeAddresses, EC2Client.DescribeAddressesWithContext.
  destruct (ec2iface.DescribeAddressesWithContext _ (client w)) as [r st].
  intros H. inversion H; subst. simpl.
  rewrite allocateRequests_app. simpl. now rewrite app_nil_r.
Qed.

(** X2. When the directory read fails, the call returns no identity and
    the provider's error wrapped, with its cause and code kept, and sends
    nothing after the read. *)
Theorem GetOrAllocateAddresses_query_fails num role (w : World T St) out err w1 :
  eip.describeAddresses s role w = (Done (out, Some err), w1) ->
  exists w',
    GetOrAllocateAddresses s num role w
    = (Done ([], Some (errors.Wrap err "failed to query addresses")), w')
    /\ trace w' = trace w1
    /\ client w' = client w1
    /\ awserrors.Code (errors.Cause (errors.Wrap err "failed to query addresses"))
       = awserrors.Code (errors.Cause err).
Proof.
  intros Hd. unfold eip.GetOrAllocateAddresses.
  rewrite (bind_Done _ _ _ _ _ Hd). unfold bind. simpl.
  eexists. split; [reflexivity|]. simpl. auto.
Qed.

Lemma allocateMissing_error_returns_nothing role missing :
  forall eips (w : World T St) l e w',
  eip.allocateMissing BuildParamsToTagSpecification missing s role eips w
    = (Done (l, Some e), w') ->
  l = [].
Proof.
  induction missing as [|n IH]; intros eips w l e w'; simpl.
  - intros H. inversion H.
  - unfold bind.
    destruct (eip.allocateAddress BuildParamsToTagSpecification s role w)
      as [[[ip [e0|]]|] w1].
    + intros H. inversion H. reflexivity.
    + apply IH.
    + intros H. inversion H.
Qed.

(** X3. The call never returns identities together with an error: when
    the read or any allocation fails, the list it returns is empty, also
    when addresses were reusable or earlier allocations were answered. *)
Theorem GetOrAllocateAddresses_error_returns_nothing num role (w : World T St) l e w' :
  GetOrAllocateAddresses s num role w = (Done (l, Some e), w') -> l = [].
Proof.
  unfold eip.GetOrAllocateAddresses, bind at 1.
  destruct (eip.describeAddresses s role w) as [[[out [e0|]]|] w1].
  - unfold bind. simpl. intros H. inversion H. reflexivity.
  - unfold bind at 1. destruct out as [o|]; simpl.
    + apply allocateMissing_error_returns_nothing.
    + intros H. inversion H.
  - intros H. inversion H.
Qed.

End GetOrAllocateMore.

Lemma GetOrAllocateAddresses_enough_free_witness :
  eip.GetOrAllocateAddresses mock.BuildParamsToTagSpecification mock.plain 2 "worker"
    (mock.start mock.twoFree)
  = (Done (["a"; "c"], None),
     snd (eip.describeAddresses mock.plain "worker" (mock.start mock.twoFree))).
Proof.
  apply (GetOrAllocateAddresses_enough_free mock.BuildParamsToTagSpecification mock.plain
           2 "worker" (mock.start mock.twoFree)
           {| ec2.Addresses := [mock.address "a" None;
                                mock.address "b" (Some "eipassoc-1");
                                mock.address "c" None] |}).
  - reflexivity.
  - simpl. lia.
Defined.

Lemma GetOrAllocateAddresses_query_fails_witness :
  exists w',
    eip.GetOrAllocateAddresses mock.BuildParamsToTagSpecification mock.plain 2 "worker"
      (mock.start scene.queryRefused)
    = (Done ([], Some (errors.Wrap mock.denied "failed to query addresses")), w')
    /\ allocateRequests (trace w') = [].
Proof.
  destruct (GetOrAllocateAddresses_query_fails mock.BuildParamsToTagSpecification mock.plain
              2 "worker" (mock.start scene.queryRefused) None mock.denied
              (snd (eip.describeAddresses mock.plain "worker"
                      (mock.start scene.queryRefused))))
    as [w' [E [Etr _]]].
  - reflexivity.
  - exists w'. split; [exact E|]. rewrite Etr. reflexivity.
Defined.

Lemma GetOrAllocateAddresses_error_returns_nothing_witness :
  exists l e,
    fst (eip.GetOrAllocateAddresses mock.BuildParamsToTagSpecification mock.plain 2
           "worker" (mock.start scene.oneMinted)) = Done (l, Some e)
    /\ l = []
    /\ allocatedIds
         (trace (snd (eip.GetOrAllocateAddresses mock.BuildParamsToTagSpecification
                        mock.plain 2 "worker" (mock.start scene.oneMinted))))
       = ["eipalloc-1"].
Proof.
  exists [], (errors.Wrap mock.denied "failed to allocate Elastic IP").
  split; [reflexivity|]. split; [|reflexivity].
  apply (GetOrAllocateAddresses_error_returns_nothing mock.BuildParamsToTagSpecification
           mock.plain 2 "worker" (mock.start scene.oneMinted) []
           (errors.Wrap mock.denied "failed to allocate Elastic IP")
           (snd (eip.GetOrAllocateAddresses mock.BuildParamsToTagSpecification
                   mock.plain 2 "worker" (mock.start scene.oneMinted)))).
  reflexivity.
Defined.

(** ** More on release *)

Section ReleaseMore.
Context {T St : Type} {api : ec2iface.EC2API T St}.
Variable NewBackoff : wait.Backoff.
Variable s : eip.Service.

Local Abbreviation releaseAddress := (eip.releaseAddress NewBackoff s).
Local Abbreviation releaseAddresses := (eip.releaseAddresses NewBackoff s).

(** X8. For an address without an association, all that release sends is
    release requests for its allocation: it never sends a disassociate
    request, however the releases are answered. *)
Theorem releaseAddress_unassociated_only_releases ip :
  ec2.AssociationId ip = None ->
  footprint (releases ip) (eip.releaseAddress (St:=St) NewBackoff s ip).
Proof.
  intros Ea. unfold eip.releaseAddress. rewrite Ea.
  apply footprint_bind; [apply footprint_ret|].
  intros [e|]; [apply footprint_ret|].
  apply footprint_bind.
  - apply footprint_retryLoop. unfold eip.releaseCondition. rewrite Ea.
    apply footprint_bind.
    + apply footprint_Release. intros err. exists err. reflexivity.
    + intros [e|]; apply footprint_ret.
  - intros err. repeat footprint_step.
Qed.

(** X9. When the provider accepts what it is asked, release of an address
    as the provider lists it sends one release request for a free address,
    and one disassociate request followed by one release request for an
    attached one. The address is released at the provider either way;
    the call then returns no error when the service has a logger, and
    panics at the log line when it has none, which is the service
    [NewService] builds. *)
Theorem releaseAddress_accepted ip id pub (w : World T St) :
  ec2.AllocationId ip = Some id ->
  ec2.PublicIp ip = Some pub ->
  1 <= wait.Steps NewBackoff ->
  (forall st,
      ec2.AssociationId ip = None ->
      ec2iface.ReleaseAddressWithContext {| ec2.RelAllocationId := Some id |} (client w)
        = (None, st) ->
      exists w',
        releaseAddress ip w
        = (match eip.Wrapper s with
           | Some _ => Done None
           | None => Panicked
           end, w')
        /\ trace w' = trace w ++ [IReleaseAddress {| ec2.RelAllocationId := Some id |} None]
        /\ client w' = st)
  /\ (forall a st0 st,
      ec2.AssociationId ip = Some a ->
      ec2iface.DisassociateAddressWithContext {| ec2.DisAssociationId := Some a |} (client w)
        = (None, st0) ->
      ec2iface.ReleaseAddressWithContext {| ec2.RelAllocationId := Some id |} st0
        = (None, st) ->
      exists w',
        releaseAddress ip w
        = (match eip.Wrapper s with
           | Some _ => Done None
           | None => Panicked
           end, w')
        /\ trace w' = trace w ++
             [IDisassociateAddress {| ec2.DisAssociationId := Some a |} None;
              IReleaseAddress {| ec2.RelAllocationId := Some id |} None]
        /\ client w' = st).
Proof.
  intros Hid Hpub Hs. split.
  - intros st Ea Er.
    unfold eip.releaseAddress, wait.WaitForWithRetryable.
    destruct (wait.Steps NewBackoff) as [|n]; [lia|].
    cbn [wait.retryLoop].
    unfold eip.releaseCondition, eip.Info, bind,
      EC2Client.ReleaseAddressWithContext, deref.
    rewrite Ea, Hid, Hpub. simpl. rewrite Er. simpl.
    destruct (eip.Wrapper s); simpl;
      (eexists; split; [reflexivity|]; simpl; auto).
  - intros a st0 st Ea Ed Er.
    unfold eip.releaseAddress, wait.WaitForWithRetryable.
    destruct (wait.Steps NewBackoff) as [|n]; [lia|].
    cbn [wait.retryLoop].
    unfold eip.releaseCondition, eip.Info, bind, EC2Client.ReleaseAddressWithContext,
      EC2Client.DisassociateAddressWithContext, deref.
    rewrite Ea, Hid, Hpub. simpl. rewrite Ed. simpl. rewrite Er. simpl.
    destruct (eip.Wrapper s); simpl;
      (eexists; split; [reflexivity|]; simpl; rewrite <- app_assoc; auto).
Qed.

(** X10. When the address query of a bulk release fails, the call returns
    the provider's error wrapped, with its cause and code kept, and sends
    nothing else: no address is touched. *)
Theorem releaseAddresses_query_fails filters (w : World T St) out err st :
  ec2iface.DescribeAddressesWithContext {| ec2.Filters := filters |} (client w)
    = ((out, Some err), st) ->
  releaseAddresses filters w
  = (Done (Some (Wrapf err "failed to describe elastic IPs %q" [ArgError err])),
     exchange (IDescribeAddresses {| ec2.Filters := filters |} out (Some err)) st w)
  /\ awserrors.Code
       (errors.Cause (Wrapf err "failed to describe elastic IPs %q" [ArgError err]))
     = awserrors.Code (errors.Cause err).
Proof.
  intros E. unfold eip.releaseAddresses, bind, EC2Client.DescribeAddressesWithContext.
  rewrite E. simpl. destruct out; auto.
Qed.

(** X11. When every listed address is released without error, one after
    the other in the order of the list, bulk release returns no error and
    ends in the world the last release left. *)
Theorem releaseAddresses_all_released filters (w : World T St) out st1 w2 :
  ec2iface.DescribeAddressesWithContext {| ec2.Filters := filters |} (client w)
    = ((Some out, None), st1) ->
  releasedInOrder NewBackoff s (ec2.Addresses out)
    (exchange (IDescribeAddresses {| ec2.Filters := filters |} (Some out) None) st1 w) w2 ->
  releaseAddresses filters w = (Done None, w2).
Proof.
  intros Hd Hall.
  rewrite (releaseAddresses_listed _ _ _ _ _ _ Hd).
  rewrite <- (app_nil_r (ec2.Addresses out)).
  rewrite (releaseEach_in_order _ _ _ _ _ Hall). reflexivity.
Qed.

(** X12. For any filters, a bulk release touches only what the provider
    listed: every request after the address query is a disassociate or a
    release request built from an address of the answer. *)
Theorem releaseAddresses_touches_only_listed filters (w : World T St) out st1 :
  ec2iface.DescribeAddressesWithContext {| ec2.Filters := filters |} (client w)
    = ((Some out, None), st1) ->
  exists d,
    trace (snd (releaseAddresses filters w))
    = trace w ++ IDescribeAddresses {| ec2.Filters := filters |} (Some out) None :: d
    /\ Forall (fun i => exists a, In a (ec2.Addresses out) /\ targets a i) d.
Proof.
  intros Hd.
  rewrite (releaseAddresses_listed _ _ _ _ _ _ Hd).
  destruct (footprint_releaseEach NewBackoff s (ec2.Addresses out)
              (exchange (IDescribeAddresses {| ec2.Filters := filters |} (Some out) None)
                 st1 w)) as [d [E F]].
  exists d. rewrite E. simpl. rewrite <- app_assoc. auto.
Qed.

Lemma detached_disassociate_failed input e (rest : list (Interaction T)) :
  associationNotFound e = false ->
  detached (IDisassociateAddress input (Some e) :: rest) = detached rest.
Proof. intros H. unfold detached. simpl. now rewrite H. Qed.

Lemma disassociate_retryLoop_outcome ip steps :
  forall errToReturn (w : World T St) r w',
  wait.retryLoop steps (eip.disassociateCondition ip) [awserrors.AuthFailure]
    errToReturn w = (r, w') ->
  exists dd,
    trace w' = trace w ++ dd
    /\ ((detached dd = true /\ r = Done None)
        \/ (detached dd = false /\ exists e, r = Done (Some e))).
Proof.
  induction steps as [|n IH]; intros last w r w'; cbn [wait.retryLoop].
  - intros H. inversion H; subst. exists []. rewrite app_nil_r.
    split; [reflexivity|]. right. split; [reflexivity|]. eauto.
  - unfold bind.
    destruct (ec2iface.DisassociateAddressWithContext
                {| ec2.DisAssociationId := ec2.AssociationId ip |} (client w))
      as [err st] eqn:Ec.
    rewrite (disassociateCondition_run ip w err st Ec).
    destruct err as [e|]; [destruct (associationNotFound e) eqn:Hnf|].
    + intros H. inversion H; subst. eexists. split; [reflexivity|].
      left. split; [|reflexivity]. unfold detached. simpl. now rewrite Hnf.
    + destruct (awserrors.Code (errors.Cause e)) as [code [|]].
      * destruct (existsb (String.eqb code) [awserrors.AuthFailure]).
        -- intros H. apply IH in H. destruct H as [dd [E Res]].
           exists (IDisassociateAddress
                     {| ec2.DisAssociationId := ec2.AssociationId ip |} (Some e) :: dd).
           simpl in E. rewrite E, <- app_assoc. split; [reflexivity|].
           rewrite (detached_disassociate_failed _ _ _ Hnf). exact Res.
        -- intros H. inversion H; subst. eexists. split; [reflexivity|].
           right. split; [|eauto]. unfold detached. simpl. now rewrite Hnf.
      * intros H. inversion H; subst. eexists. split; [reflexivity|].
        right. split; [|eauto]. unfold detached. simpl. now rewrite Hnf.
    + intros H. inversion H; subst. eexists. split; [reflexivity|].
      left. split; reflexivity.
Qed.

(** X13. For an address as the provider lists it, the waiter-wrapped
    disassociation returns no error exactly when one of its requests was
    accepted or answered with "association not found"; otherwise it
    returns an error. *)
Theorem disassociateAddress_outcome ip (w : World T St) r w' :
  ec2.AllocationId ip <> None ->
  eip.disassociateAddress NewBackoff s ip w = (r, w') ->
  exists dd,
    trace w' = trace w ++ dd
    /\ Forall (disassociates ip) dd
    /\ ((detached dd = true /\ r = Done None)
        \/ (detached dd = false /\ exists e, r = Done (Some e))).
Proof.
  intros Hid H.
  destruct (disassociateAddress_exchange NewBackoff s ip w r w' H)
    as [dd0 [E0 [F0 _]]].
  revert H. unfold eip.disassociateAddress, wait.WaitForWithRetryable, bind.
  destruct (wait.retryLoop (wait.Steps NewBackoff) (eip.disassociateCondition ip)
              [awserrors.AuthFailure] None w) as [r0 w0] eqn:El.
  apply disassociate_retryLoop_outcome in El. destruct El as [dd [E Res]].
  destruct (ec2.AllocationId ip) as [id|]; [|congruence].
  destruct Res as [[D ->] | [D [e ->]]]; unfold ret; simpl; intros H; inversion H; subst.
  - exists dd. split; [exact E|]. split; [|auto].
    simpl in E0. rewrite E in E0. apply app_inv_head in E0. now subst.
  - exists dd. simpl. split; [exact E|]. split.
    + simpl in E0. rewrite E in E0. apply app_inv_head in E0. now subst.
    + right. split; [exact D|]. eauto.
Qed.

End ReleaseMore.

Lemma releaseAddress_unassociated_only_releases_witness :
  footprint (releases (mock.address "a" None))
    (eip.releaseAddress (St:=mock.Script) mock.backoff mock.plain (mock.address "a" None)).
Proof.
  apply (releaseAddress_unassociated_only_releases mock.backoff mock.plain
           (mock.address "a" None)).
  reflexivity.
Defined.

Lemma releaseAddress_accepted_witness :
  (exists w',
      eip.releaseAddress mock.backoff mock.plain (mock.address "a" None)
        (mock.start scene.allAccepted) = (Done None, w')
      /\ trace w' = [IReleaseAddress {| ec2.RelAllocationId := Some "a" |} None])
  /\ (exists w',
      eip.releaseAddress mock.backoff mock.plain mock.attached
        (mock.start scene.allAccepted) = (Done None, w')
      /\ trace w' = [IDisassociateAddress {| ec2.DisAssociationId := Some "eipassoc-1" |} None;
                     IReleaseAddress {| ec2.RelAllocationId := Some "a" |} None])
  /\ (exists w',
      eip.releaseAddress mock.backoff mock.plainBuilt (mock.address "a" None)
        (mock.start scene.allAccepted) = (Panicked, w')
      /\ trace w' = [IReleaseAddress {| ec2.RelAllocationId := Some "a" |} None]
      /\ mock.releaseAnswers (client w') = [None]).
Proof.
  split; [|split].
  - destruct (releaseAddress_accepted mock.backoff mock.plain (mock.address "a" None)
                "a" "203.0.113.7" (mock.start scene.allAccepted)) as [Free _].
    + reflexivity.
    + reflexivity.
    + simpl. lia.
    + edestruct Free as [w' [E [Etr _]]].
      * reflexivity.
      * reflexivity.
      * exists w'. split; [exact E | exact Etr].
  - destruct (releaseAddress_accepted mock.backoff mock.plain mock.attached
                "a" "203.0.113.7" (mock.start scene.allAccepted)) as [_ Attached].
    + reflexivity.
    + reflexivity.
    + simpl. lia.
    + edestruct Attached as [w' [E [Etr _]]].
      * reflexivity.
      * reflexivity.
      * reflexivity.
      * exists w'. split; [exact E | exact Etr].
  - destruct (releaseAddress_accepted mock.backoff mock.plainBuilt
                (mock.address "a" None)
                "a" "203.0.113.7" (mock.start scene.allAccepted)) as [Free _].
    + reflexivity.
    + reflexivity.
    + simpl. lia.
    + edestruct Free as [w' [E [Etr Ec]]].
      * reflexivity.
      * reflexivity.
      * exists w'. split; [exact E|]. split; [exact Etr|].
        rewrite Ec. reflexivity.
Defined.

Lemma releaseAddresses_query_fails_witness :
  eip.releaseAddresses mock.backoff mock.plain [filter.Cluster "c1"]
    (mock.start scene.queryRefused)
  = (Done (Some (Wrapf mock.denied "failed to describe elastic IPs %q"
                   [ArgError mock.denied])),
     exchange (IDescribeAddresses {| ec2.Filters := [filter.Cluster "c1"] |} None
                 (Some mock.denied)) mock.idle (mock.start scene.queryRefused))
  /\ awserrors.Code
       (errors.Cause (Wrapf mock.denied "failed to describe elastic IPs %q"
                        [ArgError mock.denied]))
     = awserrors.Code (errors.Cause mock.denied).
Proof.
  apply (releaseAddresses_query_fails mock.backoff mock.plain [filter.Cluster "c1"]
           (mock.start scene.queryRefused) None mock.denied mock.idle).
  reflexivity.
Defined.

Lemma releaseAddresses_all_released_witness :
  exists w2,
    eip.ReleaseAddresses mock.backoff mock.plain (mock.start scene.allAccepted)
    = (Done None, w2)
    /\ client w2 = mock.idle.
Proof.
  eexists. split.
  - eapply (releaseAddresses_all_released mock.backoff mock.plain [filter.Cluster "c1"]
             (mock.start scene.allAccepted)
             {| ec2.Addresses := [mock.address "a" None; mock.attached] |}).
    + reflexivity.
    + eapply released_cons; [reflexivity|].
      eapply released_cons; [reflexivity|].
      apply released_nil.
  - reflexivity.
Defined.

Lemma releaseAddresses_touches_only_listed_witness :
  exists d,
    trace (snd (eip.releaseAddresses mock.backoff mock.plain [filter.Cluster "c1"]
                  (mock.start mock.secondReleaseFails)))
    = [] ++ IDescribeAddresses {| ec2.Filters := [filter.Cluster "c1"] |}
              (Some {| ec2.Addresses := mock.three |}) None :: d
    /\ Forall (fun i : Interaction mock.TagSpec =>
                 exists a, In a mock.three /\ targets a i) d.
Proof.
  apply (releaseAddresses_touches_only_listed mock.backoff mock.plain
           [filter.Cluster "c1"] (mock.start mock.secondReleaseFails)
           {| ec2.Addresses := mock.three |}
           {| mock.describeAddressesAnswers := [];
              mock.allocateAnswers := [];
              mock.disassociateAnswers := [];
              mock.releaseAnswers := [None; Some mock.denied; None];
              mock.poolsAnswers := [] |}).
  reflexivity.
Defined.

Lemma disassociateAddress_outcome_witness :
  exists dd,
    trace (snd (eip.disassociateAddress mock.backoff mock.plain mock.attached
                  (mock.start mock.disassociateRefused))) = [] ++ dd
    /\ Forall (disassociates mock.attached) dd
    /\ ((detached dd = true
         /\ fst (eip.disassociateAddress mock.backoff mock.plain mock.attached
                   (mock.start mock.disassociateRefused)) = Done None)
        \/ (detached dd = false
            /\ exists e,
                fst (eip.disassociateAddress mock.backoff mock.plain mock.attached
                       (mock.start mock.disassociateRefused)) = Done (Some e))).
Proof.
  apply (disassociateAddress_outcome mock.backoff mock.plain mock.attached
           (mock.start mock.disassociateRefused)).
  - simpl. discriminate.
  - reflexivity.
Defined.

(** ** The load balancer's use of the service *)

Section LoadBalancerProps.
Context {T St : Type} {api : ec2iface.EC2API T St}.
Variable BuildParamsToTagSpecification : string -> infrav1.BuildParams -> T.
Variable s : elb.Service.

Local Abbreviation createLBAddressesFromPublicIpv4Pool :=
  (elb.createLBAddressesFromPublicIpv4Pool BuildParamsToTagSpecification s).

(** The mapping of a subnet to an identity. *)
Local Abbreviation mapping :=
  (fun p : string * string =>
     {| elbv2.SubnetId := Some (fst p); elbv2.AllocationId := Some (snd p) |}).

Lemma mapSubnets_present subnets :
  forall eips mappings (w : World T St),
  length subnets <= length eips ->
  elb.mapSubnets (map Some subnets) eips mappings w
  = (Done (mappings ++ map mapping (combine subnets eips)), w).
Proof.
  induction subnets as [|sb rest IH]; intros eips mappings w Hlen; simpl.
  - now rewrite app_nil_r.
  - destruct eips as [|ip eips']; [simpl in Hlen; lia|].
    unfold bind. simpl. rewrite IH by (simpl in Hlen; lia).
    now rewrite <- app_assoc.
Qed.

(** X14. The load balancer request is left as it is and nothing is sent to
    the provider when no pool is configured (no error), when the load
    balancer is not a network load balancer (an error), and when the
    request already has subnet mappings (an error). *)
Theorem createLBAddresses_guards input role (w : World T St) v :
  elb.scopeVPC s = Some v ->
  (infrav1.PublicIpv4Pool v = None ->
   createLBAddressesFromPublicIpv4Pool input role w = (Done (input, None), w))
  /\ (forall t,
      infrav1.PublicIpv4Pool v <> None ->
      elbv2.LBType input = Some t ->
      t <> elbv2.LoadBalancerTypeEnumNetwork ->
      exists e, createLBAddressesFromPublicIpv4Pool input role w = (Done (input, Some e), w))
  /\ (infrav1.PublicIpv4Pool v <> None ->
      elbv2.LBType input = Some elbv2.LoadBalancerTypeEnumNetwork ->
      elbv2.SubnetMappings input <> [] ->
      exists e, createLBAddressesFromPublicIpv4Pool input role w = (Done (input, Some e), w)).
Proof.
  intros Hv. unfold elb.createLBAddressesFromPublicIpv4Pool, bind, deref.
  rewrite Hv. simpl. split; [|split].
  - intros ->. reflexivity.
  - intros t Hp Ht Hne.
    destruct (infrav1.PublicIpv4Pool v) as [p|]; [|congruence].
    rewrite Ht. simpl.
    apply String.eqb_neq in Hne. rewrite Hne. simpl. eexists. reflexivity.
  - intros Hp Ht Hm.
    destruct (infrav1.PublicIpv4Pool v) as [p|]; [|congruence].
    rewrite Ht. simpl.
    destruct (elbv2.SubnetMappings input) as [|m l]; [congruence|]. simpl.
    eexists. reflexivity.
Qed.

(** X15. For a network load balancer without subnet mappings, with a pool
    configured, when [GetOrAllocateAddresses] returns as many identities as
    there are subnets, the request comes back with one mapping per subnet,
    in the order of the subnets, each with the identity at the same
    position, and with its subnets emptied. *)
Theorem createLBAddresses_maps_subnets input role (w : World T St) v subnets eips w1 :
  elb.scopeVPC s = Some v ->
  infrav1.PublicIpv4Pool v <> None ->
  elbv2.LBType input = Some elbv2.LoadBalancerTypeEnumNetwork ->
  elbv2.SubnetMappings input = [] ->
  elbv2.Subnets input = map Some subnets ->
  eip.GetOrAllocateAddresses BuildParamsToTagSpecification (elb.eipService s)
    (Z.of_nat (length (elbv2.Subnets input))) role w = (Done (eips, None), w1) ->
  length eips = length subnets ->
  createLBAddressesFromPublicIpv4Pool input role w
  = (Done ({| elbv2.LBType := elbv2.LBType input;
              elbv2.SubnetMappings := map mapping (combine subnets eips);
              elbv2.Subnets := [] |}, None), w1)
  /\ length (map mapping (combine subnets eips)) = length subnets.
Proof.
  intros Hv Hp Ht Hm Hs Hg Hlen. split.
  - unfold elb.createLBAddressesFromPublicIpv4Pool, bind at 1, deref.
    rewrite Hv. unfold ret at 1.
    destruct (infrav1.PublicIpv4Pool v) as [p|]; [|congruence].
    unfold bind at 1. rewrite Ht. unfold ret at 1. simpl.
    rewrite Hm. simpl.
    unfold bind at 1. rewrite Hg.
    rewrite Hs, length_map, Hlen, Nat.eqb_refl. simpl.
    unfold bind. rewrite mapSubnets_present by lia. reflexivity.
  - rewrite length_map, length_combine. lia.
Qed.

(** X16. For a network load balancer without subnet mappings, with a pool
    configured, when the directory read lists more unassociated addresses
    than the request has subnets, the call returns an error, leaves the
    request as it is and sends nothing after the read. *)
Theorem createLBAddresses_surplus_free input role (w : World T St) v out w1 :
  elb.scopeVPC s = Some v ->
  infrav1.PublicIpv4Pool v <> None ->
  elbv2.LBType input = Some elbv2.LoadBalancerTypeEnumNetwork ->
  elbv2.SubnetMappings input = [] ->
  eip.describeAddresses (elb.eipService s) role w = (Done (Some out, None), w1) ->
  length (elbv2.Subnets input) < length (filter unassociated (ec2.Addresses out)) ->
  createLBAddressesFromPublicIpv4Pool input role w
  = (Done (input,
           Some (Errorf "allocated EIPs (%d) missmatch with the subnet count (%d)"
                   [ArgInt (Z.of_nat (length (filter unassociated (ec2.Addresses out))));
                    ArgInt (Z.of_nat (length (elbv2.Subnets input)))])), w1).
Proof.
  intros Hv Hp Ht Hm Hd Hk.
  unfold elb.createLBAddressesFromPublicIpv4Pool, bind at 1, deref.
  rewrite Hv. unfold ret at 1.
  destruct (infrav1.PublicIpv4Pool v) as [p|]; [|congruence].
  unfold bind at 1. rewrite Ht. unfold ret at 1. simpl.
  rewrite Hm. simpl.
  unfold bind at 1.
  rewrite (GetOrAllocateAddresses_stops_at_read BuildParamsToTagSpecification
             (elb.eipService s) _ role w out w1 Hd) by lia.
  assert (Hlen : length (reusable (ec2.Addresses out))
                 = length (filter unassociated (ec2.Addresses out)))
    by (unfold reusable; apply length_map).
  rewrite Hlen.
  destruct (Nat.eqb_spec (length (filter unassociated (ec2.Addresses out)))
              (length (elbv2.Subnets input))) as [E|_]; [lia|].
  reflexivity.
Qed.

End LoadBalancerProps.

Lemma createLBAddresses_guards_witness :
  exists e,
    elb.createLBAddressesFromPublicIpv4Pool mock.BuildParamsToTagSpecification scene.lb
      {| elbv2.LBType := Some "application";
         elbv2.SubnetMappings := [];
         elbv2.Subnets := [Some "subnet-1"] |} "lb"
      (mock.start scene.oneFreeOneMinted)
    = (Done ({| elbv2.LBType := Some "application";
                elbv2.SubnetMappings := [];
                elbv2.Subnets := [Some "subnet-1"] |}, Some e),
       mock.start scene.oneFreeOneMinted).
Proof.
  destruct (createLBAddresses_guards mock.BuildParamsToTagSpecification scene.lb
              {| elbv2.LBType := Some "application";
                 elbv2.SubnetMappings := [];
                 elbv2.Subnets := [Some "subnet-1"] |} "lb"
              (mock.start scene.oneFreeOneMinted)
              {| infrav1.PublicIpv4Pool := Some "ipv4pool-ec2-1";
                 infrav1.PublicIpv4PoolFallBackOrder := None |})
    as [_ [NotNetwork _]].
  - reflexivity.
  - apply (NotNetwork "application").
    + simpl. discriminate.
    + reflexivity.
    + discriminate.
Defined.

Lemma createLBAddresses_maps_subnets_witness :
  fst (elb.createLBAddressesFromPublicIpv4Pool mock.BuildParamsToTagSpecification scene.lb
         scene.twoSubnets "lb" (mock.start scene.oneFreeOneMinted))
  = Done ({| elbv2.LBType := Some "network";
             elbv2.SubnetMappings :=
               [{| elbv2.SubnetId := Some "subnet-1"; elbv2.AllocationId := Some "a" |};
                {| elbv2.SubnetId := Some "subnet-2";
                   elbv2.AllocationId := Some "eipalloc-1" |}];
             elbv2.Subnets := [] |}, None).
Proof.
  edestruct (createLBAddresses_maps_subnets mock.BuildParamsToTagSpecification scene.lb
               scene.twoSubnets "lb" (mock.start scene.oneFreeOneMinted)
               {| infrav1.PublicIpv4Pool := Some "ipv4pool-ec2-1";
                  infrav1.PublicIpv4PoolFallBackOrder := None |}
               ["subnet-1"; "subnet-2"] ["a"; "eipalloc-1"]) as [E _].
  - reflexivity.
  - simpl. discriminate.
  - reflexivity.
  - reflexivity.
  - reflexivity.
  - vm_compute. reflexivity.
  - reflexivity.
  - rewrite E. reflexivity.
Defined.

Lemma createLBAddresses_surplus_free_witness :
  exists e,
    fst (elb.createLBAddressesFromPublicIpv4Pool mock.BuildParamsToTagSpecification
           scene.lb scene.twoSubnets "lb" (mock.start scene.threeFree))
    = Done (scene.twoSubnets, Some e).
Proof.
  eexists.
  erewrite (createLBAddresses_surplus_free mock.BuildParamsToTagSpecification scene.lb
              scene.twoSubnets "lb" (mock.start scene.threeFree)
              {| infrav1.PublicIpv4Pool := Some "ipv4pool-ec2-1";
                 infrav1.PublicIpv4PoolFallBackOrder := None |}
              {| ec2.Addresses := mock.three |}).
  - reflexivity.
  - reflexivity.
  - simpl. discriminate.
  - reflexivity.
  - reflexivity.
  - reflexivity.
  - simpl. lia.
Defined.

(** ** The instance service's use of the service *)

Section InstanceProps.
Context {T St : Type} {api : ec2iface.EC2API T St} {assoc : instance.AssociateAPI St}.
Variable NewBackoff : wait.Backoff.
Variable BuildParamsToTagSpecification : string -> infrav1.BuildParams -> T.
Variable s : instance.Service.

Local Abbreviation ReconcileElasticIPFromPublicPool :=
  (instance.ReconcileElasticIPFromPublicPool BuildParamsToTagSpecification s).
Local Abbreviation GetOrAllocateAddresses :=
  (eip.GetOrAllocateAddresses BuildParamsToTagSpecification (instance.eipService s)).

(** X17. When the directory read lists two or more unassociated addresses
    for the instance's role, the reconciliation returns no error although
    it associates nothing: the error it builds for the unexpected number of
    identities wraps a nil error, which is nil. Nothing is sent after the
    read. *)
Theorem ReconcileElasticIP_several_free i (iw : instance.IWorld T St) out w1 :
  eip.describeAddresses (instance.eipService s) (instance.instanceRole (instance.ID i))
    (instance.net iw) = (Done (Some out, None), w1) ->
  2 <= length (filter unassociated (ec2.Addresses out)) ->
  exists iw',
    ReconcileElasticIPFromPublicPool i iw = (Done None, iw')
    /\ instance.associations iw' = instance.associations iw
    /\ trace (instance.net iw') = trace w1
    /\ client (instance.net iw') = client w1.
Proof.
  intros Hd Hk.
  unfold instance.ReconcileElasticIPFromPublicPool,
    instance.getAndAssociateAddressesToInstance, instance.liftNet.
  rewrite (GetOrAllocateAddresses_stops_at_read BuildParamsToTagSpecification
             (instance.eipService s) 1 _ (instance.net iw) out w1 Hd) by lia.
  assert (Hlen : length (reusable (ec2.Addresses out))
                 = length (filter unassociated (ec2.Addresses out)))
    by (unfold reusable; apply length_map).
  rewrite Hlen.
  destruct (Nat.eqb_spec (length (filter unassociated (ec2.Addresses out))) 1) as [E|_];
    [lia|].
  simpl. eexists. split; [reflexivity|]. simpl. auto.
Qed.

(** X18. When [GetOrAllocateAddresses] returns exactly one identity, the
    reconciliation sends one associate request, for that identity and the
    instance, and returns no error exactly when the provider accepts it;
    a refusal comes back as an error that prints the wrapped provider
    error. *)
Theorem ReconcileElasticIP_associates i (iw : instance.IWorld T St) id w1 err st :
  GetOrAllocateAddresses 1 (instance.instanceRole (instance.ID i)) (instance.net iw)
    = (Done ([id], None), w1) ->
  instance.AssociateAddressWithContext
    {| instance.InstanceId := Some (instance.ID i); instance.AllocationId := Some id |}
    (client w1) = (err, st) ->
  exists iw',
    ReconcileElasticIPFromPublicPool i iw
    = (Done (match err with
             | None => None
             | Some e =>
                 Some (Errorf "failed to reconcile EIP: %v"
                         [ArgError (Wrapf e "failed to associate Elastic IP %s to instance %s"
                                      [ArgString id; ArgString (instance.ID i)])])
             end), iw')
    /\ instance.associations iw'
       = instance.associations iw
         ++ [({| instance.InstanceId := Some (instance.ID i);
                 instance.AllocationId := Some id |}, err)]
    /\ trace (instance.net iw') = trace w1
    /\ client (instance.net iw') = st.
Proof.
  intros Hg Ha.
  unfold instance.ReconcileElasticIPFromPublicPool,
    instance.getAndAssociateAddressesToInstance, instance.liftNet, instance.associate.
  rewrite Hg. simpl. unfold aws.String. rewrite Ha.
  destruct err as [e|]; simpl; eexists; (split; [reflexivity|]); simpl; auto.
Qed.

Lemma Reconcile_trace i (iw : instance.IWorld T St) :
  trace (instance.net (snd (ReconcileElasticIPFromPublicPool i iw)))
  = trace (snd (GetOrAllocateAddresses 1 (instance.instanceRole (instance.ID i))
                  (instance.net iw))).
Proof.
  unfold instance.ReconcileElasticIPFromPublicPool,
    instance.getAndAssociateAddressesToInstance, instance.liftNet, instance.associate.
  destruct (eip.GetOrAllocateAddresses BuildParamsToTagSpecification (instance.eipService s)
              1 (instance.instanceRole (instance.ID i)) (instance.net iw))
    as [[[eips [e|]]|] w1]; simpl; try reflexivity.
  destruct (negb (Nat.eqb (length eips) 1)); simpl; [reflexivity|].
  destruct eips as [|eip0 rest]; simpl; [reflexivity|].
  destruct (instance.AssociateAddressWithContext _ (client w1)) as [[e|] st];
    reflexivity.
Qed.

(** X19. The reconciliation of an instance and the release of its address
    look at the same addresses: the directory read of the one and the
    address query of the other carry the same filters, the cluster-identity
    filter followed by the role filter for "ec2-<instance id>", and every
    address the reconciliation creates is tagged with that role. *)
Theorem instance_reconcile_and_release_same_role i :
  (forall iw : instance.IWorld T St,
      exists d,
        trace (instance.net (snd (ReconcileElasticIPFromPublicPool i iw)))
        = trace (instance.net iw) ++ d
        /\ Forall (allocatesTagged
                     [filter.Cluster (eip.Name (instance.eipService s));
                      filter.ProviderRole (instance.instanceRole (instance.ID i))]
                     (BuildParamsToTagSpecification ec2.ResourceTypeElasticIp
                        (eip.getEIPTagParams (instance.eipService s)
                           (instance.instanceRole (instance.ID i))))) d)
  /\ (forall iw : instance.IWorld T St,
      exists d,
        trace (instance.net (snd (instance.ReleaseElasticIP NewBackoff s (instance.ID i) iw)))
        = trace (instance.net iw) ++ d
        /\ Forall (releasesListed
                     [filter.Cluster (eip.Name (instance.eipService s));
                      filter.ProviderRole (instance.instanceRole (instance.ID i))]) d)
  /\ infrav1.Role (eip.getEIPTagParams (instance.eipService s)
                     (instance.instanceRole (instance.ID i)))
     = Some (instance.instanceRole (instance.ID i)).
Proof.
  split; [|split; [|reflexivity]].
  - intros iw. rewrite Reconcile_trace.
    destruct (footprint_GetOrAllocateAddresses BuildParamsToTagSpecification
                (instance.eipService s) 1 (instance.instanceRole (instance.ID i))
                (instance.net iw)) as [d [E F]].
    exists d. split; [exact E|]. exact F.
  - intros iw. unfold instance.ReleaseElasticIP, instance.liftNet.
    unfold eip.ReleaseAddressByRole. simpl.
    destruct (footprint_releaseAddresses NewBackoff (instance.eipService s)
                [filter.Cluster (eip.Name (instance.eipService s));
                 filter.ProviderRole (instance.instanceRole (instance.ID i))]
                (instance.net iw)) as [d [E F]].
    destruct (eip.releaseAddresses NewBackoff (instance.eipService s)
                [filter.Cluster (eip.Name (instance.eipService s));
                 filter.ProviderRole (instance.instanceRole (instance.ID i))]
                (instance.net iw)) as [r w1].
    exists d. simpl in *. auto.
Qed.

End InstanceProps.

Lemma ReconcileElasticIP_several_free_witness :
  exists iw',
    instance.ReconcileElasticIPFromPublicPool mock.BuildParamsToTagSpecification
      scene.instances {| instance.ID := "i-1" |} (scene.startInstance scene.threeFree)
    = (Done None, iw')
    /\ instance.associations iw' = [].
Proof.
  destruct (ReconcileElasticIP_several_free mock.BuildParamsToTagSpecification
              scene.instances {| instance.ID := "i-1" |}
              (scene.startInstance scene.threeFree)
              {| ec2.Addresses := mock.three |}
              (snd (eip.describeAddresses mock.plain "ec2-i-1" (mock.start scene.threeFree))))
    as [iw' [E [Ea _]]].
  - reflexivity.
  - simpl. lia.
  - exists iw'. split; [exact E | exact Ea].
Defined.

Lemma ReconcileElasticIP_associates_witness :
  exists iw',
    instance.ReconcileElasticIPFromPublicPool mock.BuildParamsToTagSpecification
      scene.instances {| instance.ID := "i-1" |} (scene.startInstance scene.oneFree)
    = (Done None, iw')
    /\ instance.associations iw'
       = [({| instance.InstanceId := Some "i-1"; instance.AllocationId := Some "a" |}, None)].
Proof.
  destruct (ReconcileElasticIP_associates mock.BuildParamsToTagSpecification
              scene.instances {| instance.ID := "i-1" |}
              (scene.startInstance scene.oneFree) "a"
              (snd (eip.describeAddresses mock.plain "ec2-i-1" (mock.start scene.oneFree)))
              None mock.idle)
    as [iw' [E [Ea _]]].
  - reflexivity.
  - reflexivity.
  - exists iw'. split; [exact E | exact Ea].
Defined.

(** ** The earlier copy of the allocation *)

Section EarlierCopyProps.
Context {T St : Type} {api : ec2iface.EC2API T St}.
Variable BuildParamsToTagSpecification : string -> infrav1.BuildParams -> T.

(** X20. The earlier copy of [allocateAddress], with the pool check
    inline, and the present one, with the check in [setByoPublicIpv4],
    agree for every service, role and provider behaviour: they return the
    same value, send the same requests and leave the provider in the same
    state. The events they record are worded differently and are not
    compared. *)
Theorem earlier_allocateAddress_agrees s role (w : World T St) :
  fst (earlier.allocateAddress BuildParamsToTagSpecification s role w)
  = fst (eip.allocateAddress BuildParamsToTagSpecification s role w)
  /\ trace (snd (earlier.allocateAddress BuildParamsToTagSpecification s role w))
     = trace (snd (eip.allocateAddress BuildParamsToTagSpecification s role w))
  /\ client (snd (earlier.allocateAddress BuildParamsToTagSpecification s role w))
     = client (snd (eip.allocateAddress BuildParamsToTagSpecification s role w)).
Proof.
  unfold earlier.allocateAddress, eip.allocateAddress, eip.setByoPublicIpv4, bind, deref.
  destruct (eip.VPC s) as [v|]; simpl; [|auto].
  destruct (infrav1.PublicIpv4Pool v) as [p|]; simpl.
  - destruct (eip.publicIpv4PoolHasFreeIPs s 1 w) as [[[ok [e|]]|] w1] eqn:Ep; simpl.
    + destruct ok; simpl; auto.
    + destruct ok.
      * destruct (infrav1.PublicIpv4PoolFallBackOrder v) as [order|]; simpl;
          destruct (EC2Client.AllocateAddressWithContext _ w1) as [[[out [e|]]|] w2];
          simpl; auto; destruct out; simpl; auto.
      * exfalso.
        apply (publicIpv4PoolHasFreeIPs_false_is_error s 1 w false None w1 Ep);
          reflexivity.
    + auto.
  - destruct (EC2Client.AllocateAddressWithContext _ w) as [[[out [e|]]|] w2];
      simpl; auto; destruct out; simpl; auto.
Qed.

End EarlierCopyProps.

(** ** Reuse within a role, and the pool check *)

Section RoleAndPool.
Context {T St : Type} {api : ec2iface.EC2API T St}.
Variable BuildParamsToTagSpecification : string -> infrav1.BuildParams -> T.
Variable s : eip.Service.

(** X21. For a role that is not empty, when the provider answers the
    directory read with addresses that its filters select, every identity
    the call reuses belongs to a listed address without an association
    whose role tag is that role and whose cluster tag is the cluster's
    name; what follows the reused identities in the list was allocated by
    the call. *)
Theorem GetOrAllocateAddresses_reuses_within_role num role (w : World T St)
    out st l w' :
  role <> "" ->
  ec2iface.DescribeAddressesWithContext
    {| ec2.Filters := [filter.Cluster (eip.Name s); filter.ProviderRole role] |}
    (client w) = ((Some out, None), st) ->
  (forall a f, In a (ec2.Addresses out) ->
               In f [filter.Cluster (eip.Name s); filter.ProviderRole role] ->
               selects f a) ->
  eip.GetOrAllocateAddresses BuildParamsToTagSpecification s num role w
    = (Done (l, None), w') ->
  exists d,
    trace w'
    = trace w
      ++ IDescribeAddresses
           {| ec2.Filters := [filter.Cluster (eip.Name s); filter.ProviderRole role] |}
           (Some out) None
      :: d
    /\ l = reusable (ec2.Addresses out) ++ allocatedIds d
    /\ forall id, In id (reusable (ec2.Addresses out)) ->
         exists a, In a (ec2.Addresses out)
                   /\ ec2.AssociationId a = None
                   /\ roleTag a = Some role
                   /\ clusterTag a = Some (eip.Name s)
                   /\ id = aws.StringValue (ec2.AllocationId a).
Proof.
  intros Hrole Hq Hsel Hr.
  assert (Hd : eip.describeAddresses s role w
               = (Done (Some out, None),
                  exchange (IDescribeAddresses
                              {| ec2.Filters := [filter.Cluster (eip.Name s);
                                                 filter.ProviderRole role] |}
                              (Some out) None) st w)).
  { unfold eip.describeAddresses, EC2Client.DescribeAddressesWithContext.
    apply String.eqb_neq in Hrole. rewrite Hrole. simpl. rewrite Hq. reflexivity. }
  rewrite (GetOrAllocateAddresses_listed _ _ _ _ _ _ _ Hd) in Hr.
  destruct (allocateMissing_exchange _ _ _ _ _ _ _ _ Hr) as [d [E [_ S]]].
  destruct (S l eq_refl) as [El _].
  exists d. split; [rewrite E; simpl; now rewrite <- app_assoc|].
  split; [exact El|].
  intros id Hin. destruct (reusable_unassociated _ _ Hin) as [a [Ha [Hu Hid]]].
  exists a. split; [exact Ha|]. split; [exact Hu|].
  split; [apply (Hsel a (filter.ProviderRole role) Ha); simpl; auto|].
  split; [apply (Hsel a (filter.Cluster (eip.Name s)) Ha); simpl; auto|exact Hid].
Qed.

(** X22. The pool check sends exactly one pool query, for the configured
    pool. It panics in two cases only: on a nil output with a nil error,
    and, for a service without a logger (the service [NewService] builds),
    at the debug line, which is reached exactly when the query came back
    without an error, with exactly one pool, and with at least the wanted
    number of available addresses. When it returns, it answers "yes"
    exactly when the answer showed that room; a "no" always comes with an
    error and a "yes" never does. *)
Theorem publicIpv4PoolHasFreeIPs_answer want (w : World T St) v out err st :
  eip.VPC s = Some v ->
  ec2iface.DescribePublicIpv4Pools {| ec2.PoolIds := [infrav1.PublicIpv4Pool v] |} (client w)
    = ((out, err), st) ->
  exists r w',
    eip.publicIpv4PoolHasFreeIPs s want w = (r, w')
    /\ trace w' = trace w ++
         [IDescribePublicIpv4Pools {| ec2.PoolIds := [infrav1.PublicIpv4Pool v] |} out err]
    /\ client w' = st
    /\ (r = Panicked <->
        (out = None /\ err = None)
        \/ (showsRoom want out err = true /\ eip.Wrapper s = None))
    /\ forall ok e, r = Done (ok, e) ->
          ok = showsRoom want out err /\ (ok = true <-> e = None).
Proof.
  intros Hv Hq.
  unfold eip.publicIpv4PoolHasFreeIPs, bind, deref, EC2Client.DescribePublicIpv4Pools.
  rewrite Hv. simpl. rewrite Hq. simpl.
  assert (Returns : forall (e : error) (w0 : World T St) (room : bool),
             trace w0 = trace w ++
               [IDescribePublicIpv4Pools
                  {| ec2.PoolIds := [infrav1.PublicIpv4Pool v] |} out err] ->
             client w0 = st ->
             room = false ->
             (out = None -> err = None -> False) ->
             exists r w',
               (Done (false, Some e), w0) = (r, w')
               /\ trace w' = trace w ++
                    [IDescribePublicIpv4Pools
                       {| ec2.PoolIds := [infrav1.PublicIpv4Pool v] |} out err]
               /\ client w' = st
               /\ (r = Panicked <->
                   (out = None /\ err = None)
                   \/ (room = true /\ eip.Wrapper s = None))
               /\ forall ok e', r = Done (ok, e') ->
                     ok = room /\ (ok = true <-> e' = None)).
  { intros e w0 room Etr Ec Hroom Hnil.
    eexists. eexists. split; [reflexivity|]. split; [exact Etr|]. split; [exact Ec|].
    split.
    - split; [discriminate|]. intros [[Ho He] | [C _]]; [tauto | congruence].
    - intros ok e' H. inversion H; subst.
      split; [reflexivity|]. split; discriminate. }
  destruct err as [e|]; simpl.
  - unfold ret. apply (Returns _ _ false); auto. discriminate.
  - destruct out as [o|]; simpl.
    + unfold showsRoom.
      destruct (ec2.PublicIpv4Pools o) as [|p [|q rest]] eqn:Ep.
      * simpl. unfold ret. apply (Returns _ _ false); auto. discriminate.
      * rewrite Z.leb_antisym.
        destruct (aws.Int64Value (ec2.TotalAvailableAddressCount p) <? want)%Z eqn:El.
        -- simpl. unfold ret. apply (Returns _ _ false); auto. discriminate.
        -- unfold eip.Debug. destruct (eip.Wrapper s) eqn:Hl; simpl;
             eexists; eexists; (split; [reflexivity|]); simpl;
             (split; [reflexivity|]); (split; [reflexivity|]); split.
           ++ split; [discriminate|].
              intros [[C _] | [_ C]]; discriminate C.
           ++ intros ok e H. inversion H; subst.
              split; [reflexivity|]. split; auto.
           ++ split; auto.
           ++ intros ok e H. discriminate H.
      * simpl. unfold ret. apply (Returns _ _ false); auto. discriminate.
    + eexists. eexists. split; [reflexivity|]. simpl.
      split; [reflexivity|]. split; [reflexivity|]. split.
      * split; auto.
      * intros ok e H. discriminate H.
Qed.

End RoleAndPool.

Lemma GetOrAllocateAddresses_reuses_within_role_witness :
  exists d : list (Interaction mock.TagSpec),
    ["a"; "c"] = reusable [mock.address "a" None; mock.address "b" (Some "eipassoc-1");
                           mock.address "c" None] ++ allocatedIds d
    /\ forall id, In id ["a"; "c"] ->
         exists a, In a [mock.address "a" None; mock.address "b" (Some "eipassoc-1");
                         mock.address "c" None]
                   /\ ec2.AssociationId a = None
                   /\ roleTag a = Some "worker"
                   /\ clusterTag a = Some "c1"
                   /\ id = aws.StringValue (ec2.AllocationId a).
Proof.
  edestruct (GetOrAllocateAddresses_reuses_within_role mock.BuildParamsToTagSpecification
               mock.plain 2 "worker" (mock.start mock.twoFree)
               {| ec2.Addresses := [mock.address "a" None;
                                    mock.address "b" (Some "eipassoc-1");
                                    mock.address "c" None] |})
    as [d [_ [El Hin]]].
  - discriminate.
  - reflexivity.
  - intros a f [<- | [<- | [<- | []]]] [<- | [<- | []]]; reflexivity.
  - vm_compute. reflexivity.
  - exists d. split; [exact El | exact Hin].
Defined.

Lemma publicIpv4PoolHasFreeIPs_answer_witness :
  (exists w',
      eip.publicIpv4PoolHasFreeIPs (mock.byo None) 1 (mock.start scene.poolHasRoom)
      = (Done (true, None), w')
      /\ mock.poolsAnswers (client w') = [])
  /\ (exists w',
        eip.publicIpv4PoolHasFreeIPs (mock.byoBuilt None) 1
          (mock.start scene.poolHasRoom) = (Panicked, w')
        /\ mock.poolsAnswers (client w') = []).
Proof.
  split.
  - destruct (publicIpv4PoolHasFreeIPs_answer (mock.byo None) 1
                (mock.start scene.poolHasRoom)
                {| infrav1.PublicIpv4Pool := Some "ipv4pool-ec2-1";
                   infrav1.PublicIpv4PoolFallBackOrder := None |}
                (Some {| ec2.PublicIpv4Pools := [mock.pool 5] |}) None
                {| mock.describeAddressesAnswers := [];
                   mock.allocateAnswers := [mock.minted "eipalloc-1"];
                   mock.disassociateAnswers := [];
                   mock.releaseAnswers := [];
                   mock.poolsAnswers := [] |})
      as [r [w' [E [_ [Ec [Hp Hd]]]]]].
    + reflexivity.
    + reflexivity.
    + exists w'. split; [|rewrite Ec; reflexivity].
      rewrite E. f_equal. destruct r as [[ok e]|].
      * destruct (Hd ok e eq_refl) as [Hok He]. subst ok.
        destruct He as [He _]. rewrite (He eq_refl). reflexivity.
      * destruct Hp as [Hp _].
        destruct (Hp eq_refl) as [[C _] | [_ C]]; discriminate C.
  - destruct (publicIpv4PoolHasFreeIPs_answer (mock.byoBuilt None) 1
                (mock.start scene.poolHasRoom)
                {| infrav1.PublicIpv4Pool := Some "ipv4pool-ec2-1";
                   infrav1.PublicIpv4PoolFallBackOrder := None |}
                (Some {| ec2.PublicIpv4Pools := [mock.pool 5] |}) None
                {| mock.describeAddressesAnswers := [];
                   mock.allocateAnswers := [mock.minted "eipalloc-1"];
                   mock.disassociateAnswers := [];
                   mock.releaseAnswers := [];
                   mock.poolsAnswers := [] |})
      as [r [w' [E [_ [Ec [Hp _]]]]]].
    + reflexivity.
    + reflexivity.
    + exists w'. split; [|rewrite Ec; reflexivity].
      rewrite E. f_equal. apply Hp. right. split; reflexivity.
Defined.
